(** * agentic-ebpf, go-http-server: the benchmark evaluator and its log summarizers

    A shallow embedding of
      - [workloads/basic-workload-summary.py]          (module [Basic]),
      - [workloads/per-connection-workload-summary.py] (module [PerConn]),
      - [openevolve_eval.py]                           (module [Eval]),
    over a small model of the Python runtime they rely on (module [Py]).

    Conventions.
      - A Python [float] is an IEEE 754 binary64 value: Rocq's primitive [float].
      - A Python [int] is a [Z].
      - A Python [str] is a [string]; its characters are the code points below
        256 (Latin-1), on which the character classes used by the sources
        (white space, [\d], [\w], lower-casing) are written out.
      - A raised exception is a value of an error type; a function that can
        raise returns a [result]. *)

From Stdlib Require Import ZArith Floats Ascii String DecimalString DecimalZ List Bool Lia.
From stdpp Require Import gmap strings.
Import ListNotations.

Set Warnings "-inexact-float".
Local Open Scope string_scope.
Local Open Scope Z_scope.

(* ===================================================================== *)
(** * Definitions *)
(* ===================================================================== *)

(** ** The Python runtime *)

Module Py.

(** *** Characters and strings *)

Definition code (c : ascii) : Z := Z.of_N (N_of_ascii c).

Definition between (lo hi : Z) (c : ascii) : bool :=
  (lo <=? code c) && (code c <=? hi).

(** [str.isspace] on one character: TAB..CR, FS..US, SPACE, NEL, NBSP. *)
Definition isspace (c : ascii) : bool :=
  between 9 13 c || between 28 32 c || (code c =? 133) || (code c =? 160).

(** [0-9], which is also [\d] below code point 256. *)
Definition isdigit (c : ascii) : bool := between 48 57 c.

(** [a-z]. *)
Definition islower_az (c : ascii) : bool := between 97 122 c.

(** [\w]: [str.isalnum] or the underscore. *)
Definition isword (c : ascii) : bool :=
  between 48 57 c || between 65 90 c || between 97 122 c || (code c =? 95)
  || (code c =? 170) || (code c =? 178) || (code c =? 179) || (code c =? 181)
  || between 185 186 c || between 188 190 c
  || between 192 214 c || between 216 246 c || between 248 255 c.

(** [str.lower] on one character. *)
Definition lower_char (c : ascii) : ascii :=
  if between 65 90 c || ((between 192 222 c) && negb (code c =? 215))
  then ascii_of_N (N_of_ascii c + 32) else c.

Fixpoint lower (s : string) : string :=
  match s with
  | EmptyString => EmptyString
  | String c s' => String (lower_char c) (lower s')
  end.

Fixpoint all (p : ascii -> bool) (s : string) : bool :=
  match s with
  | EmptyString => true
  | String c s' => p c && all p s'
  end.

Definition is_empty (s : string) : bool :=
  match s with EmptyString => true | _ => false end.

(** The longest prefix of [s] made of characters in [p], and the rest. *)
Fixpoint span (p : ascii -> bool) (s : string) : string * string :=
  match s with
  | EmptyString => (EmptyString, EmptyString)
  | String c s' =>
      if p c then let '(a, b) := span p s' in (String c a, b)
      else (EmptyString, s)
  end.

(** [s.lstrip(chars)], [s.rstrip(chars)] with the set of characters as a predicate. *)
Fixpoint lstrip_with (p : ascii -> bool) (s : string) : string :=
  match s with
  | EmptyString => EmptyString
  | String c s' => if p c then lstrip_with p s' else s
  end.

Fixpoint rstrip_with (p : ascii -> bool) (s : string) : string :=
  match s with
  | EmptyString => EmptyString
  | String c s' =>
      let r := rstrip_with p s' in
      if is_empty r && p c then EmptyString else String c r
  end.

(** [s.strip()] *)
Definition strip (s : string) : string := lstrip_with isspace (rstrip_with isspace s).

Definition is_newline (c : ascii) : bool := code c =? 10.

(** [s.rstrip("\n")] *)
Definition rstrip_newline (s : string) : string := rstrip_with is_newline s.

(** [s[len(p):]] when [s.startswith(p)]. *)
Fixpoint strip_prefix (p s : string) : option string :=
  match p, s with
  | EmptyString, _ => Some s
  | String a p', String b s' => if Ascii.eqb a b then strip_prefix p' s' else None
  | String _ _, EmptyString => None
  end.

Fixpoint strip_suffix (suf s : string) : option string :=
  if String.eqb s suf then Some EmptyString
  else match s with
       | EmptyString => None
       | String c s' => option_map (String c) (strip_suffix suf s')
       end.

(** [s.startswith(p)] *)
Definition startswith (p s : string) : bool :=
  match strip_prefix p s with
  | Some _ => true
  | None => false
  end.

(** [s.split()]: the maximal runs of characters that are not white space. *)
Fixpoint split (s : string) : list string :=
  match s with
  | EmptyString => []
  | String c s' =>
      if isspace c then split s'
      else match s' with
           | EmptyString => [String c EmptyString]
           | String c' _ =>
               if isspace c' then String c EmptyString :: split s'
               else match split s' with
                    | w :: ws => String c w :: ws
                    | [] => [String c EmptyString]
                    end
           end
  end.

(** [s.find(c)] for a single character: the text before the first [c] and
    the text after it, as [s.split(c, 1)] returns them. *)
Fixpoint split_once (c : ascii) (s : string) : option (string * string) :=
  match s with
  | EmptyString => None
  | String x s' =>
      if Ascii.eqb x c then Some (EmptyString, s')
      else match split_once c s' with
           | Some (a, b) => Some (String x a, b)
           | None => None
           end
  end.

(** [sep.join(l)] with an empty separator. *)
Definition concat (l : list string) : string := fold_right String.append EmptyString l.

(** *** Floats *)

Local Open Scope float_scope.

(** The binary64 value nearest to the rational [n / d] ([0 <= n], [0 < d]),
    ties to even, infinity past the largest finite value: the rounding of
    [float(text)], of [int / int] and of [float(int)]. *)
Definition scaled (n d e : Z) : Z * Z :=
  if (0 <=? e)%Z then (n, d * 2 ^ e)%Z else (n * 2 ^ (- e), d)%Z.

Definition round_ratio (n d : Z) : float :=
  if (n <=? 0)%Z then 0
  else
    let e0 := (Z.log2 n - Z.log2 d - 53)%Z in
    let '(a0, b0) := scaled n d e0 in
    let e1 := if (2 ^ 53 <=? a0 / b0)%Z then (e0 + 1)%Z else e0 in
    let e := Z.max e1 (-1074) in
    let '(a, b) := scaled n d e in
    let q := (a / b)%Z in
    let r := (a mod b)%Z in
    let q' := match (2 * r ?= b)%Z with
              | Lt => q
              | Gt => (q + 1)%Z
              | Eq => if Z.even q then q else (q + 1)%Z
              end in
    Z.ldexp (of_uint63 (Uint63.of_Z q')) e.

Definition round_signed_ratio (n d : Z) : float :=
  if (n <? 0)%Z then - round_ratio (- n) d else round_ratio n d.

(** The exact value of a finite float, as a numerator and a power-of-two
    denominator. *)
Definition exact_ratio (x : float) : Z * Z :=
  match Prim2SF x with
  | S754_finite s m e =>
      let '(a, b) := scaled (Z.pos m) 1 (- e) in
      (if s then (- a)%Z else a, b)
  | _ => (0%Z, 1%Z)
  end.

Definition digit_val (c : ascii) : Z := (code c - 48)%Z.

Fixpoint digits_val (acc : Z) (s : string) : Z :=
  match s with
  | EmptyString => acc
  | String c s' => digits_val (10 * acc + digit_val c)%Z s'
  end.

(** [float(text)] for a [text] of the shape [[0-9]*\.?[0-9]+] (digits, then
    possibly a point and more digits): the decimal value, correctly
    rounded.  On such a text [float] cannot raise. *)
Definition float_of_number (text : string) : float :=
  let '(ip, r) := span isdigit text in
  let fp := match r with String _ r' => r' | EmptyString => EmptyString end in
  round_ratio (digits_val (digits_val 0 ip) fp) (10 ^ Z.of_nat (String.length fp)).

(** [float(i)] for an int: [None] is [OverflowError]. *)
Definition float_of_int (i : Z) : option float :=
  let f := round_signed_ratio i 1 in
  if is_infinity f then None else Some f.

(** [statistics.mean] on a non-empty list of floats: the exact rational sum
    over the number of values, rounded once.  When a value is not finite the
    library adds up the non-finite values as floats instead. *)
Definition add_ratio (acc : Z * Z) (x : float) : Z * Z :=
  let '(a, b) := acc in
  let '(c, d) := exact_ratio x in
  (a * d + c * b, b * d)%Z.

Definition mean (data : list float) : float :=
  let n := Z.of_nat (List.length data) in
  if forallb is_finite data then
    let '(num, den) := fold_left add_ratio data (0, 1)%Z in
    round_signed_ratio num (den * n)
  else
    fold_left add (List.filter (fun x => negb (is_finite x)) data) 0
    / round_signed_ratio n 1.

(** The binary64 value nearest to the square root of [n / d]. *)
Definition round_sqrt_ratio (n d : Z) : float :=
  if (n <=? 0)%Z then 0
  else
    let e0 := ((Z.log2 n - Z.log2 d) / 2 - 53)%Z in
    let '(a0, b0) := scaled n d (2 * e0) in
    let e1 := if (2 ^ 53 <=? Z.sqrt (a0 / b0))%Z then (e0 + 1)%Z else e0 in
    let e := Z.max e1 (-1074) in
    let '(a, b) := scaled n d (2 * e) in
    let s := Z.sqrt (a / b) in
    let s' := match (4 * a ?= (2 * s + 1) * (2 * s + 1) * b)%Z with
              | Lt => s
              | Gt => (s + 1)%Z
              | Eq => if Z.even s then s else (s + 1)%Z
              end in
    Z.ldexp (of_uint63 (Uint63.of_Z s')) e.

(** [statistics.pstdev] as CPython 3.11 computes it on finite floats: the
    exact population variance, then one correctly rounded square root.
    [None] stands for the exception the library raises on other data. *)
Definition pstdev (data : list float) : option float :=
  let n := Z.of_nat (List.length data) in
  if negb (forallb is_finite data) || (n =? 0)%Z then None
  else
    let '(sx, dx) := fold_left add_ratio data (0, 1)%Z in
    (* the mean is sx / (dx * n); each deviation is (c * dx * n - sx * d) / (d * dx * n) *)
    let dev2 (acc : Z * Z) (x : float) : Z * Z :=
      let '(a, b) := acc in
      let '(c, d) := exact_ratio x in
      let u := (c * dx * n - sx * d)%Z in
      let v := (d * dx * n)%Z in
      (a * (v * v) + u * u * b, b * (v * v))%Z in
    let '(ss, ds) := fold_left dev2 data (0, 1)%Z in
    Some (round_sqrt_ratio ss (ds * n)).

(** *** Division and [int(text)] *)

Inductive arith_error : Type := ZeroDivisionError | OverflowError.

(** [a / b] on two floats. *)
Definition truediv_float (a b : float) : arith_error + float :=
  if b =? 0 then inl ZeroDivisionError else inr (a / b).

(** [a / b] on an int and a float: the int is converted first. *)
Definition truediv_int_float (a : Z) (b : float) : arith_error + float :=
  match float_of_int a with
  | None => inl OverflowError
  | Some x => truediv_float x b
  end.

(** [a / b] on two ints: the exact quotient, rounded once. *)
Definition truediv_int (a b : Z) : arith_error + float :=
  if (b =? 0)%Z then inl ZeroDivisionError
  else
    let f := if (b <? 0)%Z then - round_signed_ratio a (- b) else round_signed_ratio a b in
    if is_infinity f then inl OverflowError else inr f.

(** Digits with single underscores between them, as [int] accepts them:
    the value of the digits read so far and whether a digit came last. *)
Fixpoint int_digits (acc : Z) (after_digit : bool) (s : string) : option Z :=
  match s with
  | EmptyString => if after_digit then Some acc else None
  | String c s' =>
      if isdigit c then int_digits (10 * acc + digit_val c)%Z true s'
      else if Ascii.eqb c "_" && after_digit
           then match s' with
                | String c' _ => if isdigit c' then int_digits acc false s' else None
                | EmptyString => None
                end
           else None
  end.

(** [int(text)] in base ten; [None] is [ValueError].  (CPython 3.11 also
    refuses texts of more than 4300 digits; the summarizer that calls
    [int] takes the builtin as a parameter.) *)
Definition int_of_text (text : string) : option Z :=
  match strip text with
  | String "-" s => option_map Z.opp (int_digits 0 false s)
  | String "+" s => int_digits 0 false s
  | s => int_digits 0 false s
  end.

(** Digits with single underscores between them, at the start of [s]: the
    digits without the underscores, and the rest. *)
Fixpoint scan_digits (after_digit : bool) (s : string) : string * string :=
  match s with
  | EmptyString => (EmptyString, EmptyString)
  | String c s' =>
      if isdigit c then let '(d, r) := scan_digits true s' in (String c d, r)
      else if Ascii.eqb c "_" && after_digit
           then match s' with
                | String c' _ => if isdigit c' then scan_digits false s' else (EmptyString, s)
                | EmptyString => (EmptyString, s)
                end
           else (EmptyString, s)
  end.

Definition split_sign (s : string) : bool * string :=
  match s with
  | String "-" s' => (true, s')
  | String "+" s' => (false, s')
  | _ => (false, s)
  end.

(** The exponent part of a decimal literal, which has to end the text. *)
Definition scan_exponent (s : string) : option Z :=
  match s with
  | EmptyString => Some 0%Z
  | String "e" s' =>
      let '(neg, s'') := split_sign s' in
      match scan_digits false s'' with
      | (String _ _ as d, EmptyString) =>
          Some (if neg then (- digits_val 0 d)%Z else digits_val 0 d)
      | _ => None
      end
  | _ => None
  end.

(** [float(text)]; [None] is [ValueError]. *)
Definition float_of_text (text : string) : option float :=
  let '(neg, body) := split_sign (lower (strip text)) in
  let signed (x : float) := if neg then - x else x in
  if String.eqb body "inf" || String.eqb body "infinity" then Some (signed infinity)
  else if String.eqb body "nan" then Some nan
  else
    let '(ip, r1) := scan_digits false body in
    let '(fp, r2) := match r1 with
                     | String "." r => scan_digits false r
                     | _ => (EmptyString, r1)
                     end in
    if is_empty ip && is_empty fp then None
    else match scan_exponent r2 with
         | None => None
         | Some e =>
             let n := digits_val (digits_val 0 ip) fp in
             let k := (e - Z.of_nat (String.length fp))%Z in
             Some (signed (if (0 <=? k)%Z then round_ratio (n * 10 ^ k) 1
                           else round_ratio n (10 ^ (- k))))
         end.

(** *** Paths ([pathlib.PurePosixPath]) *)

(** The text before the last [c] and the text after it. *)
Fixpoint rsplit_once (c : ascii) (s : string) : option (string * string) :=
  match s with
  | EmptyString => None
  | String x s' =>
      match rsplit_once c s' with
      | Some (a, b) => Some (String x a, b)
      | None => if Ascii.eqb x c then Some (EmptyString, s') else None
      end
  end.

(** The components of a path: the texts between slashes, without the empty
    ones and the single dots. *)
Fixpoint components (cur : string) (s : string) : list string :=
  let close (rest : list string) :=
    if String.eqb cur "" || String.eqb cur "." then rest else cur :: rest in
  match s with
  | EmptyString => close []
  | String c s' =>
      if Ascii.eqb c "/" then close (components EmptyString s')
      else components (cur ++ String c EmptyString) s'
  end.

(** [path.name]: the last component, or the empty text. *)
Definition path_name (path : string) : string :=
  List.last (components EmptyString path) EmptyString.

(** [path.stem]: the name without its last suffix; a point that starts or
    ends the name does not begin a suffix. *)
Definition stem_of_name (name : string) : string :=
  match rsplit_once "." name with
  | Some (a, b) => if is_empty a || is_empty b then name else a
  | None => name
  end.

Definition path_stem (path : string) : string := stem_of_name (path_name path).

(** *** Exceptions *)

Inductive result (E A : Type) : Type :=
| Ok (a : A)
| Raise (e : E).
Arguments Ok {E A} a.
Arguments Raise {E A} e.

Definition bind {E A B} (r : result E A) (k : A -> result E B) : result E B :=
  match r with
  | Ok a => k a
  | Raise e => Raise e
  end.

(** [try: r except E as exc: raise wrap(exc)] *)
Definition reraise {E A} (wrap : E -> E) (r : result E A) : result E A :=
  match r with
  | Ok a => Ok a
  | Raise e => Raise (wrap e)
  end.

(** A [for] loop whose body can raise, threading the loop's variables. *)
Fixpoint for_each {E S X} (body : S -> X -> result E S) (s : S) (xs : list X)
  : result E S :=
  match xs with
  | [] => Ok s
  | x :: xs' => bind (body s x) (fun s' => for_each body s' xs')
  end.

(** *** List comprehensions *)

(** [[f(x) for x in xs]] where [f] can raise: the first exception ends it. *)
Fixpoint comprehension {E X A} (f : X -> result E A) (xs : list X) : result E (list A) :=
  match xs with
  | [] => Ok []
  | x :: xs' => bind (f x) (fun a => bind (comprehension f xs') (fun rest => Ok (a :: rest)))
  end.

(** *** Formatting *)

(** [str(i)] on an int. *)
Definition str_int (i : Z) : string := NilZero.string_of_int (Z.to_int i).

Definition digit_char (d : Z) : ascii := ascii_of_N (Z.to_N (48 + d)).

(** The last [n] decimal digits of [v], zeros included. *)
Fixpoint fixed_digits (n : nat) (v : Z) : string :=
  match n with
  | O => EmptyString
  | S n' => fixed_digits n' (v / 10) ++ String (digit_char (v mod 10)) EmptyString
  end.

(** The integer nearest to [a / b] ([0 <= a], [0 < b]), ties to even. *)
Definition round_half_even (a b : Z) : Z :=
  let q := (a / b)%Z in
  let r := (a mod b)%Z in
  match (2 * r ?= b)%Z with
  | Lt => q
  | Gt => (q + 1)%Z
  | Eq => if Z.even q then q else (q + 1)%Z
  end.

(** [f"{x:.6f}"]: the multiple of one millionth nearest to the exact value
    of [x], ties to even, written with its sign, its integer part and six
    digits after the point; the three texts of the values that are not
    finite. *)
Definition format_6f (x : float) : string :=
  match Prim2SF x with
  | S754_nan => "nan"
  | S754_infinity s => if s then "-inf" else "inf"
  | S754_zero s => (if s then "-" else "") ++ "0.000000"
  | S754_finite s m e =>
      let '(a, b) := scaled (Z.pos m) 1 (- e) in
      let q := round_half_even (a * 10 ^ 6) b in
      (if s then "-" else "")
      ++ str_int (q / 10 ^ 6) ++ "." ++ fixed_digits 6 (q mod 10 ^ 6)
  end.

(** *** The [csv] module, record by record *)

(** [csv.DictWriter(handle, fieldnames).writerow(rowdict)], with the
    defaults of the class: the cells of the record written, or the
    [ValueError] that names the keys of [rowdict] that are no field
    names. *)
Definition writerow (fieldnames : list string) (rowdict : gmap string string)
  : result (gset string) (list string) :=
  let wrong_fields : gset string := dom rowdict ∖ list_to_set fieldnames in
  if decide (wrong_fields = ∅)
  then Ok (map (fun key => default EmptyString (rowdict !! key)) fieldnames)
  else Raise wrong_fields.

(** One row of [csv.DictReader]: [dict(zip(fieldnames, cells))], and [None]
    under the field names that the record is too short for. *)
Fixpoint DictReader_row (fieldnames cells : list string) (d : gmap string (option string))
  : gmap string (option string) :=
  match fieldnames, cells with
  | [], _ => d
  | key :: fieldnames', c :: cells' => DictReader_row fieldnames' cells' (<[key := Some c]> d)
  | key :: fieldnames', [] => DictReader_row fieldnames' [] (<[key := None]> d)
  end.

(** [csv.DictReader(handle)] on the records of a file: the first one gives
    the field names, the empty ones after it are passed over. *)
Definition DictReader (records : list (list string)) : list (gmap string (option string)) :=
  match records with
  | [] => []
  | fieldnames :: rest =>
      map (fun cells => DictReader_row fieldnames cells ∅)
          (List.filter (fun cells => match cells with [] => false | _ => true end) rest)
  end.

(** *** Joining paths *)

(** [path / name] for a [name] that does not begin with a slash. *)
Definition joinpath (path name : string) : string :=
  if is_empty path then name
  else match strip_suffix "/" path with
       | Some _ => path ++ name
       | None => path ++ "/" ++ name
       end.

End Py.

Notation "'try' x <- r ; k" := (Py.bind r (fun x => k))
  (at level 10, x name, r at level 100, k at level 200, only parsing).

(** ** workloads/basic-workload-summary.py *)

Module Basic.
Import Py.
Local Open Scope float_scope.

(** The [ValueError]s of the module, one constructor per [raise] site, with
    the values its message is formatted from. *)
Inductive error : Type :=
| UnrecognizedLatency (token : string)
| UnsupportedLatencyUnit (token : string)
| UnrecognizedThroughput (token : string)
| UnsupportedThroughputSuffix (token : string)
| MissingFields (names : list string)
| InFile (path : string) (exc : error)
| InSection (path name : string) (exc : error)
| NestedSectionStart (path current_name : string)
| SectionEndMismatch (path found current_name : string)
| UnterminatedSection (path current_name : string)
| NoWorkerSections (path : string)
| NoWorkerStats
| ZeroAverageLatency
| StatisticsRaised.

(** The error taxonomy of the specification; the source raises them all as
    [ValueError] and tells them apart by message only. *)
Inductive error_kind : Type :=
| FormatError | MissingFieldError | StructureError
| EmptyResultError | EmptyInputError | DivisionError | LibraryError.

Fixpoint kind_of (e : error) : error_kind :=
  match e with
  | UnrecognizedLatency _ | UnsupportedLatencyUnit _
  | UnrecognizedThroughput _ | UnsupportedThroughputSuffix _ => FormatError
  | MissingFields _ => MissingFieldError
  | InFile _ exc | InSection _ _ exc => kind_of exc
  | NestedSectionStart _ _ | SectionEndMismatch _ _ _
  | UnterminatedSection _ _ => StructureError
  | NoWorkerSections _ => EmptyResultError
  | NoWorkerStats => EmptyInputError
  | ZeroAverageLatency => DivisionError
  | StatisticsRaised => LibraryError
  end.

Definition _LATENCY_UNITS_MS : gmap string float :=
  {[ "us" := 1e-3; "ms" := 1.0; "s" := 1e3 ]}.

Definition _THROUGHPUT_SUFFIXES : gmap string float :=
  {[ "" := 1.0; "k" := 1e3; "m" := 1e6; "g" := 1e9 ]}.

(** Group 1 of the two token patterns, [[0-9]*\.?[0-9]+], matched at the
    start of [s]: the matched text and what follows it.  A point that no
    digit follows is left to what follows. *)
Definition scan_number (s : string) : option (string * string) :=
  let '(ip, r) := span isdigit s in
  let whole := if is_empty ip then None else Some (ip, r) in
  match r with
  | String c r' =>
      if Ascii.eqb c "." then
        let '(fp, r'') := span isdigit r' in
        if is_empty fp then whole else Some (ip ++ String "." fp, r'')
      else whole
  | EmptyString => whole
  end.

(** [re.fullmatch(r"([0-9]*\.?[0-9]+)([a-z]+)", s)]: groups 1 and 2. *)
Definition fullmatch_latency (s : string) : option (string * string) :=
  match scan_number s with
  | Some (number, unit) =>
      if negb (is_empty unit) && all islower_az unit then Some (number, unit) else None
  | None => None
  end.

Definition is_kmg (c : ascii) : bool :=
  Ascii.eqb c "k" || Ascii.eqb c "m" || Ascii.eqb c "g".

(** [re.fullmatch(r"([0-9]*\.?[0-9]+)([kmg]?)", s)]: groups 1 and 2. *)
Definition fullmatch_throughput (s : string) : option (string * string) :=
  match scan_number s with
  | Some (number, suffix) =>
      match suffix with
      | EmptyString => Some (number, suffix)
      | String c EmptyString => if is_kmg c then Some (number, suffix) else None
      | _ => None
      end
  | None => None
  end.

Definition parse_latency (token : string) : result error float :=
  match fullmatch_latency (lower token) with
  | None => Raise (UnrecognizedLatency token)
  | Some (number, unit) =>
      let value := float_of_number number in
      match _LATENCY_UNITS_MS !! unit with
      | None => Raise (UnsupportedLatencyUnit token)
      | Some factor => Ok (value * factor)
      end
  end.

Definition is_nan_text (s : string) : bool :=
  String.eqb s "nan" || String.eqb s "-nan" || String.eqb s "+nan".

Definition parse_throughput (token : string) : result error float :=
  let token := strip token in
  if is_nan_text (lower token) then Ok 0.0
  else
    match fullmatch_throughput (lower token) with
    | None => Raise (UnrecognizedThroughput token)
    | Some (number, suffix) =>
        let value := float_of_number number in
        match _THROUGHPUT_SUFFIXES !! suffix with
        | None => Raise (UnsupportedThroughputSuffix token)
        | Some factor => Ok (value * factor)
        end
    end.

(** The four local variables of [_extract_metrics_from_lines]; [None] is
    Python's [None]. *)
Record fields : Type := {
  f_latency_avg_ms : option float;
  f_latency_stdev_ms : option float;
  f_req_avg : option float;
  f_req_stdev : option float;
}.

Definition no_fields : fields :=
  {| f_latency_avg_ms := None; f_latency_stdev_ms := None;
     f_req_avg := None; f_req_stdev := None |}.

(** [parts[i]], read only where [len(parts) >= 3] has been checked. *)
Definition part (parts : list string) (i : nat) : string := nth i parts EmptyString.

(** One turn of the loop over the lines. *)
Definition scan_line (st : fields) (raw_line : string) : result error fields :=
  let line := strip raw_line in
  if startswith "Latency" line then
    let parts := split line in
    if (List.length parts <? 3)%nat then Ok st
    else
      try avg <- parse_latency (part parts 1);
      try stdev <- parse_latency (part parts 2);
      Ok {| f_latency_avg_ms := Some avg; f_latency_stdev_ms := Some stdev;
            f_req_avg := f_req_avg st; f_req_stdev := f_req_stdev st |}
  else if startswith "Req/Sec" line then
    let parts := split line in
    if (List.length parts <? 3)%nat then Ok st
    else
      try avg <- parse_throughput (part parts 1);
      try stdev <- parse_throughput (part parts 2);
      Ok {| f_latency_avg_ms := f_latency_avg_ms st;
            f_latency_stdev_ms := f_latency_stdev_ms st;
            f_req_avg := Some avg; f_req_stdev := Some stdev |}
  else Ok st.

Definition missing_name {A} (name : string) (value : option A) : list string :=
  match value with None => [name] | Some _ => [] end.

Definition missing (st : fields) : list string :=
  missing_name "latency_avg" (f_latency_avg_ms st)
  ++ missing_name "latency_stdev" (f_latency_stdev_ms st)
  ++ missing_name "req_per_sec_avg" (f_req_avg st)
  ++ missing_name "req_per_sec_stdev" (f_req_stdev st).

Definition finish (st : fields) : result error (float * float * float * float) :=
  match f_latency_avg_ms st, f_latency_stdev_ms st, f_req_avg st, f_req_stdev st with
  | Some la, Some ls, Some ra, Some rs => Ok (la, ls, ra, rs)
  | _, _, _, _ => Raise (MissingFields (missing st))
  end.

Definition _extract_metrics_from_lines (lines : list string)
  : result error (float * float * float * float) :=
  try st <- for_each scan_line no_fields lines;
  finish st.

(** Where a record was read from: a worker's own file [path], or the section
    [name] of the aggregated file [path] (the source builds
    [path.parent / name]). *)
Inductive source : Type :=
| File (path : string)
| Section_ (path name : string).

Record WorkerStats : Type := {
  worker_id : string;
  latency_avg_ms : float;
  latency_stdev_ms : float;
  req_per_sec_avg : float;
  req_per_sec_stdev : float;
  log_path : source;
}.

(** [_WORKER_RE = re.compile(r"wrk_client_(\d+)\.log$")] tried at the start
    of [s]: group 1.  The digits are taken greedily, which loses no match
    since a point has to follow them; [$] is the end of the text or the
    place before a newline that ends it. *)
Definition match_worker_here (s : string) : option string :=
  match strip_prefix "wrk_client_" s with
  | Some r =>
      let '(digits, r') := span isdigit r in
      if negb (is_empty digits)
         && (String.eqb r' ".log" || String.eqb r' (".log" ++ String "010" EmptyString))
      then Some digits else None
  | None => None
  end.

(** [_WORKER_RE.search(s)]: the first position where the pattern matches. *)
Fixpoint search_worker (s : string) : option string :=
  match match_worker_here s with
  | Some digits => Some digits
  | None =>
      match s with
      | EmptyString => None
      | String _ s' => search_worker s'
      end
  end.

Definition _deduce_worker_id (path : string) : string :=
  match search_worker (path_name path) with
  | Some digits => digits
  | None => path_stem path
  end.

(** [parse_wrk_log(path)] on the lines read from [path]: those of a file
    that decodes as UTF-8.  (On a file that does not, the reading itself
    raises [UnicodeDecodeError], which is outside this model.) *)
Definition parse_wrk_log (path : string) (lines : list string)
  : result error WorkerStats :=
  let worker_id := _deduce_worker_id path in
  try m <- reraise (InFile path) (_extract_metrics_from_lines lines);
  let '(latency_avg_ms, latency_stdev_ms, req_avg, req_stdev) := m in
  Ok {| worker_id := worker_id;
        latency_avg_ms := latency_avg_ms;
        latency_stdev_ms := latency_stdev_ms;
        req_per_sec_avg := req_avg;
        req_per_sec_stdev := req_stdev;
        log_path := File path |}.

Definition no_newline (s : string) : bool := all (fun c => negb (is_newline c)) s.

(** [re.compile(r"^===== (.+) <KEYWORD> =====$").match(s)]: group 1.  The
    pattern is tied to both ends of the text, so the group is what lies
    between the two fixed parts; it is not empty and holds no newline. *)
Definition match_marker (keyword s : string) : option string :=
  let body := match strip_suffix (String "010" EmptyString) s with
              | Some b => b
              | None => s
              end in
  match strip_prefix "===== " body with
  | Some r =>
      match strip_suffix (" " ++ keyword ++ " =====") r with
      | Some name => if negb (is_empty name) && no_newline name then Some name else None
      | None => None
      end
  | None => None
  end.

Definition _SECTION_START_RE : string -> option string := match_marker "START".
Definition _SECTION_END_RE : string -> option string := match_marker "END".

(** The local variables of [parse_aggregated_log]: the state of the
    splitter.  [current_name = None] is OUTSIDE_SECTION, [Some name] is
    INSIDE_SECTION(name). *)
Record splitter : Type := {
  stats : list WorkerStats;
  current_name : option string;
  current_lines : list string;
}.

Definition splitter_start : splitter :=
  {| stats := []; current_name := None; current_lines := [] |}.

(** One turn of the loop over the lines of the aggregated file. *)
Definition feed (path : string) (st : splitter) (raw_line : string)
  : result error splitter :=
  let stripped := rstrip_newline raw_line in
  match _SECTION_START_RE stripped with
  | Some name =>
      match current_name st with
      | Some open => Raise (NestedSectionStart path open)
      | None => Ok {| stats := stats st; current_name := Some name; current_lines := [] |}
      end
  | None =>
      match _SECTION_END_RE stripped, current_name st with
      | Some found, Some open =>
          if negb (String.eqb found open)
          then Raise (SectionEndMismatch path found open)
          else
            let worker_id := _deduce_worker_id open in
            try m <- reraise (InSection path open)
                       (_extract_metrics_from_lines (current_lines st));
            let '(latency_avg_ms, latency_stdev_ms, req_avg, req_stdev) := m in
            Ok {| stats := stats st ++
                    [ {| worker_id := worker_id;
                         latency_avg_ms := latency_avg_ms;
                         latency_stdev_ms := latency_stdev_ms;
                         req_per_sec_avg := req_avg;
                         req_per_sec_stdev := req_stdev;
                         log_path := Section_ path open |} ];
                  current_name := None;
                  current_lines := [] |}
      | _, _ =>
          match current_name st with
          | Some _ => Ok {| stats := stats st; current_name := current_name st;
                            current_lines := current_lines st ++ [raw_line] |}
          | None => Ok st
          end
      end
  end.

(** [parse_aggregated_log(path)] on the lines read from [path]: those of a
    file that decodes as UTF-8.  (On a file that does not, the reading
    itself raises [UnicodeDecodeError], which is outside this model.) *)
Definition parse_aggregated_log (path : string) (lines : list string)
  : result error (list WorkerStats) :=
  try st <- for_each (feed path) splitter_start lines;
  match current_name st with
  | Some open => Raise (UnterminatedSection path open)
  | None =>
      match stats st with
      | [] => Raise (NoWorkerSections path)
      | _ => Ok (stats st)
      end
  end.

Record RunMetrics : Type := {
  workers : Z;
  avg_latency_ms : float;
  latency_stddev_ms : float;
  avg_req_per_sec : float;
  req_per_sec_stddev : float;
  score : float;
}.

Section Statistics.

(** [statistics.pstdev] of the Python library in use; [None] when it
    raises.  [Py.pstdev] is CPython 3.11's. *)
Variable pstdev : list float -> option float.

Definition pstdev_or_raise (values : list float) : result error float :=
  match pstdev values with
  | Some v => Ok v
  | None => Raise StatisticsRaised
  end.

Definition compute_run_metrics (stats : list WorkerStats) : result error RunMetrics :=
  match stats with
  | [] => Raise NoWorkerStats
  | _ =>
      let latency_values := map latency_avg_ms stats in
      let req_values := map req_per_sec_avg stats in
      let avg_latency_ms := mean latency_values in
      let avg_req_per_sec := mean req_values in
      try latency_stddev_ms <-
        (if (1 <? List.length stats)%nat then pstdev_or_raise latency_values else Ok 0.0);
      try req_stddev <-
        (if (1 <? List.length stats)%nat then pstdev_or_raise req_values else Ok 0.0);
      if avg_latency_ms =? 0 then Raise ZeroAverageLatency
      else
        let score := avg_req_per_sec / avg_latency_ms in
        Ok {| workers := Z.of_nat (List.length stats);
              avg_latency_ms := avg_latency_ms;
              latency_stddev_ms := latency_stddev_ms;
              avg_req_per_sec := avg_req_per_sec;
              req_per_sec_stddev := req_stddev;
              score := score |}
  end.

End Statistics.

(** [RunMetrics.as_row] *)
Definition RunMetrics_as_row (m : RunMetrics) : gmap string string :=
  {[ "workers" := str_int (workers m);
     "avg_latency_ms" := format_6f (avg_latency_ms m);
     "latency_stddev_ms" := format_6f (latency_stddev_ms m);
     "avg_req_per_sec" := format_6f (avg_req_per_sec m);
     "req_per_sec_stddev" := format_6f (req_per_sec_stddev m);
     "score" := format_6f (score m) ]}.

(** [write_metrics_csv(metrics, output_path)]: the records written to the
    file, the header first; the exception is [csv]'s. *)
Definition write_metrics_csv (metrics : RunMetrics)
  : result (gset string) (list (list string)) :=
  let fieldnames :=
    [ "workers"; "avg_latency_ms"; "latency_stddev_ms";
      "avg_req_per_sec"; "req_per_sec_stddev"; "score" ] in
  try record <- writerow fieldnames (RunMetrics_as_row metrics);
  Ok [fieldnames; record].

(** *** [main] *)

(** What [main] finds at [logs_dir]: nothing, something that is no
    directory, or a directory with its worker logs (path and lines, in
    sorted order) and, if it is there, the lines of [basic-workload.log]. *)
Inductive logs_dir_state : Type :=
| NoSuchPath
| NotADirectory
| Directory (worker_logs : list (string * list string))
            (aggregated_log : option (list string)).

(** The parsed command line. *)
Record arguments : Type := {
  logs_dir : string;
  output : string;
  metrics_output : string;
}.

(** The texts [main] prints, one constructor per [print]. *)
Inductive message : Type :=
| LogsDirectoryNotFound (logs_dir : string)
| LogsPathNotADirectory (logs_dir : string)
| NoLogsFound (logs_dir : string)
| WroteCSV (output_path : string)
| WroteMetricsCSV (metrics_output : string).

(** What [main] does to the world, in order. *)
Inductive effect : Type :=
| PrintErr (m : message)                                    (* print(..., file=sys.stderr) *)
| PrintOut (m : message)                                    (* print(...) *)
| WriteCsv (output_path : string) (stats : list WorkerStats)      (* write_csv *)
| WriteMetricsCsv (metrics_output : string) (metrics : RunMetrics). (* write_metrics_csv *)

Section Main.

Variable pstdev : list float -> option float.

(** The end of [main], once [stats] is not empty. *)
Definition write_outputs (args : arguments) (stats : list WorkerStats)
  : list effect * result error Z :=
  let written := [ WriteCsv (output args) stats; PrintOut (WroteCSV (output args)) ] in
  match compute_run_metrics pstdev stats with
  | Raise e => (written, Raise e)
  | Ok metrics =>
      ((written ++ [ WriteMetricsCsv (metrics_output args) metrics;
                     PrintOut (WroteMetricsCSV (metrics_output args)) ])%list,
       Ok 0%Z)
  end.

(** [main(argv)] after the command line is parsed: what it does, and the
    exit status it returns or the exception that leaves it. *)
Definition main (args : arguments) (found : logs_dir_state)
  : list effect * result error Z :=
  match found with
  | NoSuchPath => ([ PrintErr (LogsDirectoryNotFound (logs_dir args)) ], Ok 1%Z)
  | NotADirectory => ([ PrintErr (LogsPathNotADirectory (logs_dir args)) ], Ok 1%Z)
  | Directory worker_logs aggregated_log =>
      match comprehension (fun '(path, lines) => parse_wrk_log path lines) worker_logs with
      | Raise e => ([], Raise e)
      | Ok [] =>
          match aggregated_log with
          | Some lines =>
              match parse_aggregated_log (joinpath (logs_dir args) "basic-workload.log")
                                         lines with
              | Raise e => ([], Raise e)
              | Ok stats => write_outputs args stats
              end
          | None => ([ PrintErr (NoLogsFound (logs_dir args)) ], Ok 1%Z)
          end
      | Ok stats => write_outputs args stats
      end
  end.

End Main.

End Basic.

(** ** workloads/per-connection-workload-summary.py *)

Module PerConn.
Import Py.
Local Open Scope float_scope.

Inductive error : Type :=
| MissingFields (path : string) (names : list string)   (* ValueError, raised by the module *)
| IntValueError (text : string)                         (* ValueError, raised by [int] *)
| Arith (e : arith_error).                              (* raised by [/] *)

Definition arith {A} (r : arith_error + A) : result error A :=
  match r with
  | inl e => Raise (Arith e)
  | inr a => Ok a
  end.

Record WorkerSummary : Type := {
  worker_id : string;
  total_requests : Z;
  success : Z;
  failure : Z;
  duration_sec : float;
  throughput_req_per_sec : float;
  latency_avg_ms : float;
  latency_min_ms : float;
  latency_max_ms : float;
  summary_path : string;
}.

(** One turn of the loop that fills [data]. *)
Definition read_line (data : gmap string string) (raw_line : string) : gmap string string :=
  let line := strip raw_line in
  if is_empty line then data
  else match split_once "=" line with
       | None => data
       | Some (key, value) => <[strip key := strip value]> data
       end.

Definition read_data (lines : list string) : gmap string string :=
  fold_left read_line lines ∅.

Definition required_keys : list string :=
  [ "success"; "failure"; "latency_sum_ns"; "latency_count";
    "latency_min_ns"; "latency_max_ns"; "duration_ns" ].

Definition missing (data : gmap string string) : list string :=
  List.filter (fun key => match data !! key with Some _ => false | None => true end)
              required_keys.

Definition _extract_worker_id (path : string) : string :=
  let name := path_stem path in
  if startswith "worker_" name
  then match split_once "_" name with
       | Some (_, rest) => rest
       | None => name
       end
  else name.

Section Builtins.

(** The builtin [int] on a text; [None] when it raises [ValueError].
    [Py.int_of_text] is the base-ten reading. *)
Variable int : string -> option Z.

(** [int(data[key])], once [key] is known to be in [data]. *)
Definition int_field (data : gmap string string) (key : string) : result error Z :=
  let text := default EmptyString (data !! key) in
  match int text with
  | Some i => Ok i
  | None => Raise (IntValueError text)
  end.

(** The arithmetic of [parse_summary_file] on the seven integers. *)
Definition summarize (path : string)
    (success failure latency_count latency_sum_ns latency_min_ns latency_max_ns duration_ns : Z)
  : result error WorkerSummary :=
  let total_requests := (success + failure)%Z in
  try duration_sec <-
    (if (0 <? duration_ns)%Z then arith (truediv_int_float duration_ns 1e9) else Ok 0.0);
  try throughput_req_per_sec <-
    (if 0 <? duration_sec then arith (truediv_int_float total_requests duration_sec)
     else Ok 0.0);
  try latency_avg_ms <-
    (if (0 <? latency_count)%Z
     then try q <- arith (truediv_int latency_sum_ns latency_count);
          arith (truediv_float q 1e6)
     else Ok 0.0);
  try latency_min_ms <-
    (if (0 <? latency_min_ns)%Z then arith (truediv_int_float latency_min_ns 1e6) else Ok 0.0);
  try latency_max_ms <-
    (if (0 <? latency_max_ns)%Z then arith (truediv_int_float latency_max_ns 1e6) else Ok 0.0);
  let worker_id := _extract_worker_id path in
  Ok {| worker_id := worker_id;
        total_requests := total_requests;
        success := success;
        failure := failure;
        duration_sec := duration_sec;
        throughput_req_per_sec := throughput_req_per_sec;
        latency_avg_ms := latency_avg_ms;
        latency_min_ms := latency_min_ms;
        latency_max_ms := latency_max_ms;
        summary_path := path |}.

(** [parse_summary_file(path)] on the lines read from [path]. *)
Definition parse_summary_file (path : string) (lines : list string)
  : result error WorkerSummary :=
  let data := read_data lines in
  match missing data with
  | (_ :: _) as names => Raise (MissingFields path names)
  | [] =>
      try success <- int_field data "success";
      try failure <- int_field data "failure";
      try latency_count <- int_field data "latency_count";
      try latency_sum_ns <- int_field data "latency_sum_ns";
      try latency_min_ns <- int_field data "latency_min_ns";
      try latency_max_ns <- int_field data "latency_max_ns";
      try duration_ns <- int_field data "duration_ns";
      summarize path success failure latency_count latency_sum_ns
                latency_min_ns latency_max_ns duration_ns
  end.

End Builtins.

Record RunMetrics : Type := {
  workers : Z;
  avg_latency_ms : float;
  latency_stddev_ms : float;
  avg_req_per_sec : float;
  req_per_sec_stddev : float;
  score : float;
}.

(** The [ValueError]s of [compute_run_metrics], and what [statistics]
    raises. *)
Inductive scoring_error : Type :=
| NoWorkerStats
| ZeroAverageLatency
| StatisticsRaised.

Section Statistics.

(** [statistics.pstdev] of the Python library in use; [None] when it raises. *)
Variable pstdev : list float -> option float.

Definition pstdev_or_raise (values : list float) : result scoring_error float :=
  match pstdev values with
  | Some v => Ok v
  | None => Raise StatisticsRaised
  end.

Definition compute_run_metrics (stats : list WorkerSummary)
  : result scoring_error RunMetrics :=
  match stats with
  | [] => Raise NoWorkerStats
  | _ =>
      let latency_values := map latency_avg_ms stats in
      let throughput_values := map throughput_req_per_sec stats in
      let avg_latency_ms := mean latency_values in
      let avg_req_per_sec := mean throughput_values in
      try latency_stddev_ms <-
        (if (1 <? List.length stats)%nat then pstdev_or_raise latency_values else Ok 0.0);
      try req_stddev <-
        (if (1 <? List.length stats)%nat then pstdev_or_raise throughput_values else Ok 0.0);
      if avg_latency_ms =? 0 then Raise ZeroAverageLatency
      else
        let score := avg_req_per_sec / avg_latency_ms in
        Ok {| workers := Z.of_nat (List.length stats);
              avg_latency_ms := avg_latency_ms;
              latency_stddev_ms := latency_stddev_ms;
              avg_req_per_sec := avg_req_per_sec;
              req_per_sec_stddev := req_stddev;
              score := score |}
  end.

End Statistics.

(** *** [main] *)

(** What [main] finds at [logs_dir]: nothing, something that is no
    directory, or a directory with its [worker_*.summary] files (path and
    lines, in sorted order). *)
Inductive logs_dir_state : Type :=
| NoSuchPath
| NotADirectory
| Directory (summary_files : list (string * list string)).

(** The parsed command line. *)
Record arguments : Type := {
  logs_dir : string;
  output : string;
  metrics_output : string;
}.

(** The texts [main] prints, one constructor per [print]. *)
Inductive message : Type :=
| LogsDirectoryNotFound (logs_dir : string)
| LogsPathNotADirectory (logs_dir : string)
| NoSummaryFiles (logs_dir : string)
| WroteWorkerCSV (output_path : string)
| WroteMetricsCSV (metrics_output : string).

(** What [main] does to the world, in order. *)
Inductive effect : Type :=
| PrintErr (m : message)                                        (* print(..., file=sys.stderr) *)
| PrintOut (m : message)                                        (* print(...) *)
| WriteWorkerCsv (output_path : string) (stats : list WorkerSummary)  (* write_worker_csv *)
| WriteMetricsCsv (metrics_output : string) (metrics : RunMetrics).   (* write_metrics_csv *)

(** The exceptions that can leave [main]. *)
Inductive exn : Type :=
| Parsing (e : error)
| Scoring (e : scoring_error).

Section Main.

Variable int : string -> option Z.
Variable pstdev : list float -> option float.

(** [main(argv)] after the command line is parsed: what it does, and the
    exit status it returns or the exception that leaves it. *)
Definition main (args : arguments) (found : logs_dir_state)
  : list effect * result exn Z :=
  match found with
  | NoSuchPath => ([ PrintErr (LogsDirectoryNotFound (logs_dir args)) ], Ok 1%Z)
  | NotADirectory => ([ PrintErr (LogsPathNotADirectory (logs_dir args)) ], Ok 1%Z)
  | Directory [] => ([ PrintErr (NoSummaryFiles (logs_dir args)) ], Ok 1%Z)
  | Directory summary_files =>
      match comprehension (fun '(path, lines) => parse_summary_file int path lines)
                          summary_files with
      | Raise e => ([], Raise (Parsing e))
      | Ok worker_stats =>
          let written := [ WriteWorkerCsv (output args) worker_stats;
                           PrintOut (WroteWorkerCSV (output args)) ] in
          match compute_run_metrics pstdev worker_stats with
          | Raise e => (written, Raise (Scoring e))
          | Ok metrics =>
              ((written ++ [ WriteMetricsCsv (metrics_output args) metrics;
                             PrintOut (WroteMetricsCSV (metrics_output args)) ])%list,
               Ok 0%Z)
          end
      end
  end.

End Main.

End PerConn.

(** ** openevolve_eval.py *)

Module Eval.
Import Py.
Local Open Scope float_scope.

(** *** What the world outside does during one call of [evaluate] *)

(** [subprocess.run(...)] with [check=False]: the command is not found
    ([FileNotFoundError], with its text), or it runs to completion. *)
Inductive run_outcome : Type :=
| NotFound (exc : string)
| Completed (returncode : Z) (stdout stderr : string).

(** A file as [_collect_artifact] finds it. *)
Inductive file : Type :=
| Absent
| Text (content : string)
| Unreadable (path exc : string).

(** A row of [csv.DictReader]: a column maps to its text, or to [None]
    where the row is too short. *)
Abbreviation row := (gmap string (option string)).

(** The signals of the teardown. *)
Inductive signal : Type := SIGINT | SIGTERM.

(** What [os.killpg(os.getpgid(proc.pid), sig)] or [proc.kill()] does: it
    returns, or it finds no such process (which the code passes over, and
    [proc.kill] itself does), or it raises something else. *)
Inductive delivery : Type :=
| Delivered
| ProcessLookupError
| SignalError (exc : string).

(** The launcher as [_terminate_process] finds it. *)
Record process : Type := {
  poll : option Z;          (** [proc.poll()] on entry *)
  on_sigint : delivery;
  wait_15 : bool;           (** [proc.wait(timeout=15)] returns in time *)
  on_sigterm : delivery;
  wait_5 : bool;            (** [proc.wait(timeout=5)] returns in time *)
  on_kill : delivery;
  has_stdout : bool;        (** [proc.stdout] is not [None] *)
}.

Record world : Type := {
  go_generate : run_outcome;
  (** [Popen] of the launcher: [Some exc] when it raises [FileNotFoundError]. *)
  launcher_missing : option string;
  (** One entry for each turn of the readiness loop that begins before the
      deadline: [proc.poll()] and whether a server log exists. *)
  polls : list (option Z * bool);
  (** [proc.poll()] right after the wait. *)
  poll_after_wait : option Z;
  (** The server logs in sorted order, each with its content, or [None]
      when it vanished before being read. *)
  server_logs : list (string * option string);
  workload : run_outcome;
  summary_exists : bool;
  metrics_exists : bool;
  metrics_path : string;
  metrics_rows : list row;
  summary_file : file;
  metrics_file : file;
  (** The auxiliary logs: modification time and state, in glob order. *)
  acceptq_logs : list (float * file);
  cpu_logs : list (float * file);
  launch_started_at : float;
  (** The captured output of the launcher once the collector is joined. *)
  server_output : list string;
  (** The launcher as the teardown finds it. *)
  launcher : process;
}.

(** *** The evaluator *)

Inductive exn : Type :=
| RuntimeError (msg : string)
| NoRows (path : string)            (* ValueError raised by [_parse_metrics_csv] *)
| FloatValueError (text : string)   (* ValueError raised by [float] *)
| FloatTypeError                    (* TypeError raised by [float(None)] *)
| OSError (exc : string).           (* raised by [os.killpg] or [proc.kill] in the teardown *)

Record EvaluationResult : Type := {
  metrics : gmap string float;
  artifacts : gmap string string;
}.

Definition METRICS_DEFAULTS : gmap string float :=
  {[ "average_tput" := 0.0;
     "average_latency" := 0.0;
     "total_score" := 0.0;
     "run_successful" := 0.0;
     "compile_successful" := 0.0 ]}.

Definition _run_go_generate (o : run_outcome) : bool * string :=
  match o with
  | NotFound exc => (false, "Failed to execute go generate: " ++ exc)
  | Completed returncode stdout stderr => ((returncode =? 0)%Z, strip (stdout ++ stderr))
  end.

Definition _start_servers (missing : option string) : result exn unit :=
  match missing with
  | Some exc => Raise (RuntimeError ("Failed to launch servers: " ++ exc))
  | None => Ok tt
  end.

(** *** Shutting the launcher down *)

(** The calls [_terminate_process] makes, in order. *)
Inductive step : Type :=
| Killpg (sig : signal)
| Wait (timeout : Z)
| Kill
| Join (timeout : Z)
| CloseStdout.

Definition raised (d : delivery) : option string :=
  match d with
  | SignalError exc => Some exc
  | Delivered | ProcessLookupError => None
  end.

(** The [try] block of [_terminate_process]: the calls made and the
    exception that leaves the block, if any. *)
Definition escalate (proc : process) : list step * option string :=
  match poll proc with
  | Some _ => ([], None)
  | None =>
      match raised (on_sigint proc) with
      | Some exc => ([ Killpg SIGINT ], Some exc)
      | None =>
          if wait_15 proc then ([ Killpg SIGINT; Wait 15 ], None)
          else
            match raised (on_sigterm proc) with
            | Some exc => ([ Killpg SIGINT; Wait 15; Killpg SIGTERM ], Some exc)
            | None =>
                if wait_5 proc then ([ Killpg SIGINT; Wait 15; Killpg SIGTERM; Wait 5 ], None)
                else ([ Killpg SIGINT; Wait 15; Killpg SIGTERM; Wait 5; Kill ],
                      raised (on_kill proc))
            end
      end
  end.

(** [_terminate_process(proc, reader)], [reader] telling whether there is
    a collector thread: the calls made, and the exception that leaves the
    function, if any. *)
Definition _terminate_process (proc : option process) (reader : bool)
  : list step * option string :=
  match proc with
  | None => ([], None)
  | Some proc =>
      let '(steps, exc) := escalate proc in
      ((steps
        ++ (if reader then [ Join 2 ] else [])
        ++ (if has_stdout proc then [ CloseStdout ] else []))%list,
       exc)
  end.

(** *** The stages *)

Fixpoint _wait_for_server_logs (polls : list (option Z * bool)) : bool :=
  match polls with
  | [] => false
  | (Some _, _) :: _ => false
  | (None, true) :: _ => true
  | (None, false) :: rest => _wait_for_server_logs rest
  end.

Definition boundary (c : option ascii) : bool :=
  match c with
  | Some c => negb (isword c)
  | None => true
  end.

Definition head_char (s : string) : option ascii :=
  match s with
  | String c _ => Some c
  | EmptyString => None
  end.

(** One of the three words of [ERROR_PATTERN] at the start of [s], followed
    by a word boundary. *)
Definition error_word_here (s : string) : bool :=
  existsb (fun w => match strip_prefix w s with
                    | Some r => boundary (head_char r)
                    | None => false
                    end)
          [ "error"; "fail"; "exit status 1" ].

(** [ERROR_PATTERN.search] on a lower-cased text, [prev] being the character
    before [s]. *)
Fixpoint search_error_from (prev : option ascii) (s : string) : bool :=
  (boundary prev && error_word_here s)
  || match s with
     | EmptyString => false
     | String c s' => search_error_from (Some c) s'
     end.

(** [ERROR_PATTERN.search(content)] is not [None]. *)
Definition ERROR_PATTERN (content : string) : bool :=
  search_error_from None (lower content).

Definition _scan_server_logs_for_errors (logs : list (string * option string))
  : list (string * string) :=
  flat_map (fun '(name, read) =>
              match read with
              | None => []
              | Some content => if ERROR_PATTERN content then [(name, content)] else []
              end) logs.

Definition _run_workload (o : run_outcome) : bool * (Z * string * string) :=
  match o with
  | NotFound exc => (false, (127%Z, EmptyString, exc))
  | Completed returncode stdout stderr => ((returncode =? 0)%Z, (returncode, stdout, stderr))
  end.

Section Builtins.

(** The builtin [float] on a text; [None] when it raises [ValueError]. *)
Variable float_of_text : string -> option float.

(** [float(row.get(key, 0.0))] *)
Definition cell (r : row) (key : string) : result exn float :=
  match r !! key with
  | None => Ok 0.0
  | Some None => Raise FloatTypeError
  | Some (Some text) =>
      match float_of_text text with
      | Some v => Ok v
      | None => Raise (FloatValueError text)
      end
  end.

Definition _parse_metrics_csv (path : string) (rows : list row)
  : result exn (float * float * float) :=
  match rows with
  | r :: _ =>
      try avg_tput <- cell r "avg_req_per_sec";
      try avg_latency <- cell r "avg_latency_ms";
      try score <- cell r "score";
      Ok (avg_tput, avg_latency, score)
  | [] => Raise (NoRows path)
  end.

Definition _collect_artifact (f : file) : option string :=
  match f with
  | Absent => None
  | Text content => Some content
  | Unreadable path exc => Some ("Failed to read " ++ path ++ ": " ++ exc)
  end.

(** [max(candidates, key=mtime)]: the first of the largest. *)
Definition later (best x : float * file) : float * file :=
  if fst best <? fst x then x else best.

Definition _latest_log (logs : list (float * file)) (newer_than : float)
  : option (float * file) :=
  match logs with
  | [] => None
  | _ =>
      let recent := List.filter (fun p => newer_than <=? fst p) logs in
      let candidates := match recent with [] => logs | _ => recent end in
      match candidates with
      | [] => None
      | c :: rest => Some (fold_left later rest c)
      end
  end.

Definition repr_int (i : Z) : string := NilZero.string_of_int (Z.to_int i).

Definition repr_optional_int (o : option Z) : string :=
  match o with
  | Some i => repr_int i
  | None => "None"
  end.

Definition set_optional (key : string) (value : option string)
    (artifacts : gmap string string) : gmap string string :=
  match value with
  | Some content => <[key := content]> artifacts
  | None => artifacts
  end.

Definition collect_latest (key : string) (logs : list (float * file)) (newer_than : float)
    (artifacts : gmap string string) : gmap string string :=
  match _latest_log logs newer_than with
  | Some (_, f) => set_optional key (_collect_artifact f) artifacts
  | None => artifacts
  end.

(** The body of the [try] of [evaluate], after [_start_servers] returned:
    what [evaluate] returns, or the exception that leaves the [try]. *)
Definition supervised (w : world) (metrics : gmap string float)
    (artifacts : gmap string string) : result exn EvaluationResult :=
  if negb (_wait_for_server_logs (polls w)) then
    let exit_code := poll_after_wait w in
    let artifacts :=
      <["launch_failure" :=
          "Server logs did not appear before timeout (exit_code="
          ++ repr_optional_int exit_code ++ ")."]> artifacts in
    Ok {| metrics := metrics; artifacts := artifacts |}
  else
    match poll_after_wait w with
    | Some returncode =>
        let artifacts :=
          <["launch_failure" :=
              "launch_servers.sh exited early with code " ++ repr_int returncode]>
            artifacts in
        Ok {| metrics := metrics; artifacts := artifacts |}
    | None =>
        match _scan_server_logs_for_errors (server_logs w) with
        | (_ :: _) as error_logs =>
            let artifacts :=
              fold_left (fun a '(name, content) => <["log_" ++ name := content]> a)
                        error_logs artifacts in
            let artifacts :=
              <["launch_failure" := "Detected 'error' keyword in server logs."]>
                artifacts in
            Ok {| metrics := metrics; artifacts := artifacts |}
        | [] =>
            let '(workload_ok, (returncode, stdout, stderr)) := _run_workload (workload w) in
            let artifacts := <["workload_stdout" := stdout]> artifacts in
            let artifacts := <["workload_stderr" := stderr]> artifacts in
            if negb workload_ok then
              let artifacts :=
                <["workload_failure" :=
                    "basic-workload.sh exited with code " ++ repr_int returncode]>
                  artifacts in
              Ok {| metrics := metrics; artifacts := artifacts |}
            else if negb (summary_exists w) || negb (metrics_exists w) then
              let artifacts :=
                <["workload_failure" :=
                    "Expected workload summary files were not generated."]>
                  artifacts in
              Ok {| metrics := metrics; artifacts := artifacts |}
            else
              try parsed <- _parse_metrics_csv (metrics_path w) (metrics_rows w);
              let '(avg_tput, avg_latency, total_score) := parsed in
              let metrics :=
                <["run_successful" := 1.0]>
                  (<["total_score" := total_score]>
                     (<["average_latency" := avg_latency]>
                        (<["average_tput" := avg_tput]> metrics))) in
              let artifacts :=
                set_optional "basic_workload_summary_csv"
                             (_collect_artifact (summary_file w)) artifacts in
              let artifacts :=
                set_optional "basic_workload_metrics_csv"
                             (_collect_artifact (metrics_file w)) artifacts in
              let artifacts :=
                collect_latest "acceptq_stats_log" (acceptq_logs w)
                               (launch_started_at w) artifacts in
              let artifacts :=
                collect_latest "cpu_stats_log" (cpu_logs w)
                               (launch_started_at w) artifacts in
              Ok {| metrics := metrics; artifacts := artifacts |}
        end
    end.

(** The [finally] of [evaluate].  The teardown comes first: it passes over
    [ProcessLookupError] only, and what else [os.killpg] or [proc.kill]
    raises leaves [evaluate] in place of the result or of the exception the
    [try] had come to.  Then the output of the launcher is stored: the
    result object holds the very [artifacts] dictionary that the clause
    writes to, so the entry shows in what [evaluate] has already chosen to
    return. *)
Definition finally (server_proc : option process) (server_reader : bool)
    (server_output : list string) (r : result exn EvaluationResult)
  : result exn EvaluationResult :=
  match snd (_terminate_process server_proc server_reader) with
  | Some exc => Raise (OSError exc)
  | None =>
      match r with
      | Ok res =>
          match server_output, artifacts res !! "launch_servers_output" with
          | _ :: _, None =>
              Ok {| metrics := metrics res;
                    artifacts := <["launch_servers_output" := concat server_output]>
                                   (artifacts res) |}
          | _, _ => Ok res
          end
      | Raise e => Raise e
      end
  end.

(** [evaluate(program_path)]: the result returned, or the exception that
    reaches the caller.  When [_start_servers] raises, [server_proc],
    [server_reader] and [server_output] still hold what they were
    initialised to: [None], [None] and the empty list. *)
Definition evaluate (w : world) : result exn EvaluationResult :=
  let metrics := METRICS_DEFAULTS in
  let artifacts : gmap string string := ∅ in
  let '(compile_ok, compile_output) := _run_go_generate (go_generate w) in
  let artifacts := <["compile_output" := compile_output]> artifacts in
  if negb compile_ok then Ok {| metrics := metrics; artifacts := artifacts |}
  else
    let metrics := <["compile_successful" := 1.0]> metrics in
    match _start_servers (launcher_missing w) with
    | Raise (RuntimeError exc) =>
        finally None false []
          (Ok {| metrics := metrics;
                 artifacts := <["launch_failure" := exc]> artifacts |})
    | Raise e => finally None false [] (Raise e)
    | Ok tt =>
        finally (Some (launcher w)) true (server_output w)
                (supervised w metrics artifacts)
    end.

End Builtins.

End Eval.

(** ** The vocabulary of the properties *)

Module Vocabulary.
Import Py.
Local Open Scope float_scope.

(** A text of decimal digits. *)
Definition digits (s : string) : Prop := all isdigit s = true.

(** A <number> of the unit tokens: digits, or digits (possibly none), a point
    and at least one digit. *)
Inductive number : string -> Prop :=
| number_whole ip : digits ip -> ip <> EmptyString -> number ip
| number_point ip fp :
    digits ip -> digits fp -> fp <> EmptyString -> number (ip ++ String "." fp).

(** The conversion table of the latency units, in any letter case. *)
Definition latency_factor (unit : string) : option float :=
  let u := lower unit in
  if String.eqb u "us" then Some 1e-3
  else if String.eqb u "ms" then Some 1
  else if String.eqb u "s" then Some 1e3
  else None.


(** The lines [WorkerLogReader] reads a pair of values from: those that begin
    (white space aside) with the heading and have at least three tokens. *)
Definition tokens (raw_line : string) : list string := split (strip raw_line).

Definition token (raw_line : string) (i : nat) : string := Basic.part (tokens raw_line) i.

Definition latency_line (raw_line : string) : bool :=
  startswith "Latency" (strip raw_line) && negb (List.length (tokens raw_line) <? 3)%nat.

Definition req_line (raw_line : string) : bool :=
  startswith "Req/Sec" (strip raw_line) && negb (List.length (tokens raw_line) <? 3)%nat.

(** The lines with a heading and fewer than three tokens. *)
Definition short_line (raw_line : string) : bool :=
  (startswith "Latency" (strip raw_line) || startswith "Req/Sec" (strip raw_line))
  && (List.length (tokens raw_line) <? 3)%nat.

(** A line whose values, if it is read for any, parse. *)
Definition is_ok {E A} (r : result E A) : bool :=
  match r with Ok _ => true | Raise _ => false end.

Definition readable (raw_line : string) : bool :=
  (negb (latency_line raw_line)
   || is_ok (Basic.parse_latency (token raw_line 1))
      && is_ok (Basic.parse_latency (token raw_line 2)))
  && (negb (req_line raw_line)
      || is_ok (Basic.parse_throughput (token raw_line 1))
         && is_ok (Basic.parse_throughput (token raw_line 2))).

(** Some field of [WorkerLogReader] is still unset. *)
Definition unset (st : Basic.fields) : Prop :=
  Basic.f_latency_avg_ms st = None \/ Basic.f_latency_stdev_ms st = None
  \/ Basic.f_req_avg st = None \/ Basic.f_req_stdev st = None.

(** The names of the worker logs: [wrk_client_<digits>.log] after any text,
    a single newline possibly ending the name. *)
Definition newline : string := String "010" EmptyString.

Definition worker_log_name (name digits : string) : Prop :=
  all isdigit digits = true /\ digits <> EmptyString
  /\ exists before tail,
      name = before ++ "wrk_client_" ++ digits ++ tail
      /\ (tail = ".log" \/ tail = ".log" ++ newline).

(** The markers of the aggregated log, as the splitter reads a line. *)
Definition start_marker (raw_line : string) : option string :=
  Basic._SECTION_START_RE (rstrip_newline raw_line).

Definition end_marker (raw_line : string) : option string :=
  Basic._SECTION_END_RE (rstrip_newline raw_line).

Definition plain_line (raw_line : string) : Prop :=
  start_marker raw_line = None /\ end_marker raw_line = None.

(** The library's [pstdev] returns on the two lists [RunScorer] hands it
    (it hands it none when there is one worker). *)
Definition statistics_return (pstdev : list float -> option float)
    (stats : list Basic.WorkerStats) : Prop :=
  (1 < List.length stats)%nat ->
  (exists v, pstdev (map Basic.latency_avg_ms stats) = Some v)
  /\ (exists v, pstdev (map Basic.req_per_sec_avg stats) = Some v).

(** The library's [pstdev] is called, and raises on one of the two lists. *)
Definition statistics_raise (pstdev : list float -> option float)
    (stats : list Basic.WorkerStats) : Prop :=
  (1 < List.length stats)%nat
  /\ (pstdev (map Basic.latency_avg_ms stats) = None
      \/ pstdev (map Basic.req_per_sec_avg stats) = None).

(** A text of [n] zeros. *)
Fixpoint zeros (n : nat) : string :=
  match n with
  | O => EmptyString
  | S n' => String "0" (zeros n')
  end.

(** A record with the two values the scorer reads. *)
Definition worker (id : string) (latency throughput : float) : Basic.WorkerStats :=
  {| Basic.worker_id := id;
     Basic.latency_avg_ms := latency; Basic.latency_stdev_ms := 0;
     Basic.req_per_sec_avg := throughput; Basic.req_per_sec_stdev := 0;
     Basic.log_path := Basic.File id |}.

(** Every value of every record is finite. *)
Definition finite_stats (stats : list Basic.WorkerStats) : bool :=
  forallb is_finite (map Basic.latency_avg_ms stats)
  && forallb is_finite (map Basic.req_per_sec_avg stats).

(** No division by zero was attempted. *)
Definition no_zero_division {A} (r : result PerConn.error A) : Prop :=
  r <> Raise (PerConn.Arith ZeroDivisionError).

(** Where a run of the pipeline stops (section 4.6 of the specification). *)
Inductive stop : Type :=
| CompileFailed      (* stage 1: the build did not succeed *)
| LaunchFailed       (* stage 2: the launcher could not be started *)
| NotReady           (* stage 3: no server log in time, or the launcher exited *)
| ExitedEarly        (* the launcher exited right after becoming ready *)
| ErrorsInLogs       (* stage 4: an error marker in a server log *)
| WorkloadFailed     (* stage 5: the workload runner did not succeed *)
| ArtifactsMissing   (* stage 6: a summary file is missing *)
| MetricsMalformed   (* stage 7: the metrics file could not be read as numbers *)
| Finished.          (* stages 7 and 8 done *)

Definition stops_at (float_of_text : string -> option float) (w : Eval.world) : stop :=
  if negb (fst (Eval._run_go_generate (Eval.go_generate w))) then CompileFailed
  else
    match Eval.launcher_missing w with
    | Some _ => LaunchFailed
    | None =>
        if negb (Eval._wait_for_server_logs (Eval.polls w)) then NotReady
        else
          match Eval.poll_after_wait w with
          | Some _ => ExitedEarly
          | None =>
              match Eval._scan_server_logs_for_errors (Eval.server_logs w) with
              | _ :: _ => ErrorsInLogs
              | [] =>
                  if negb (fst (Eval._run_workload (Eval.workload w))) then WorkloadFailed
                  else if negb (Eval.summary_exists w) || negb (Eval.metrics_exists w)
                       then ArtifactsMissing
                  else
                    match Eval._parse_metrics_csv float_of_text (Eval.metrics_path w)
                                                  (Eval.metrics_rows w) with
                    | Ok _ => Finished
                    | Raise _ => MetricsMalformed
                    end
              end
          end
    end.

(** The stops at which the launcher has been started, so that the [finally]
    clause has a launcher to shut down. *)
Definition supervised_stop (s : stop) : bool :=
  match s with
  | CompileFailed | LaunchFailed => false
  | _ => true
  end.

(** The exception that the teardown of the launcher ends with, if it
    raises. *)
Definition teardown_raises (w : Eval.world) : option string :=
  snd (Eval._terminate_process (Some (Eval.launcher w)) true).

(** The exception that leaves the [finally] clause of a run that stops at
    [s], if one does. *)
Definition teardown_at (w : Eval.world) (s : stop) : option string :=
  if supervised_stop s then teardown_raises w else None.

(** The artifact that explains a stop. *)
Definition explanation (s : stop) : option string :=
  match s with
  | CompileFailed => Some "compile_output"
  | LaunchFailed | NotReady | ExitedEarly | ErrorsInLogs => Some "launch_failure"
  | WorkloadFailed | ArtifactsMissing => Some "workload_failure"
  | MetricsMalformed | Finished => None
  end.

(** The five metric keys of the result contract. *)
Definition metric_keys : gset string :=
  {[ "average_tput"; "average_latency"; "total_score";
     "run_successful"; "compile_successful" ]}.

(** The stage that sets a metric has been reached: the build has succeeded,
    for [compile_successful]; the metrics file has been parsed, for the
    other four. *)
Definition reached (s : stop) (key : string) : bool :=
  if String.eqb key "compile_successful"
  then match s with CompileFailed => false | _ => true end
  else match s with Finished => true | _ => false end.

(** A launcher that exits when interrupted, and one that runs as another
    user, so that no signal can be sent to it. *)
Definition cooperative_process : Eval.process :=
  {| Eval.poll := None;
     Eval.on_sigint := Eval.Delivered;
     Eval.wait_15 := true;
     Eval.on_sigterm := Eval.Delivered;
     Eval.wait_5 := true;
     Eval.on_kill := Eval.Delivered;
     Eval.has_stdout := true |}.


(** A world in which every stage after the build goes well: the build ends
    as [build] says and the metrics file holds [rows]. *)
Definition sample_world (build : Eval.run_outcome) (rows : list Eval.row) : Eval.world :=
  {| Eval.go_generate := build;
     Eval.launcher_missing := None;
     Eval.polls := [(None, false); (None, true)];
     Eval.poll_after_wait := None;
     Eval.server_logs := [("server_1.log", Some "listening on :8080")];
     Eval.workload := Eval.Completed 0 "workload done" "";
     Eval.summary_exists := true;
     Eval.metrics_exists := true;
     Eval.metrics_path := "wrk_log/basic-workload-summary-metrics.csv";
     Eval.metrics_rows := rows;
     Eval.summary_file := Eval.Text "worker_id,latency_avg_ms";
     Eval.metrics_file := Eval.Text "workers,avg_latency_ms";
     Eval.acceptq_logs := [];
     Eval.cpu_logs := [];
     Eval.launch_started_at := 0;
     Eval.server_output := ["servers started"];
     Eval.launcher := cooperative_process |}.

(** The row that [write_metrics_csv] writes for three workers of 10 ms and
    100, 200 and 300 requests per second. *)
Definition sample_row : Eval.row :=
  {[ "workers" := Some "3";
     "avg_latency_ms" := Some "10.000000";
     "latency_stddev_ms" := Some "0.000000";
     "avg_req_per_sec" := Some "200.000000";
     "req_per_sec_stddev" := Some "81.649658";
     "score" := Some "20.000000" ]}.

(** *** Further vocabulary: the readers *)

(** The lines [WorkerLogReader] takes values from. *)
Definition relevant (raw_line : string) : bool :=
  latency_line raw_line || req_line raw_line.

(** The names that [MissingFields] gives to the two pairs of values. *)
Definition latency_names : list string := [ "latency_avg"; "latency_stdev" ].
Definition req_names : list string := [ "req_per_sec_avg"; "req_per_sec_stdev" ].

(** The kinds of error that reading one worker's lines can end in, and
    those that splitting an aggregated log can end in. *)
Definition reader_kind (k : Basic.error_kind) : Prop :=
  k = Basic.FormatError \/ k = Basic.MissingFieldError.

Definition splitter_kind (k : Basic.error_kind) : Prop :=
  reader_kind k \/ k = Basic.StructureError \/ k = Basic.EmptyResultError.

(** The names on the START markers of a file, in order. *)
Definition section_names (lines : list string) : list string :=
  omap start_marker lines.

(** The section a record of the aggregated log was read from. *)
Definition from_section (path name : string) (s : Basic.WorkerStats) : Prop :=
  Basic.worker_id s = Basic._deduce_worker_id name
  /\ Basic.log_path s = Basic.Section_ path name.

(** *** Further vocabulary: the scorers *)

(** A per-connection summary as the record the scorer of the basic
    workload reads: its average latency and its throughput. *)
Definition as_worker (ws : PerConn.WorkerSummary) : Basic.WorkerStats :=
  worker (PerConn.worker_id ws) (PerConn.latency_avg_ms ws)
         (PerConn.throughput_req_per_sec ws).

Definition as_metrics (m : Basic.RunMetrics) : PerConn.RunMetrics :=
  {| PerConn.workers := Basic.workers m;
     PerConn.avg_latency_ms := Basic.avg_latency_ms m;
     PerConn.latency_stddev_ms := Basic.latency_stddev_ms m;
     PerConn.avg_req_per_sec := Basic.avg_req_per_sec m;
     PerConn.req_per_sec_stddev := Basic.req_per_sec_stddev m;
     PerConn.score := Basic.score m |}.

(** The errors of the basic scorer as those of the per-connection one. *)
Definition as_scoring_error (e : Basic.error) : PerConn.scoring_error :=
  match e with
  | Basic.NoWorkerStats => PerConn.NoWorkerStats
  | Basic.ZeroAverageLatency => PerConn.ZeroAverageLatency
  | _ => PerConn.StatisticsRaised
  end.



(** *** Further vocabulary: the two [main]s *)



(** Nothing is written: at most a message on the standard error. *)
Definition nothing_written (effects : list Basic.effect) : Prop :=
  effects = [] \/ exists m, effects = [ Basic.PrintErr m ].


(** The same for the per-connection [main]. *)
Definition summaries_outcome (pstdev : list float -> option float)
    (args : PerConn.arguments) (out : list PerConn.effect * result PerConn.exn Z) : Prop :=
  match snd out with
  | Ok code =>
      (code = 0%Z
       /\ exists stats metrics,
           PerConn.compute_run_metrics pstdev stats = Ok metrics
           /\ fst out = [ PerConn.WriteWorkerCsv (PerConn.output args) stats;
                          PerConn.PrintOut (PerConn.WroteWorkerCSV (PerConn.output args));
                          PerConn.WriteMetricsCsv (PerConn.metrics_output args) metrics;
                          PerConn.PrintOut
                            (PerConn.WroteMetricsCSV (PerConn.metrics_output args)) ])
      \/ (code = 1%Z /\ exists m, fst out = [ PerConn.PrintErr m ])
  | Raise (PerConn.Parsing _) => fst out = []
  | Raise (PerConn.Scoring e) =>
      exists stats,
        PerConn.compute_run_metrics pstdev stats = Raise e
        /\ fst out = [ PerConn.WriteWorkerCsv (PerConn.output args) stats;
                       PerConn.PrintOut (PerConn.WroteWorkerCSV (PerConn.output args)) ]
  end.

(** Sample command lines and worker logs. *)
Definition sample_arguments : Basic.arguments :=
  {| Basic.logs_dir := "wrk_log";
     Basic.output := "basic-workload-summary.csv";
     Basic.metrics_output := "basic-workload-summary-metrics.csv" |}.

Definition sample_log (latency throughput : string) : list string :=
  [ "Running 10s test @ http://127.0.0.1:8080";
    "    Latency   " ++ latency ++ "   1.00ms   9.00ms   90.00%";
    "    Req/Sec   " ++ throughput ++ "   0.50k    3.00k    70.00%" ].

(** *** Further vocabulary: numbers written to the files and read back *)

(** The sign of a float that has one. *)
Definition negative (x : float) : bool :=
  match Prim2SF x with
  | S754_zero s | S754_infinity s | S754_finite s _ _ => s
  | S754_nan => false
  end.

(** The number of millionths nearest to the magnitude of a finite [x],
    ties to even. *)
Definition millionths (x : float) : Z :=
  let '(n, d) := exact_ratio x in round_half_even (Z.abs n * 10 ^ 6) d.

(** What a value is read back as after it was written with six decimals:
    the float nearest to its nearest millionth, with the sign it had; a
    value that is not finite comes back as it was. *)
Definition reread (x : float) : float :=
  match Prim2SF x with
  | S754_nan => nan
  | S754_infinity s => if s then neg_infinity else infinity
  | S754_zero _ | S754_finite _ _ _ =>
      let r := round_ratio (millionths x) (10 ^ 6) in
      if negative x then - r else r
  end.

(** A text of the shape that six-decimal formatting gives to a finite
    value. *)
Definition six_decimals (text : string) : Prop :=
  exists (neg : bool) (ip fp : string),
    text = (if neg then "-" else "") ++ ip ++ "." ++ fp
    /\ digits ip /\ ip <> EmptyString /\ digits fp /\ String.length fp = 6%nat.

(** *** Further vocabulary: the summary files *)

(** What a line of a summary file assigns: the text before its first [=]
    and the text after it, white space around each removed; nothing when
    the line is blank or holds no [=]. *)
Definition assignment (raw_line : string) : option (string * string) :=
  let line := strip raw_line in
  if is_empty line then None
  else match split_once "=" line with
       | Some (key, value) => Some (strip key, strip value)
       | None => None
       end.

Definition assigns (key raw_line : string) : bool :=
  match assignment raw_line with
  | Some (k, _) => String.eqb k key
  | None => false
  end.

(** The required keys that no line assigns, in the order of the list. *)
Definition unassigned (lines : list string) : list string :=
  List.filter (fun key => negb (existsb (assigns key) lines)) PerConn.required_keys.

(** A text without a slash: a file name, or a part of one. *)
Definition no_slash (s : string) : Prop := all (fun c => negb (Ascii.eqb c "/")) s = true.

(** *** Further vocabulary: the evaluator *)

(** The words the evaluator looks for in the server logs. *)
Definition error_words : list string := [ "error"; "fail"; "exit status 1" ].

(** The last character of a text, if it has one. *)
Fixpoint last_char (s : string) : option ascii :=
  match s with
  | EmptyString => None
  | String c s' => match last_char s' with
                   | Some c' => Some c'
                   | None => Some c
                   end
  end.

(** [word] stands in [text] as a whole word: what precedes it does not end
    with a word character, what follows it does not begin with one. *)
Definition whole_word (word text : string) : Prop :=
  exists before after,
    text = before ++ word ++ after
    /\ Eval.boundary (last_char before) = true
    /\ Eval.boundary (Eval.head_char after) = true.

(** A turn of the readiness loop that sees the launcher running and no
    server log yet. *)
Definition quiet (poll : option Z * bool) : Prop := poll = (None, false).

(** A log that is not older than the launch. *)
Definition fresh (newer_than : float) (log : float * Eval.file) : bool :=
  newer_than <=? fst log.

(** The two artifacts that tell why a run failed after the build. *)
Definition failure_key (key : string) : Prop :=
  key = "launch_failure" \/ key = "workload_failure".

(** The stops at which the workload has been run. *)
Definition workload_ran (s : stop) : bool :=
  match s with
  | WorkloadFailed | ArtifactsMissing | MetricsMalformed | Finished => true
  | _ => false
  end.

(** The output the evaluator captures from the build and from the
    workload. *)
Definition compile_output (w : Eval.world) : string :=
  snd (Eval._run_go_generate (Eval.go_generate w)).

Definition workload_stdout (w : Eval.world) : string :=
  snd (fst (snd (Eval._run_workload (Eval.workload w)))).

Definition workload_stderr (w : Eval.world) : string :=
  snd (snd (Eval._run_workload (Eval.workload w))).

(** The launcher has been started. *)
Definition launched (w : Eval.world) : Prop :=
  fst (Eval._run_go_generate (Eval.go_generate w)) = true /\ Eval.launcher_missing w = None.

(** A world in which the build succeeds, the launcher starts and the
    servers become ready: the teardown finds the launcher as [proc] says,
    the server logs hold [logs], the workload ends as [run] says and the
    metrics file holds [rows]. *)
Definition staged_world_of (proc : Eval.process) (logs : list (string * option string))
    (run : Eval.run_outcome) (rows : list Eval.row) : Eval.world :=
  {| Eval.go_generate := Eval.Completed 0 "generated" "";
     Eval.launcher_missing := None;
     Eval.polls := [(None, false); (None, true)];
     Eval.poll_after_wait := None;
     Eval.server_logs := logs;
     Eval.workload := run;
     Eval.summary_exists := true;
     Eval.metrics_exists := true;
     Eval.metrics_path := "wrk_log/basic-workload-summary-metrics.csv";
     Eval.metrics_rows := rows;
     Eval.summary_file := Eval.Text "worker_id,latency_avg_ms";
     Eval.metrics_file := Eval.Text "workers,avg_latency_ms";
     Eval.acceptq_logs := [];
     Eval.cpu_logs := [];
     Eval.launch_started_at := 0;
     Eval.server_output := ["servers started"; " on 4 cores"];
     Eval.launcher := proc |}.

Definition staged_world : list (string * option string) -> Eval.run_outcome ->
                          list Eval.row -> Eval.world :=
  staged_world_of cooperative_process.

(** The metrics of three workers of 10 ms and 100, 200 and 300 requests
    per second. *)
Definition sample_metrics : Basic.RunMetrics :=
  {| Basic.workers := 3;
     Basic.avg_latency_ms := 10;
     Basic.latency_stddev_ms := 0;
     Basic.avg_req_per_sec := 200;
     Basic.req_per_sec_stddev := 81.64965809277261;
     Basic.score := 20 |}.

(** The full escalation of a shutdown, and the clean-up that ends every
    shutdown. *)
Definition escalation : list Eval.step :=
  [ Eval.Killpg Eval.SIGINT; Eval.Wait 15; Eval.Killpg Eval.SIGTERM; Eval.Wait 5; Eval.Kill ].

Definition cleanup (proc : Eval.process) (reader : bool) : list Eval.step :=
  ((if reader then [ Eval.Join 2 ] else [])
   ++ (if Eval.has_stdout proc then [ Eval.CloseStdout ] else []))%list.

(** A launcher that ignores every signal, and one that exits when
    interrupted. *)
Definition stubborn_process : Eval.process :=
  {| Eval.poll := None;
     Eval.on_sigint := Eval.Delivered;
     Eval.wait_15 := false;
     Eval.on_sigterm := Eval.Delivered;
     Eval.wait_5 := false;
     Eval.on_kill := Eval.Delivered;
     Eval.has_stdout := true |}.

End Vocabulary.

(** ** Auxiliary notions of the proofs *)

Module Auxiliary.
Import Py Basic Eval Vocabulary.
Local Open Scope float_scope.

(** What [lower] leaves alone. *)
Definition caseless (c : ascii) : bool := Ascii.eqb (lower_char c) c.

(** The head of a text is outside [p], or there is no head. *)
Definition stops (p : ascii -> bool) (s : string) : Prop :=
  match s with
  | EmptyString => True
  | String c _ => p c = false
  end.

(** The characters of a <number>. *)
Definition numchar (c : ascii) : bool := isdigit c || Ascii.eqb c ".".

(** The characters that are no white space. *)
Definition nospace (c : ascii) : bool := negb (isspace c).

(** Both values of a pair are set. *)
Definition has_latency (st : fields) : bool :=
  match f_latency_avg_ms st, f_latency_stdev_ms st with
  | Some _, Some _ => true
  | _, _ => false
  end.

Definition has_req (st : fields) : bool :=
  match f_req_avg st, f_req_stdev st with
  | Some _, Some _ => true
  | _, _ => false
  end.

(** The characters other than the underscore. *)
Definition not_underscore (c : ascii) : bool := negb (Ascii.eqb c "_").

(** What may follow the digits of a worker-log name. *)
Definition is_tail (tail : string) : Prop := tail = ".log" \/ tail = ".log" ++ newline.

(** The metrics once the build has succeeded. *)
Definition compiled_metrics : gmap string float :=
  <["compile_successful" := 1]> METRICS_DEFAULTS.

(** The metrics of a finished run. *)
Definition finished_metrics (avg_tput avg_latency total_score : float) : gmap string float :=
  <["run_successful" := 1]>
    (<["total_score" := total_score]>
       (<["average_latency" := avg_latency]>
          (<["average_tput" := avg_tput]> compiled_metrics))).

(** What [evaluate] gives, stop by stop. *)
Inductive outcome_at (float_of_text : string -> option float) (w : world)
  : stop -> result exn EvaluationResult -> Prop :=
| at_compile res :
    metrics res = METRICS_DEFAULTS ->
    is_Some (artifacts res !! "compile_output") ->
    outcome_at float_of_text w CompileFailed (Ok res)
| at_stage s key res :
    explanation s = Some key -> s <> CompileFailed ->
    teardown_at w s = None ->
    metrics res = compiled_metrics ->
    is_Some (artifacts res !! key) ->
    outcome_at float_of_text w s (Ok res)
| at_malformed e :
    teardown_raises w = None ->
    _parse_metrics_csv float_of_text (metrics_path w) (metrics_rows w) = Raise e ->
    outcome_at float_of_text w MetricsMalformed (Raise e)
| at_finish res avg_tput avg_latency total_score :
    teardown_raises w = None ->
    _parse_metrics_csv float_of_text (metrics_path w) (metrics_rows w)
    = Ok (avg_tput, avg_latency, total_score) ->
    metrics res = finished_metrics avg_tput avg_latency total_score ->
    outcome_at float_of_text w Finished (Ok res)
| at_teardown s exc :
    teardown_at w s = Some exc ->
    outcome_at float_of_text w s (Raise (OSError exc)).

(** The two values of a pair are set together. *)
Definition paired (st : fields) : Prop :=
  (f_latency_avg_ms st = None <-> f_latency_stdev_ms st = None)
  /\ (f_req_avg st = None <-> f_req_stdev st = None).

(** The splitter with [pre] before the records it has made. *)
Definition prepend (pre : list WorkerStats) (st : splitter) : splitter :=
  {| stats := pre ++ stats st;
     current_name := current_name st;
     current_lines := current_lines st |}.

(** Outside a section the splitter holds no lines. *)
Definition tidy (st : splitter) : Prop :=
  current_name st = None -> current_lines st = [].

(** The section that is open, if any. *)
Definition opened (st : splitter) : list string :=
  match current_name st with
  | Some name => [name]
  | None => []
  end.

(** The characters other than the slash. *)
Definition not_slash (c : ascii) : bool := negb (Ascii.eqb c "/").

(** The character before a position: the last one of the text read so far,
    or the one before that text. *)
Definition before_char (prev : option ascii) (read : string) : option ascii :=
  match last_char read with
  | Some c => Some c
  | None => prev
  end.

(** The records of the metrics file written for [m]: the header and the
    row. *)
Definition metrics_records (m : Basic.RunMetrics) : list (list string) :=
  [ [ "workers"; "avg_latency_ms"; "latency_stddev_ms";
      "avg_req_per_sec"; "req_per_sec_stddev"; "score" ];
    [ str_int (Basic.workers m);
      format_6f (Basic.avg_latency_ms m); format_6f (Basic.latency_stddev_ms m);
      format_6f (Basic.avg_req_per_sec m); format_6f (Basic.req_per_sec_stddev m);
      format_6f (Basic.score m) ] ].

End Auxiliary.

(* ===================================================================== *)
(** * Properties *)
(* ===================================================================== *)

(** stdpp keeps [simpl] from unfolding the concatenation of texts; the proofs
    below compute with it. *)
#[local] Arguments String.append !_ _ / : simpl nomatch.

(** ** Facts about the runtime *)

Module PyFacts.
Import Py Auxiliary.

(** A property of characters that holds of the 256 of them, by enumeration. *)
Lemma for_all_ascii (p : ascii -> bool) :
  forallb p (map ascii_of_nat (seq 0 256)) = true -> forall c, p c = true.
Proof.
  intros H c. rewrite forallb_forall in H. apply H.
  apply in_map_iff. exists (nat_of_ascii c). split.
  - apply ascii_nat_embedding.
  - apply in_seq. pose proof (nat_ascii_bounded c). lia.
Qed.

Lemma for_all_ascii_impl (p q : ascii -> bool) :
  forallb (fun c => implb (p c) (q c)) (map ascii_of_nat (seq 0 256)) = true ->
  forall c, p c = true -> q c = true.
Proof.
  intros H c Hp. apply for_all_ascii with (c := c) in H.
  rewrite Hp in H. exact H.
Qed.

Lemma append_assoc (a b c : string) : (a ++ b) ++ c = a ++ (b ++ c).
Proof. induction a as [|x a IH]; simpl; congruence. Qed.

Lemma length_append (a b : string) :
  String.length (a ++ b) = (String.length a + String.length b)%nat.
Proof. induction a as [|x a IH]; simpl; congruence. Qed.

Lemma is_empty_false (s : string) : is_empty s = false <-> s <> "".
Proof. destruct s; simpl; split; congruence. Qed.

Lemma all_append (p : ascii -> bool) (a b : string) :
  all p (a ++ b) = all p a && all p b.
Proof.
  induction a as [|x a IH]; simpl; [reflexivity|].
  rewrite IH. apply andb_assoc.
Qed.

Lemma all_impl (p q : ascii -> bool) (s : string) :
  (forall c, p c = true -> q c = true) -> all p s = true -> all q s = true.
Proof.
  intros Hpq. induction s as [|x s IH]; simpl; [reflexivity|].
  rewrite !andb_true_iff. intros [Hx Hs]. auto.
Qed.

Lemma lower_append (a b : string) : lower (a ++ b) = lower a ++ lower b.
Proof. induction a as [|x a IH]; simpl; congruence. Qed.

Lemma lower_caseless (s : string) : all caseless s = true -> lower s = s.
Proof.
  induction s as [|x s IH]; simpl; [reflexivity|].
  rewrite andb_true_iff. intros [Hx Hs].
  apply Ascii.eqb_eq in Hx. rewrite Hx, IH by assumption. reflexivity.
Qed.

(** A lower-cased text splits as its original does. *)
Lemma lower_append_inv (t a b : string) :
  lower t = a ++ b -> exists a' b', t = a' ++ b' /\ lower a' = a /\ lower b' = b.
Proof.
  revert t. induction a as [|x a IH]; intros t H; simpl in H.
  - exists "", t. auto.
  - destruct t as [|y t]; simpl in H; [discriminate|].
    injection H as Hx Ht. destruct (IH _ Ht) as (a' & b' & -> & Ha & Hb).
    exists (String y a'), b'. simpl. rewrite Ha, Hx. auto.
Qed.

Lemma span_append (p : ascii -> bool) (a b : string) :
  all p a = true -> stops p b -> span p (a ++ b) = (a, b).
Proof.
  intros Ha Hb. induction a as [|x a IH]; simpl in *.
  - destruct b as [|y b]; simpl in *; [reflexivity | now rewrite Hb].
  - apply andb_true_iff in Ha as [Hx Ha]. rewrite Hx, (IH Ha). reflexivity.
Qed.

Lemma span_spec (p : ascii -> bool) (s a b : string) :
  span p s = (a, b) -> s = a ++ b /\ all p a = true /\ stops p b.
Proof.
  revert a b. induction s as [|x s IH]; simpl; intros a b H.
  - injection H as <- <-. simpl. auto.
  - destruct (p x) eqn:Hx.
    + destruct (span p s) as [a' b'] eqn:Hs. injection H as <- <-.
      destruct (IH _ _ eq_refl) as (-> & Ha & Hb). simpl. rewrite Hx, Ha. auto.
    + injection H as <- <-. simpl. auto.
Qed.

Lemma strip_prefix_append (p s : string) : strip_prefix p (p ++ s) = Some s.
Proof.
  induction p as [|x p IH]; simpl; [reflexivity|].
  now rewrite Ascii.eqb_refl.
Qed.

Lemma strip_prefix_spec (p s r : string) : strip_prefix p s = Some r -> s = p ++ r.
Proof.
  revert s. induction p as [|x p IH]; intros s H; simpl in *.
  - congruence.
  - destruct s as [|y s]; [discriminate|].
    destruct (Ascii.eqb x y) eqn:E; [|discriminate].
    apply Ascii.eqb_eq in E as ->. now rewrite (IH _ H).
Qed.

Lemma strip_suffix_unfold (suf s : string) :
  strip_suffix suf s =
  if String.eqb s suf then Some ""
  else match s with
       | EmptyString => None
       | String c s' => option_map (String c) (strip_suffix suf s')
       end.
Proof. destruct s; reflexivity. Qed.

Lemma strip_suffix_spec (suf s a : string) : strip_suffix suf s = Some a -> s = a ++ suf.
Proof.
  revert a. induction s as [|x s IH]; intros a H; rewrite strip_suffix_unfold in H;
    destruct (String.eqb _ suf) eqn:E.
  - apply String.eqb_eq in E. inversion H; subst. reflexivity.
  - discriminate.
  - apply String.eqb_eq in E. inversion H; subst. reflexivity.
  - destruct (strip_suffix suf s) as [a'|] eqn:Hs; [|discriminate].
    inversion H; subst. simpl. now rewrite (IH _ eq_refl).
Qed.

Lemma strip_suffix_append (suf a : string) : strip_suffix suf (a ++ suf) = Some a.
Proof.
  induction a as [|x a IH]; rewrite strip_suffix_unfold.
  - simpl. now rewrite String.eqb_refl.
  - destruct (String.eqb _ suf) eqn:E.
    + apply String.eqb_eq in E. apply (f_equal String.length) in E.
      simpl in E. rewrite length_append in E. lia.
    + simpl. now rewrite IH.
Qed.

(** *** The error monad *)

Lemma bind_ok {E A B} (r : result E A) (k : A -> result E B) (b : B) :
  bind r k = Ok b -> exists a, r = Ok a /\ k a = Ok b.
Proof. destruct r as [a|e]; simpl; [eauto | discriminate]. Qed.

Lemma for_each_append {E S X} (body : S -> X -> result E S) (s : S) (xs ys : list X) :
  for_each body s (xs ++ ys) = bind (for_each body s xs) (fun s' => for_each body s' ys).
Proof.
  revert s. induction xs as [|x xs IH]; intros s; simpl; [reflexivity|].
  destruct (body s x) as [s'|e]; simpl; [apply IH | reflexivity].
Qed.

End PyFacts.

(** ** UnitParser: [parse_latency] and [parse_throughput] *)

Module UnitParserFacts.
Import Py PyFacts Basic Vocabulary Auxiliary.

Lemma numchar_lower (c : ascii) : numchar (lower_char c) = true -> lower_char c = c.
Proof.
  intros H. apply Ascii.eqb_eq. revert c H.
  apply (for_all_ascii_impl (fun c => numchar (lower_char c))
                            (fun c => Ascii.eqb (lower_char c) c)).
  vm_compute. reflexivity.
Qed.

Lemma numchar_caseless (c : ascii) : numchar c = true -> caseless c = true.
Proof.
  revert c. apply for_all_ascii_impl. vm_compute. reflexivity.
Qed.

Lemma digit_numchar (c : ascii) : isdigit c = true -> numchar c = true.
Proof. unfold numchar. now intros ->. Qed.

Lemma not_numchar (c : ascii) :
  numchar c = false -> isdigit c = false /\ Ascii.eqb c "." = false.
Proof. unfold numchar. apply orb_false_iff. Qed.

Lemma number_chars (n : string) : number n -> all numchar n = true.
Proof.
  intros [ip Hip _ | ip fp Hip Hfp _].
  - apply (all_impl isdigit); [exact digit_numchar | exact Hip].
  - rewrite all_append. simpl.
    rewrite (all_impl isdigit numchar ip digit_numchar Hip).
    now rewrite (all_impl isdigit numchar fp digit_numchar Hfp).
Qed.


Lemma lower_number (n : string) : number n -> lower n = n.
Proof.
  intros H. apply lower_caseless.
  apply (all_impl numchar); [exact numchar_caseless | now apply number_chars].
Qed.

Lemma lower_to_numchars (t n : string) : all numchar n = true -> lower t = n -> t = n.
Proof.
  revert t. induction n as [|x n IH]; intros t Hn E.
  - destruct t; [reflexivity | discriminate].
  - destruct t as [|y t]; [discriminate|]. simpl in E, Hn.
    apply andb_true_iff in Hn as [Hx Hn]. inversion E as [[Ey Et]].
    rewrite Ey, Et. f_equal.
    + rewrite <- Ey in Hx. rewrite <- (numchar_lower y Hx) at 1. now rewrite Ey.
    + rewrite <- Et at 1. symmetry. rewrite Et. symmetry. now apply IH.
Qed.

Lemma stops_numchar_digit (rest : string) : stops numchar rest -> stops isdigit rest.
Proof. destruct rest as [|c r]; simpl; [auto|]. intros H. now apply not_numchar in H. Qed.

Lemma scan_number_complete (n rest : string) :
  number n -> stops numchar rest -> scan_number (n ++ rest) = Some (n, rest).
Proof.
  intros [ip Hip Hne | ip fp Hip Hfp Hne] Hrest; unfold scan_number.
  - rewrite (span_append isdigit ip rest Hip (stops_numchar_digit _ Hrest)).
    apply is_empty_false in Hne. rewrite Hne.
    destruct rest as [|c r]; [reflexivity|].
    simpl in Hrest. apply not_numchar in Hrest as [_ ->]. reflexivity.
  - rewrite append_assoc. simpl.
    rewrite (span_append isdigit ip (String "." (fp ++ rest)) Hip) by reflexivity.
    rewrite Ascii.eqb_refl.
    rewrite (span_append isdigit fp rest Hfp (stops_numchar_digit _ Hrest)).
    apply is_empty_false in Hne. now rewrite Hne.
Qed.

Lemma scan_number_sound (s n rest : string) :
  scan_number s = Some (n, rest) -> s = n ++ rest /\ number n.
Proof.
  unfold scan_number. destruct (span isdigit s) as [ip r] eqn:Hs.
  apply span_spec in Hs as (-> & Hip & Hr).
  assert (Hwhole : (if is_empty ip then None else Some (ip, r)) = Some (n, rest) ->
                   ip ++ r = n ++ rest /\ number n).
  { destruct (is_empty ip) eqn:E; [discriminate|]. intros H. inversion H; subst.
    split; [reflexivity|]. apply number_whole; [exact Hip | now apply is_empty_false]. }
  destruct r as [|c r']; [exact Hwhole|].
  destruct (Ascii.eqb c ".") eqn:Ec; [|exact Hwhole].
  apply Ascii.eqb_eq in Ec as ->.
  destruct (span isdigit r') as [fp r''] eqn:Hs'.
  apply span_spec in Hs' as (-> & Hfp & _).
  destruct (is_empty fp) eqn:E; [exact Hwhole|].
  intros H. inversion H; subst. split.
  - now rewrite append_assoc.
  - apply number_point; [exact Hip | exact Hfp | now apply is_empty_false].
Qed.

Lemma lower_az_not_numchar (c : ascii) : islower_az c = true -> numchar c = false.
Proof.
  intros H. apply negb_true_iff. revert c H.
  apply (for_all_ascii_impl islower_az (fun c => negb (numchar c))).
  vm_compute. reflexivity.
Qed.

Lemma fullmatch_latency_complete (n u : string) :
  number n -> u <> "" -> all islower_az u = true ->
  fullmatch_latency (n ++ u) = Some (n, u).
Proof.
  intros Hn Hne Hu. unfold fullmatch_latency.
  rewrite scan_number_complete; [|exact Hn|].
  - apply is_empty_false in Hne. now rewrite Hne, Hu.
  - destruct u as [|c u]; [exact I|]. simpl in *.
    apply andb_true_iff in Hu as [Hc _]. now apply lower_az_not_numchar.
Qed.

Lemma fullmatch_latency_sound (s n u : string) :
  fullmatch_latency s = Some (n, u) -> s = n ++ u /\ number n.
Proof.
  unfold fullmatch_latency. destruct (scan_number s) as [[n' u']|] eqn:Hs; [|discriminate].
  destruct (negb (is_empty u') && all islower_az u'); [|discriminate].
  intros H. inversion H; subst. now apply scan_number_sound.
Qed.

(** The units table, read backwards. *)
Lemma latency_units_lookup (u : string) (f : float) :
  _LATENCY_UNITS_MS !! u = Some f -> latency_factor u = Some f.
Proof.
  unfold _LATENCY_UNITS_MS. intros H.
  destruct (decide (u = "us")) as [->|N1]; [exact H|].
  destruct (decide (u = "ms")) as [->|N2]; [exact H|].
  destruct (decide (u = "s")) as [->|N3]; [exact H|].
  rewrite !lookup_insert_ne, lookup_singleton_ne in H by congruence. discriminate.
Qed.

Lemma lower_idempotent (u : string) : lower (lower u) = lower u.
Proof.
  induction u as [|c u IH]; simpl; [reflexivity|]. rewrite IH. f_equal.
  apply Ascii.eqb_eq. revert c.
  apply (for_all_ascii (fun c => Ascii.eqb (lower_char (lower_char c)) (lower_char c))).
  vm_compute. reflexivity.
Qed.

Lemma latency_factor_lower (u : string) : latency_factor (lower u) = latency_factor u.
Proof. unfold latency_factor. now rewrite lower_idempotent. Qed.

Lemma latency_factor_table (unit : string) (factor : float) :
  latency_factor unit = Some factor ->
  lower unit <> "" /\ all islower_az (lower unit) = true
  /\ _LATENCY_UNITS_MS !! lower unit = Some factor.
Proof.
  unfold latency_factor.
  destruct (String.eqb (lower unit) "us") eqn:E1;
    [apply String.eqb_eq in E1 as ->; intros H; inversion H; subst; now repeat split|].
  destruct (String.eqb (lower unit) "ms") eqn:E2;
    [apply String.eqb_eq in E2 as ->; intros H; inversion H; subst; now repeat split|].
  destruct (String.eqb (lower unit) "s") eqn:E3;
    [apply String.eqb_eq in E3 as ->; intros H; inversion H; subst; now repeat split|].
  discriminate.
Qed.

Lemma parse_latency_accepts (num unit : string) (factor : float) :
  number num -> latency_factor unit = Some factor ->
  parse_latency (num ++ unit) = Ok (float_of_number num * factor)%float.
Proof.
  intros Hn Hf. apply latency_factor_table in Hf as (Hne & Haz & Hlook).
  unfold parse_latency. rewrite lower_append, (lower_number num Hn).
  rewrite (fullmatch_latency_complete num (lower unit) Hn Hne Haz).
  now rewrite Hlook.
Qed.

Lemma parse_latency_shape (token : string) (v : float) :
  parse_latency token = Ok v ->
  exists num unit factor,
    token = num ++ unit /\ number num /\ latency_factor unit = Some factor.
Proof.
  unfold parse_latency.
  destruct (fullmatch_latency (lower token)) as [[n u]|] eqn:Hm; [|discriminate].
  destruct (_LATENCY_UNITS_MS !! u) as [f|] eqn:Hu; [|discriminate]. intros _.
  apply fullmatch_latency_sound in Hm as [Hs Hn].
  apply lower_append_inv in Hs as (n' & u' & -> & Hn' & Hu').
  apply lower_to_numchars in Hn'; [|now apply number_chars]. subst n'.
  exists n, u', f. repeat split; [exact Hn|].
  rewrite <- (latency_factor_lower u'), Hu'. now apply latency_units_lookup.
Qed.

Lemma parse_latency_raises_format (token : string) (e : error) :
  parse_latency token = Raise e -> kind_of e = FormatError.
Proof.
  unfold parse_latency.
  destruct (fullmatch_latency (lower token)) as [[n u]|]; [|intros H; now inversion H].
  destruct (_LATENCY_UNITS_MS !! u); intros H; now inversion H.
Qed.

(** C7. For every token <number><unit> whose unit is us, ms or s in any
    letter case, [parse_latency] returns the number times 1e-3, 1 or 1e3; a
    token that is not a number followed by one of these units fails with a
    FormatError; and the three examples of the specification hold. *)
Theorem parse_latency_spec :
  (forall num unit factor,
      number num -> latency_factor unit = Some factor ->
      parse_latency (num ++ unit) = Ok (float_of_number num * factor)%float)
  /\ (forall token,
        (forall num unit, number num -> token = num ++ unit -> latency_factor unit = None) ->
        exists e, parse_latency token = Raise e /\ kind_of e = FormatError)
  /\ parse_latency "1.5s" = Ok 1500%float
  /\ parse_latency "200us" = Ok 0.2%float
  /\ parse_latency "10ms" = Ok 10%float.
Proof.
  split; [exact parse_latency_accepts|].
  split; [|repeat split; reflexivity].
  intros token Hnot. destruct (parse_latency token) as [v|e] eqn:Hp.
  - apply parse_latency_shape in Hp as (num & unit & f & -> & Hn & Hf).
    rewrite (Hnot num unit Hn eq_refl) in Hf. discriminate.
  - exists e. split; [reflexivity | now apply parse_latency_raises_format with token].
Qed.

(** C7 at work: an upper-case unit, and a token without a unit. *)
Lemma parse_latency_spec_witness :
  (number "1.5" /\ latency_factor "S" = Some 1e3%float
   /\ parse_latency "1.5S" = Ok (float_of_number "1.5" * 1e3)%float)
  /\ exists e, parse_latency "10" = Raise e /\ kind_of e = FormatError.
Proof.
  split.
  - split; [|split; [reflexivity|]].
    + apply (number_point "1" "5"); [reflexivity | reflexivity | discriminate].
    + apply (proj1 parse_latency_spec "1.5" "S" 1e3%float); [|reflexivity].
      apply (number_point "1" "5"); [reflexivity | reflexivity | discriminate].
  - apply (proj1 (proj2 parse_latency_spec) "10").
    intros num unit _ E.
    destruct num as [|c1 [|c2 [|c3 num]]]; simpl in E; inversion E; subst; reflexivity.
Defined.

Lemma rstrip_with_none (p : ascii -> bool) (s : string) :
  all (fun c => negb (p c)) s = true -> rstrip_with p s = s.
Proof.
  induction s as [|x s IH]; simpl; [reflexivity|].
  rewrite andb_true_iff, negb_true_iff. intros [Hx Hs].
  now rewrite (IH Hs), Hx, andb_false_r.
Qed.

Lemma lstrip_with_none (p : ascii -> bool) (s : string) :
  all (fun c => negb (p c)) s = true -> lstrip_with p s = s.
Proof.
  destruct s as [|x s]; simpl; [reflexivity|].
  rewrite andb_true_iff, negb_true_iff. now intros [-> _].
Qed.

Lemma strip_nospace (s : string) : all nospace s = true -> strip s = s.
Proof.
  intros H. unfold strip.
  rewrite (rstrip_with_none isspace s H). now apply lstrip_with_none.
Qed.


Lemma numchar_nospace (c : ascii) : numchar c = true -> nospace c = true.
Proof. revert c. apply for_all_ascii_impl. vm_compute. reflexivity. Qed.













Lemma parse_throughput_raises_format (token : string) (e : error) :
  parse_throughput token = Raise e -> kind_of e = FormatError.
Proof.
  unfold parse_throughput.
  destruct (is_nan_text (lower (strip token))); [discriminate|].
  destruct (fullmatch_throughput (lower (strip token))) as [[n u]|];
    [|intros H; now inversion H].
  destruct (_THROUGHPUT_SUFFIXES !! u); intros H; now inversion H.
Qed.



End UnitParserFacts.

(** ** WorkerLogReader: [_extract_metrics_from_lines] *)

Module WorkerLogReaderFacts.
Import Py PyFacts Basic Vocabulary Auxiliary.

(** The headings exclude each other. *)
Lemma headings_disjoint (line : string) :
  startswith "Req/Sec" line = true -> startswith "Latency" line = false.
Proof.
  destruct line as [|c line]; [discriminate|]. unfold startswith.
  change (strip_prefix "Req/Sec" (String c line))
    with (if Ascii.eqb "R" c then strip_prefix "eq/Sec" line else None).
  destruct (Ascii.eqb "R" c) eqn:E; [|intros H; discriminate H].
  apply Ascii.eqb_eq in E as <-. reflexivity.
Qed.

(** *** What one line does to the fields *)

Lemma scan_line_short (st : fields) (raw_line : string) :
  short_line raw_line = true -> scan_line st raw_line = Ok st.
Proof.
  unfold short_line, scan_line, tokens.
  rewrite andb_true_iff, orb_true_iff. intros [[H | H] ->].
  - now rewrite H.
  - now rewrite (headings_disjoint _ H), H.
Qed.

Lemma scan_line_latency (st st' : fields) (raw_line : string) :
  latency_line raw_line = true -> scan_line st raw_line = Ok st' ->
  exists avg stdev,
    parse_latency (token raw_line 1) = Ok avg
    /\ parse_latency (token raw_line 2) = Ok stdev
    /\ st' = {| f_latency_avg_ms := Some avg; f_latency_stdev_ms := Some stdev;
                f_req_avg := f_req_avg st; f_req_stdev := f_req_stdev st |}.
Proof.
  unfold latency_line, scan_line, token, tokens.
  rewrite andb_true_iff, negb_true_iff. intros [-> ->] H.
  apply bind_ok in H as (avg & Ha & H). apply bind_ok in H as (stdev & Hs & H).
  exists avg, stdev. now inversion H.
Qed.

Lemma scan_line_req (st st' : fields) (raw_line : string) :
  req_line raw_line = true -> scan_line st raw_line = Ok st' ->
  exists avg stdev,
    parse_throughput (token raw_line 1) = Ok avg
    /\ parse_throughput (token raw_line 2) = Ok stdev
    /\ st' = {| f_latency_avg_ms := f_latency_avg_ms st;
                f_latency_stdev_ms := f_latency_stdev_ms st;
                f_req_avg := Some avg; f_req_stdev := Some stdev |}.
Proof.
  unfold req_line, scan_line, token, tokens.
  rewrite andb_true_iff, negb_true_iff. intros [Hh ->] H.
  rewrite (headings_disjoint _ Hh), Hh in H.
  apply bind_ok in H as (avg & Ha & H). apply bind_ok in H as (stdev & Hs & H).
  exists avg, stdev. now inversion H.
Qed.

Lemma scan_line_keeps_latency (st st' : fields) (raw_line : string) :
  latency_line raw_line = false -> scan_line st raw_line = Ok st' ->
  f_latency_avg_ms st' = f_latency_avg_ms st
  /\ f_latency_stdev_ms st' = f_latency_stdev_ms st.
Proof.
  unfold latency_line, scan_line, tokens. intros Hl H.
  destruct (startswith "Latency" (strip raw_line)); simpl in Hl.
  - apply negb_false_iff in Hl. rewrite Hl in H. now inversion H.
  - destruct (startswith "Req/Sec" (strip raw_line)); [|now inversion H].
    destruct (_ <? 3)%nat; [now inversion H|].
    apply bind_ok in H as (avg & Ha & H). apply bind_ok in H as (stdev & Hs & H).
    now inversion H.
Qed.

Lemma scan_line_keeps_req (st st' : fields) (raw_line : string) :
  req_line raw_line = false -> scan_line st raw_line = Ok st' ->
  f_req_avg st' = f_req_avg st /\ f_req_stdev st' = f_req_stdev st.
Proof.
  unfold req_line, scan_line, tokens. intros Hl H.
  destruct (startswith "Latency" (strip raw_line)) eqn:Hlat.
  - destruct (_ <? 3)%nat; [now inversion H|].
    apply bind_ok in H as (avg & Ha & H). apply bind_ok in H as (stdev & Hs & H).
    now inversion H.
  - destruct (startswith "Req/Sec" (strip raw_line)); [|now inversion H].
    simpl in Hl. apply negb_false_iff in Hl. rewrite Hl in H. now inversion H.
Qed.

Lemma scan_line_raises_format (st : fields) (raw_line : string) (e : error) :
  scan_line st raw_line = Raise e -> kind_of e = FormatError.
Proof.
  unfold scan_line.
  destruct (startswith "Latency" (strip raw_line)).
  - destruct (_ <? 3)%nat; [discriminate|].
    destruct (parse_latency (part _ 1)) as [a|e1] eqn:E1; simpl.
    + destruct (parse_latency (part _ 2)) as [b|e2] eqn:E2; simpl; [discriminate|].
      intros H. inversion H; subst.
      now apply UnitParserFacts.parse_latency_raises_format in E2.
    + intros H. inversion H; subst.
      now apply UnitParserFacts.parse_latency_raises_format in E1.
  - destruct (startswith "Req/Sec" (strip raw_line)); [|discriminate].
    destruct (_ <? 3)%nat; [discriminate|].
    destruct (parse_throughput (part _ 1)) as [a|e1] eqn:E1; simpl.
    + destruct (parse_throughput (part _ 2)) as [b|e2] eqn:E2; simpl; [discriminate|].
      intros H. inversion H; subst.
      now apply UnitParserFacts.parse_throughput_raises_format in E2.
    + intros H. inversion H; subst.
      now apply UnitParserFacts.parse_throughput_raises_format in E1.
Qed.

(** *** What a run of lines does *)

Lemma for_each_keeps_latency (lines : list string) (st st' : fields) :
  Forall (fun l => latency_line l = false) lines ->
  for_each scan_line st lines = Ok st' ->
  f_latency_avg_ms st' = f_latency_avg_ms st
  /\ f_latency_stdev_ms st' = f_latency_stdev_ms st.
Proof.
  intros Hall. revert st. induction Hall as [|l lines Hl _ IH]; intros st H; simpl in H.
  - now inversion H.
  - apply bind_ok in H as (st1 & H1 & H).
    destruct (scan_line_keeps_latency _ _ _ Hl H1) as [<- <-]. now apply IH.
Qed.

Lemma for_each_keeps_req (lines : list string) (st st' : fields) :
  Forall (fun l => req_line l = false) lines ->
  for_each scan_line st lines = Ok st' ->
  f_req_avg st' = f_req_avg st /\ f_req_stdev st' = f_req_stdev st.
Proof.
  intros Hall. revert st. induction Hall as [|l lines Hl _ IH]; intros st H; simpl in H.
  - now inversion H.
  - apply bind_ok in H as (st1 & H1 & H).
    destruct (scan_line_keeps_req _ _ _ Hl H1) as [<- <-]. now apply IH.
Qed.

Lemma for_each_raises_format (lines : list string) (st : fields) (e : error) :
  for_each scan_line st lines = Raise e -> kind_of e = FormatError.
Proof.
  revert st. induction lines as [|l lines IH]; intros st H; simpl in H; [discriminate|].
  destruct (scan_line st l) as [st1|e1] eqn:H1; simpl in H.
  - now apply IH with st1.
  - inversion H; subst. now apply scan_line_raises_format in H1.
Qed.

Lemma finish_ok (st : fields) (la ls ra rs : float) :
  finish st = Ok (la, ls, ra, rs) ->
  f_latency_avg_ms st = Some la /\ f_latency_stdev_ms st = Some ls
  /\ f_req_avg st = Some ra /\ f_req_stdev st = Some rs.
Proof.
  unfold finish.
  destruct (f_latency_avg_ms st), (f_latency_stdev_ms st), (f_req_avg st), (f_req_stdev st);
    intros H; now inversion H.
Qed.

Lemma finish_raise (st : fields) (e : error) :
  finish st = Raise e -> e = MissingFields (missing st) /\ unset st.
Proof.
  unfold finish, unset.
  destruct (f_latency_avg_ms st), (f_latency_stdev_ms st), (f_req_avg st), (f_req_stdev st);
    intros H; inversion H; tauto.
Qed.

Lemma finish_unset (st : fields) : unset st -> finish st = Raise (MissingFields (missing st)).
Proof.
  unfold finish, unset.
  destruct (f_latency_avg_ms st), (f_latency_stdev_ms st), (f_req_avg st), (f_req_stdev st);
    intros [H | [H | [H | H]]]; congruence.
Qed.

(** *** Lines that can all be read *)

Lemma scan_line_readable (st : fields) (raw_line : string) :
  readable raw_line = true ->
  exists st', scan_line st raw_line = Ok st'
              /\ has_latency st' = has_latency st || latency_line raw_line
              /\ has_req st' = has_req st || req_line raw_line.
Proof.
  unfold readable, latency_line, req_line, scan_line, token, tokens.
  destruct (startswith "Latency" (strip raw_line)) eqn:Hl; simpl.
  - assert (Hr : startswith "Req/Sec" (strip raw_line) = false).
    { destruct (startswith "Req/Sec" (strip raw_line)) eqn:Hr; [|reflexivity].
      apply headings_disjoint in Hr. congruence. }
    rewrite Hr. simpl. destruct (_ <? 3)%nat; simpl.
    + intros _. exists st. now rewrite !orb_false_r.
    + destruct (parse_latency (part _ 1)) as [a|]; [|discriminate].
      destruct (parse_latency (part _ 2)) as [b|]; [|discriminate].
      intros _. eexists. split; [reflexivity|]. unfold has_latency, has_req. simpl.
      now rewrite orb_true_r, orb_false_r.
  - destruct (startswith "Req/Sec" (strip raw_line)) eqn:Hr; simpl.
    + destruct (_ <? 3)%nat; simpl.
      * intros _. exists st. now rewrite !orb_false_r.
      * destruct (parse_throughput (part _ 1)) as [a|]; [|discriminate].
        destruct (parse_throughput (part _ 2)) as [b|]; [|discriminate].
        intros _. eexists. split; [reflexivity|]. unfold has_latency, has_req. simpl.
        now rewrite orb_true_r, orb_false_r.
    + intros _. exists st. now rewrite !orb_false_r.
Qed.

Lemma for_each_readable (lines : list string) (st : fields) :
  forallb readable lines = true ->
  exists st', for_each scan_line st lines = Ok st'
              /\ has_latency st' = has_latency st || existsb latency_line lines
              /\ has_req st' = has_req st || existsb req_line lines.
Proof.
  revert st. induction lines as [|l lines IH]; intros st; simpl.
  - intros _. exists st. now rewrite !orb_false_r.
  - rewrite andb_true_iff. intros [Hl Hrest].
    destruct (scan_line_readable st l Hl) as (st1 & -> & Hlat & Hreq). simpl.
    destruct (IH st1 Hrest) as (st' & -> & Hlat' & Hreq').
    exists st'. split; [reflexivity|].
    now rewrite Hlat', Hreq', Hlat, Hreq, !orb_assoc.
Qed.

Lemma finish_has_both (st : fields) :
  has_latency st = true -> has_req st = true -> exists v, finish st = Ok v.
Proof.
  unfold has_latency, has_req, finish.
  destruct (f_latency_avg_ms st), (f_latency_stdev_ms st), (f_req_avg st), (f_req_stdev st);
    try discriminate. eauto.
Qed.

(** C1, as the code has it.  The values returned for the latency (for the
    throughput) are those of the LAST line that begins with "Latency" (with
    "Req/Sec") and has at least three tokens: such a line overwrites what an
    earlier one set.  Lines that can all be read, with one of each heading
    among them, do give a result. *)
Theorem last_line_wins :
  (forall before raw_line after la ls ra rs,
      latency_line raw_line = true ->
      Forall (fun l => latency_line l = false) after ->
      _extract_metrics_from_lines (before ++ raw_line :: after) = Ok (la, ls, ra, rs) ->
      parse_latency (token raw_line 1) = Ok la /\ parse_latency (token raw_line 2) = Ok ls)
  /\ (forall before raw_line after la ls ra rs,
        req_line raw_line = true ->
        Forall (fun l => req_line l = false) after ->
        _extract_metrics_from_lines (before ++ raw_line :: after) = Ok (la, ls, ra, rs) ->
        parse_throughput (token raw_line 1) = Ok ra
        /\ parse_throughput (token raw_line 2) = Ok rs)
  /\ (forall lines,
        forallb readable lines = true ->
        existsb latency_line lines = true -> existsb req_line lines = true ->
        exists v, _extract_metrics_from_lines lines = Ok v).
Proof.
  split; [|split].
  - intros before raw_line after la ls ra rs Hl Hafter H.
    unfold _extract_metrics_from_lines in H. apply bind_ok in H as (st & Hrun & Hfin).
    rewrite for_each_append in Hrun. apply bind_ok in Hrun as (st0 & _ & Hrun).
    simpl in Hrun. apply bind_ok in Hrun as (st1 & Hline & Hrest).
    destruct (scan_line_latency _ _ _ Hl Hline) as (avg & stdev & Ha & Hs & ->).
    destruct (for_each_keeps_latency _ _ _ Hafter Hrest) as [Ea Es]. simpl in Ea, Es.
    apply finish_ok in Hfin as (Fa & Fs & _ & _).
    rewrite Ha, Hs. split; congruence.
  - intros before raw_line after la ls ra rs Hl Hafter H.
    unfold _extract_metrics_from_lines in H. apply bind_ok in H as (st & Hrun & Hfin).
    rewrite for_each_append in Hrun. apply bind_ok in Hrun as (st0 & _ & Hrun).
    simpl in Hrun. apply bind_ok in Hrun as (st1 & Hline & Hrest).
    destruct (scan_line_req _ _ _ Hl Hline) as (avg & stdev & Ha & Hs & ->).
    destruct (for_each_keeps_req _ _ _ Hafter Hrest) as [Ea Es]. simpl in Ea, Es.
    apply finish_ok in Hfin as (_ & _ & Fa & Fs).
    rewrite Ha, Hs. split; congruence.
  - intros lines Hread Hlat Hreq. unfold _extract_metrics_from_lines.
    destruct (for_each_readable lines no_fields Hread) as (st & -> & Hl & Hr). simpl.
    apply finish_has_both; [now rewrite Hl, Hlat | now rewrite Hr, Hreq].
Qed.

(** C1 at work: two "Latency" lines, the second of which is returned. *)
Lemma last_line_wins_witness :
  latency_line "Latency 2ms 3ms" = true
  /\ Forall (fun l => latency_line l = false) ["Req/Sec 4 5k"]
  /\ _extract_metrics_from_lines ["Latency 1ms 1ms"; "Latency 2ms 3ms"; "Req/Sec 4 5k"]
     = Ok (2, 3, 4, 5000)%float
  /\ parse_latency (token "Latency 2ms 3ms" 1) = Ok 2%float
  /\ parse_latency (token "Latency 2ms 3ms" 2) = Ok 3%float.
Proof.
  assert (Hafter : Forall (fun l => latency_line l = false) ["Req/Sec 4 5k"]).
  { constructor; [reflexivity | constructor]. }
  split; [reflexivity|]. split; [exact Hafter|]. split; [reflexivity|].
  exact (proj1 last_line_wins ["Latency 1ms 1ms"] "Latency 2ms 3ms" ["Req/Sec 4 5k"]
               2%float 3%float 4%float 5000%float eq_refl Hafter eq_refl).
Defined.

(** C1 as stated fails: of two "Latency" lines and two "Req/Sec" lines, the
    first ones carry 1ms and 1, and the values returned are 2 (ms) and 2,
    those of the second ones. *)
Lemma first_line_does_not_win :
  _extract_metrics_from_lines
    ["Latency 1ms 1ms"; "Latency 2ms 2ms"; "Req/Sec 1 1"; "Req/Sec 2 2"]
  = Ok (2, 2, 2, 2)%float
  /\ parse_latency (token "Latency 1ms 1ms" 1) = Ok 1%float
  /\ parse_latency (token "Latency 1ms 1ms" 2) = Ok 1%float
  /\ parse_throughput (token "Req/Sec 1 1" 1) = Ok 1%float
  /\ parse_throughput (token "Req/Sec 1 1" 2) = Ok 1%float
  /\ (1 =? 2)%float = false.
Proof. repeat split; reflexivity. Qed.

(** C10. A line with a heading and fewer than three tokens changes nothing
    and raises nothing, so that dropping it from the input changes no result
    (a later line still supplies the values); and an error of the reader is a
    MissingFieldError exactly when the lines ran out, each read without
    error, with a field still unset. *)
Theorem short_line_is_skipped :
  (forall st raw_line, short_line raw_line = true -> scan_line st raw_line = Ok st)
  /\ (forall before after raw_line,
        short_line raw_line = true ->
        _extract_metrics_from_lines (before ++ raw_line :: after)
        = _extract_metrics_from_lines (before ++ after))
  /\ (forall lines e,
        _extract_metrics_from_lines lines = Raise e ->
        (kind_of e = MissingFieldError
         <-> exists st, for_each scan_line no_fields lines = Ok st /\ unset st))
  /\ (forall lines st,
        for_each scan_line no_fields lines = Ok st -> unset st ->
        _extract_metrics_from_lines lines = Raise (MissingFields (missing st))).
Proof.
  split; [exact scan_line_short|]. split; [|split].
  - intros before after raw_line Hshort. unfold _extract_metrics_from_lines.
    rewrite !for_each_append. destruct (for_each scan_line no_fields before) as [st|e];
      simpl; [|reflexivity].
    now rewrite (scan_line_short st raw_line Hshort).
  - intros lines e. unfold _extract_metrics_from_lines.
    destruct (for_each scan_line no_fields lines) as [st|e'] eqn:Hrun; simpl.
    + intros Hfin. apply finish_raise in Hfin as [-> Hun]. split; [eauto | reflexivity].
    + intros H. inversion H; subst. apply for_each_raises_format in Hrun.
      split; [congruence | intros (st & Hst & _); discriminate].
  - intros lines st Hrun Hun. unfold _extract_metrics_from_lines. rewrite Hrun. simpl.
    now apply finish_unset.
Qed.

(** C10 at work: the two-token line "Latency Distribution" between a
    "Req/Sec" line and the "Latency" line that supplies the values. *)
Lemma short_line_is_skipped_witness :
  short_line "  Latency Distribution" = true
  /\ _extract_metrics_from_lines
       ["Req/Sec 3 4"; "  Latency Distribution"; "Latency 1ms 2ms"]
     = _extract_metrics_from_lines ["Req/Sec 3 4"; "Latency 1ms 2ms"]
  /\ _extract_metrics_from_lines ["Req/Sec 3 4"; "Latency 1ms 2ms"] = Ok (1, 2, 3, 4)%float.
Proof.
  split; [reflexivity|]. split; [|reflexivity].
  exact (proj1 (proj2 short_line_is_skipped)
               ["Req/Sec 3 4"] ["Latency 1ms 2ms"] "  Latency Distribution" eq_refl).
Defined.

End WorkerLogReaderFacts.

(** ** Worker identity: [_deduce_worker_id] *)

Module WorkerIdFacts.
Import Py PyFacts Basic Vocabulary Auxiliary.

Lemma digit_not_underscore (c : ascii) : isdigit c = true -> not_underscore c = true.
Proof. revert c. apply for_all_ascii_impl. vm_compute. reflexivity. Qed.

(** The last underscore of a text is where it is. *)
Lemma last_underscore (a a' x x' : string) :
  all not_underscore x = true -> all not_underscore x' = true ->
  a ++ String "_" x = a' ++ String "_" x' -> x = x'.
Proof.
  intros Hx Hx'. revert a'. induction a as [|c a IH]; intros a' E.
  - destruct a' as [|c' a']; simpl in E; injection E as E; [now subst|].
    subst x. rewrite all_append in Hx. simpl in Hx.
    rewrite andb_false_r in Hx. discriminate.
  - destruct a' as [|c' a']; simpl in E; injection E as Ec E.
    + subst x'. rewrite all_append in Hx'. simpl in Hx'.
      rewrite andb_false_r in Hx'. discriminate.
    + now apply IH with a'.
Qed.

Lemma tail_stops (tail : string) : is_tail tail -> stops isdigit tail.
Proof. intros [-> | ->]; reflexivity. Qed.

Lemma tail_not_underscore (tail : string) : is_tail tail -> all not_underscore tail = true.
Proof. intros [-> | ->]; reflexivity. Qed.

Lemma is_tail_eqb (tail : string) :
  String.eqb tail ".log" || String.eqb tail (".log" ++ newline) = true <-> is_tail tail.
Proof. unfold is_tail. now rewrite orb_true_iff, !String.eqb_eq. Qed.

Lemma match_worker_here_complete (d tail : string) :
  all isdigit d = true -> d <> "" -> is_tail tail ->
  match_worker_here ("wrk_client_" ++ d ++ tail) = Some d.
Proof.
  intros Hd Hne Ht. unfold match_worker_here.
  rewrite strip_prefix_append, (span_append isdigit d tail Hd (tail_stops _ Ht)).
  apply is_empty_false in Hne. rewrite Hne. cbn [negb andb].
  apply is_tail_eqb in Ht. unfold newline in Ht. now rewrite Ht.
Qed.

Lemma match_worker_here_sound (s d : string) :
  match_worker_here s = Some d ->
  all isdigit d = true /\ d <> ""
  /\ exists tail, s = "wrk_client_" ++ d ++ tail /\ is_tail tail.
Proof.
  unfold match_worker_here.
  destruct (strip_prefix "wrk_client_" s) as [r|] eqn:Hp; [|discriminate].
  apply strip_prefix_spec in Hp as ->.
  destruct (span isdigit r) as [ds r'] eqn:Hs. apply span_spec in Hs as (-> & Hd & _).
  destruct (negb (is_empty ds)) eqn:Hne; [|discriminate]. cbn [andb].
  destruct (_ || _) eqn:Ht; [|discriminate]. intros H. inversion H; subst.
  apply negb_true_iff, is_empty_false in Hne. apply is_tail_eqb in Ht. eauto.
Qed.

(** Wherever the pattern matches inside a worker-log name, the digits are the
    same. *)
Lemma match_worker_here_unique (before d tail d' : string) :
  all isdigit d = true -> is_tail tail ->
  match_worker_here (before ++ "wrk_client_" ++ d ++ tail) = Some d' -> d' = d.
Proof.
  intros Hd Ht H. apply match_worker_here_sound in H as (Hd' & _ & tail' & E & Ht').
  change ("wrk_client_" ++ d ++ tail) with ("wrk_client" ++ String "_" (d ++ tail)) in E.
  change ("wrk_client_" ++ d' ++ tail') with ("wrk_client" ++ String "_" (d' ++ tail')) in E.
  rewrite <- append_assoc in E. apply last_underscore in E.
  - assert (Hs : span isdigit (d ++ tail) = span isdigit (d' ++ tail')) by now rewrite E.
    rewrite (span_append _ _ _ Hd (tail_stops _ Ht)) in Hs.
    rewrite (span_append _ _ _ Hd' (tail_stops _ Ht')) in Hs. congruence.
  - rewrite all_append, (tail_not_underscore _ Ht), andb_true_r.
    apply (all_impl isdigit); [exact digit_not_underscore | exact Hd].
  - rewrite all_append, (tail_not_underscore _ Ht'), andb_true_r.
    apply (all_impl isdigit); [exact digit_not_underscore | exact Hd'].
Qed.

Lemma search_worker_unfold (s : string) :
  search_worker s =
  match match_worker_here s with
  | Some digits => Some digits
  | None => match s with
            | EmptyString => None
            | String _ s' => search_worker s'
            end
  end.
Proof. destruct s; reflexivity. Qed.

Lemma search_worker_complete (name d : string) :
  worker_log_name name d -> search_worker name = Some d.
Proof.
  intros (Hd & Hne & before & tail & -> & Ht). fold (is_tail tail) in Ht.
  induction before as [|c before IH]; rewrite search_worker_unfold.
  - change ("" ++ "wrk_client_" ++ d ++ tail) with ("wrk_client_" ++ d ++ tail).
    now rewrite match_worker_here_complete.
  - destruct (match_worker_here _) as [d'|] eqn:Hm.
    + f_equal. now apply match_worker_here_unique in Hm.
    + exact IH.
Qed.

Lemma search_worker_sound (name d : string) :
  search_worker name = Some d -> worker_log_name name d.
Proof.
  induction name as [|c name IH]; rewrite search_worker_unfold;
    destruct (match_worker_here _) as [d'|] eqn:Hm; try discriminate.
  - intros H. inversion H; subst.
    apply match_worker_here_sound in Hm as (Hd & Hne & tail & E & Ht).
    repeat split; [exact Hd | exact Hne|]. exists "", tail. now split.
  - intros H. destruct (IH H) as (Hd & Hne & before & tail & -> & Ht).
    repeat split; [exact Hd | exact Hne|]. exists (String c before), tail. now split.
Qed.

(** C4, as the code has it.  When the last component of the path (or the
    section name) ends with [wrk_client_<digits>.log], the identity is the
    digits; for every other name it is the stem of that component, the name
    without its last suffix.  An underscore and digits before [.log] are not
    enough: [wrk_client_] has to stand before the digits. *)
Theorem deduce_worker_id_spec :
  (forall path digits,
      worker_log_name (path_name path) digits -> _deduce_worker_id path = digits)
  /\ (forall path,
        (forall digits, ~ worker_log_name (path_name path) digits) ->
        _deduce_worker_id path = path_stem path)
  /\ _deduce_worker_id "wrk_log/wrk_client_12.log" = "12"
  /\ _deduce_worker_id "a" = "a".
Proof.
  split; [|split; [|split; reflexivity]].
  - intros path digits H. unfold _deduce_worker_id.
    now rewrite (search_worker_complete _ _ H).
  - intros path Hnone. unfold _deduce_worker_id.
    destruct (search_worker (path_name path)) as [d|] eqn:Hs; [|reflexivity].
    apply search_worker_sound in Hs. now destruct (Hnone d).
Qed.

(** C4 at work on a name with text before [wrk_client_]. *)
Lemma deduce_worker_id_spec_witness :
  worker_log_name (path_name "logs/run3_wrk_client_007.log") "007"
  /\ _deduce_worker_id "logs/run3_wrk_client_007.log" = "007".
Proof.
  assert (H : worker_log_name (path_name "logs/run3_wrk_client_007.log") "007").
  { repeat split; [discriminate|]. exists "run3_", ".log". split; [reflexivity | now left]. }
  split; [exact H|].
  exact (proj1 deduce_worker_id_spec "logs/run3_wrk_client_007.log" "007" H).
Defined.

(** C4 as stated fails: [foo_12.log] is <anything>_<digits>.log, and its
    identity is the stem [foo_12], not the digits [12]. *)
Lemma underscore_digits_is_not_enough :
  _deduce_worker_id "foo_12.log" = "foo_12"
  /\ "foo_12.log" = "foo" ++ "_" ++ "12" ++ ".log"
  /\ all isdigit "12" = true
  /\ String.eqb "foo_12" "12" = false.
Proof. repeat split; reflexivity. Qed.

End WorkerIdFacts.

(** ** AggregatedLogSplitter: [parse_aggregated_log] *)

Module SplitterFacts.
Import Py PyFacts Basic Vocabulary Auxiliary WorkerLogReaderFacts.

(** Of two texts with a common end, the shorter tail ends the longer one. *)
Lemma common_end (a b s1 s2 : string) :
  a ++ s1 = b ++ s2 -> (String.length s1 <= String.length s2)%nat ->
  exists c, s2 = c ++ s1.
Proof.
  revert a. induction b as [|y b IH]; intros a E Hlen.
  - exists a. now rewrite E.
  - destruct a as [|x a]; simpl in E.
    + apply (f_equal String.length) in E. simpl in E. rewrite length_append in E. lia.
    + injection E as _ E. now apply IH with a.
Qed.

Lemma match_marker_sound (keyword s name : string) :
  match_marker keyword s = Some name ->
  exists body, strip_prefix "===== " body = Some (name ++ " " ++ keyword ++ " =====")
               /\ body = match strip_suffix newline s with Some b => b | None => s end.
Proof.
  unfold match_marker. fold newline.
  set (body := match strip_suffix newline s with Some b => b | None => s end).
  destruct (strip_prefix "===== " body) as [r|] eqn:Hp; [|discriminate].
  destruct (strip_suffix _ r) as [n|] eqn:Hs; [|discriminate].
  destruct (_ && _); [|discriminate]. intros H. inversion H; subst.
  apply strip_suffix_spec in Hs as ->. now exists body.
Qed.

(** No text is both a START and an END marker. *)
Lemma markers_disjoint (s found : string) :
  _SECTION_END_RE s = Some found -> _SECTION_START_RE s = None.
Proof.
  unfold _SECTION_END_RE, _SECTION_START_RE. intros He.
  destruct (match_marker "START" s) as [name|] eqn:Hs; [exfalso | reflexivity].
  apply match_marker_sound in He as (body & He & Hb).
  apply match_marker_sound in Hs as (body' & Hs & Hb'). subst body body'.
  rewrite He in Hs. injection Hs as E.
  apply common_end in E as (c & Ec); [|simpl; lia].
  destruct c as [|c1 [|c2 [|c3 c]]]; simpl in Ec; try discriminate Ec.
  injection Ec as _ _ _ Ec. apply (f_equal String.length) in Ec. simpl in Ec.
  rewrite length_append in Ec. simpl in Ec. lia.
Qed.

Lemma common_last (a b : string) (x y : ascii) :
  a ++ String x "" = b ++ String y "" -> x = y.
Proof.
  intros E. apply common_end in E as (c & Hc); [|simpl; lia].
  destruct c as [|c1 [|c2 c]]; simpl in Hc; [now injection Hc | discriminate Hc..].
Qed.

(** A marker line is read as the marker of its name. *)
Lemma match_marker_complete (keyword name : string) :
  name <> "" -> no_newline name = true ->
  match_marker keyword ("===== " ++ name ++ " " ++ keyword ++ " =====") = Some name.
Proof.
  intros Hne Hnl. unfold match_marker. fold newline.
  destruct (strip_suffix newline _) as [b|] eqn:Hb.
  - exfalso. apply strip_suffix_spec in Hb.
    assert (E : "===== " ++ name ++ " " ++ keyword ++ " ====="
                = ("===== " ++ name ++ " " ++ keyword ++ " ====") ++ "=").
    { rewrite !append_assoc. reflexivity. }
    rewrite E in Hb. apply common_last in Hb. discriminate Hb.
  - rewrite strip_prefix_append, strip_suffix_append.
    apply is_empty_false in Hne. now rewrite Hne, Hnl.
Qed.

(** *** One line *)

Lemma feed_nested_start (path : string) (st : splitter) (raw_line name open : string) :
  start_marker raw_line = Some name -> current_name st = Some open ->
  feed path st raw_line = Raise (NestedSectionStart path open).
Proof. unfold start_marker, feed. now intros -> ->. Qed.

Lemma feed_end_mismatch (path : string) (st : splitter) (raw_line found open : string) :
  end_marker raw_line = Some found -> current_name st = Some open -> found <> open ->
  feed path st raw_line = Raise (SectionEndMismatch path found open).
Proof.
  unfold end_marker, feed. intros He -> Hne.
  rewrite (markers_disjoint _ _ He), He.
  apply String.eqb_neq in Hne. now rewrite Hne.
Qed.

Lemma feed_outside (path : string) (st : splitter) (raw_line : string) :
  start_marker raw_line = None -> current_name st = None ->
  feed path st raw_line = Ok st.
Proof.
  unfold start_marker, feed. intros -> ->.
  now destruct (_SECTION_END_RE (rstrip_newline raw_line)).
Qed.

Lemma feed_plain_inside (path : string) (st : splitter) (raw_line open : string) :
  plain_line raw_line -> current_name st = Some open ->
  feed path st raw_line =
  Ok {| stats := stats st; current_name := Some open;
        current_lines := current_lines st ++ [raw_line] |}.
Proof. unfold plain_line, start_marker, end_marker, feed. now intros [-> ->] ->. Qed.

(** *** A run of lines *)

Lemma for_each_outside (path : string) (lines : list string) (st : splitter) :
  Forall (fun l => start_marker l = None) lines -> current_name st = None ->
  for_each (feed path) st lines = Ok st.
Proof.
  intros Hall Hout. induction Hall as [|l lines Hl _ IH]; simpl; [reflexivity|].
  now rewrite (feed_outside path st l Hl Hout).
Qed.

Lemma for_each_plain_inside (path : string) (body : list string) (sts : list WorkerStats)
    (open : string) (buffer : list string) :
  Forall plain_line body ->
  for_each (feed path) {| stats := sts; current_name := Some open; current_lines := buffer |}
           body
  = Ok {| stats := sts; current_name := Some open; current_lines := buffer ++ body |}.
Proof.
  intros Hall. revert buffer. induction Hall as [|l body Hl _ IH]; intros buffer; simpl.
  - now rewrite app_nil_r.
  - rewrite (feed_plain_inside path
               {| stats := sts; current_name := Some open; current_lines := buffer |}
               l open Hl eq_refl).
    simpl. rewrite IH. now rewrite <- app_assoc.
Qed.

(** C5. In every input: a START marker met while a section is open, an END
    marker whose name is not that of the open section, and the end of the
    input while a section is open each fail with a StructureError; an input
    that leaves no section (in particular one without a START marker) fails
    with an EmptyResultError; and one block [===== <name> START =====] ...
    [===== <name> END =====] whose lines in between are no markers and parse
    gives exactly one record, with the identity deduced from the name: [a]
    for the name [a]. *)
Theorem splitter_spec (path : string) :
  (forall before raw_line after st name open,
      for_each (feed path) splitter_start before = Ok st ->
      current_name st = Some open -> start_marker raw_line = Some name ->
      parse_aggregated_log path (before ++ raw_line :: after)
      = Raise (NestedSectionStart path open)
      /\ kind_of (NestedSectionStart path open) = StructureError)
  /\ (forall before raw_line after st found open,
        for_each (feed path) splitter_start before = Ok st ->
        current_name st = Some open -> end_marker raw_line = Some found -> found <> open ->
        parse_aggregated_log path (before ++ raw_line :: after)
        = Raise (SectionEndMismatch path found open)
        /\ kind_of (SectionEndMismatch path found open) = StructureError)
  /\ (forall lines st open,
        for_each (feed path) splitter_start lines = Ok st -> current_name st = Some open ->
        parse_aggregated_log path lines = Raise (UnterminatedSection path open)
        /\ kind_of (UnterminatedSection path open) = StructureError)
  /\ (forall lines st,
        for_each (feed path) splitter_start lines = Ok st ->
        current_name st = None -> stats st = [] ->
        parse_aggregated_log path lines = Raise (NoWorkerSections path)
        /\ kind_of (NoWorkerSections path) = EmptyResultError)
  /\ (forall lines,
        Forall (fun l => start_marker l = None) lines ->
        parse_aggregated_log path lines = Raise (NoWorkerSections path))
  /\ (forall name start_line body end_line la ls ra rs,
        name <> "" -> no_newline name = true ->
        rstrip_newline start_line = "===== " ++ name ++ " START =====" ->
        rstrip_newline end_line = "===== " ++ name ++ " END =====" ->
        Forall plain_line body ->
        _extract_metrics_from_lines body = Ok (la, ls, ra, rs) ->
        parse_aggregated_log path (start_line :: body ++ [end_line])
        = Ok [ {| worker_id := _deduce_worker_id name;
                  latency_avg_ms := la; latency_stdev_ms := ls;
                  req_per_sec_avg := ra; req_per_sec_stdev := rs;
                  log_path := Section_ path name |} ])
  /\ _deduce_worker_id "a" = "a".
Proof.
  repeat apply conj.
  - intros before raw_line after st name open Hrun Hopen Hstart.
    split; [|reflexivity]. unfold parse_aggregated_log.
    rewrite for_each_append, Hrun. simpl.
    now rewrite (feed_nested_start path st raw_line name open Hstart Hopen).
  - intros before raw_line after st found open Hrun Hopen Hend Hne.
    split; [|reflexivity]. unfold parse_aggregated_log.
    rewrite for_each_append, Hrun. simpl.
    now rewrite (feed_end_mismatch path st raw_line found open Hend Hopen Hne).
  - intros lines st open Hrun Hopen. split; [|reflexivity].
    unfold parse_aggregated_log. rewrite Hrun. simpl. now rewrite Hopen.
  - intros lines st Hrun Hout Hnone. split; [|reflexivity].
    unfold parse_aggregated_log. rewrite Hrun. simpl. now rewrite Hout, Hnone.
  - intros lines Hall. unfold parse_aggregated_log.
    now rewrite (for_each_outside path lines splitter_start Hall eq_refl).
  - intros name start_line body end_line la ls ra rs Hne Hnl Hs He Hbody Hparse.
    pose proof (match_marker_complete "START" name Hne Hnl) as Hstart.
    pose proof (match_marker_complete "END" name Hne Hnl) as Hend.
    change (" " ++ "START" ++ " =====") with " START =====" in Hstart.
    change (" " ++ "END" ++ " =====") with " END =====" in Hend.
    unfold parse_aggregated_log. simpl.
    assert (Hfeed : feed path splitter_start start_line
                    = Ok {| stats := []; current_name := Some name; current_lines := [] |}).
    { unfold feed, _SECTION_START_RE. now rewrite Hs, Hstart. }
    rewrite Hfeed. simpl.
    rewrite for_each_append, (for_each_plain_inside path body _ _ _ Hbody).
    simpl. unfold feed. rewrite He.
    rewrite (markers_disjoint _ name Hend). unfold _SECTION_END_RE. rewrite Hend.
    simpl. rewrite String.eqb_refl, Hparse. reflexivity.
  - reflexivity.
Qed.

(** C5 at work: a section [b] opened inside the section [a]; an END of [b]
    inside [a]; a lone START; no marker at all; and one block [a]. *)
Lemma splitter_spec_witness :
  parse_aggregated_log "log" ["===== a START ====="; "===== b START ====="]
  = Raise (NestedSectionStart "log" "a")
  /\ parse_aggregated_log "log" ["===== a START ====="; "===== b END ====="]
     = Raise (SectionEndMismatch "log" "b" "a")
  /\ parse_aggregated_log "log" ["===== a START ====="]
     = Raise (UnterminatedSection "log" "a")
  /\ parse_aggregated_log "log" ["no marker"] = Raise (NoWorkerSections "log")
  /\ parse_aggregated_log "log"
       (String.append "===== a START =====" newline
        :: [String.append "Latency 1ms 2ms" newline; String.append "Req/Sec 3 4" newline]
        ++ ["===== a END ====="])%list
     = Ok [ {| worker_id := "a";
               latency_avg_ms := 1; latency_stdev_ms := 2;
               req_per_sec_avg := 3; req_per_sec_stdev := 4;
               log_path := Section_ "log" "a" |} ].
Proof.
  destruct (splitter_spec "log")
    as (Hnested & Hmismatch & Hopen & _ & Hnone & Hblock & _).
  repeat apply conj.
  - exact (proj1 (Hnested ["===== a START ====="] "===== b START =====" [] _ "b" "a"
                          eq_refl eq_refl eq_refl)).
  - refine (proj1 (Hmismatch ["===== a START ====="] "===== b END =====" [] _ "b" "a"
                             eq_refl eq_refl eq_refl _)). discriminate.
  - exact (proj1 (Hopen ["===== a START ====="] _ "a" eq_refl eq_refl)).
  - apply Hnone. constructor; [reflexivity | constructor].
  - apply (Hblock "a"); [discriminate | reflexivity | reflexivity | reflexivity | | reflexivity].
    repeat constructor.
Defined.

End SplitterFacts.

(** ** RunScorer: [compute_run_metrics] *)

Module RunScorerFacts.
Import Py PyFacts Basic Vocabulary.
Local Open Scope float_scope.

Lemma pstdev_or_raise_some (pstdev : list float -> option float) (values : list float)
    (v : float) :
  pstdev values = Some v -> pstdev_or_raise pstdev values = Ok v.
Proof. unfold pstdev_or_raise. now intros ->. Qed.

(** CPython 3.11's [pstdev] returns on finite data. *)
Lemma pstdev_finite (values : list float) :
  forallb is_finite values = true -> values <> [] -> exists v, Py.pstdev values = Some v.
Proof.
  intros Hfin Hne. unfold Py.pstdev. rewrite Hfin.
  destruct values as [|x values]; [congruence|].
  replace (Z.of_nat (List.length (x :: values)) =? 0)%Z with false
    by (symmetry; apply Z.eqb_neq; simpl; lia).
  cbn [negb orb].
  destruct (fold_left add_ratio (x :: values) (0%Z, 1%Z)) as [sx dx].
  destruct (fold_left _ (x :: values) (0%Z, 1%Z)) as [ss ds]. eauto.
Qed.

Lemma statistics_return_finite (stats : list WorkerStats) :
  finite_stats stats = true -> statistics_return Py.pstdev stats.
Proof.
  unfold finite_stats, statistics_return. rewrite andb_true_iff. intros [Hl Hr] Hlen.
  destruct stats as [|w stats]; [simpl in Hlen; lia|].
  split; apply pstdev_finite; try assumption; discriminate.
Qed.

(** The scorer past its first guard, with the library's answers in hand. *)
Lemma compute_run_metrics_many (pstdev : list float -> option float)
    (stats : list WorkerStats) :
  stats <> [] -> statistics_return pstdev stats ->
  compute_run_metrics pstdev stats =
  if mean (map latency_avg_ms stats) =? 0 then Raise ZeroAverageLatency
  else
    Ok {| workers := Z.of_nat (List.length stats);
          avg_latency_ms := mean (map latency_avg_ms stats);
          latency_stddev_ms :=
            (if (1 <? List.length stats)%nat
             then default 0 (pstdev (map latency_avg_ms stats)) else 0);
          avg_req_per_sec := mean (map req_per_sec_avg stats);
          req_per_sec_stddev :=
            (if (1 <? List.length stats)%nat
             then default 0 (pstdev (map req_per_sec_avg stats)) else 0);
          score := mean (map req_per_sec_avg stats) / mean (map latency_avg_ms stats) |}.
Proof.
  intros Hne Hlib. unfold compute_run_metrics.
  destruct stats as [|w stats]; [congruence|].
  destruct (1 <? List.length (w :: stats))%nat eqn:Hlen.
  - apply Nat.ltb_lt in Hlen. destruct (Hlib Hlen) as [[vl Hvl] [vr Hvr]].
    rewrite (pstdev_or_raise_some _ _ _ Hvl), (pstdev_or_raise_some _ _ _ Hvr).
    rewrite Hvl, Hvr. reflexivity.
  - reflexivity.
Qed.

(** When the library raises, its exception leaves the scorer, whatever the
    mean latency is. *)
Lemma compute_run_metrics_library (pstdev : list float -> option float)
    (stats : list WorkerStats) :
  statistics_raise pstdev stats ->
  compute_run_metrics pstdev stats = Raise StatisticsRaised.
Proof.
  unfold statistics_raise, compute_run_metrics, pstdev_or_raise. intros [Hlen Hnone].
  destruct stats as [|s stats]; [simpl in Hlen; lia|].
  apply Nat.ltb_lt in Hlen. rewrite Hlen.
  destruct Hnone as [-> | Hr]; [reflexivity|].
  rewrite Hr. now destruct (pstdev (map latency_avg_ms (s :: stats))).
Qed.

(** C6, as the code has it.  [compute_run_metrics] fails with an
    EmptyInputError on no records.  With two workers or more it first asks
    the library for the two deviations, and the library's exception leaves
    it when [pstdev] raises, also when the mean latency is 0.  When [pstdev]
    returns, or is not called: on records whose mean latency (as
    [statistics.mean] computes it) equals 0 it fails with a DivisionError;
    on other records it returns metrics whose score is the mean throughput
    over the mean latency; and with exactly one worker the two standard
    deviations are 0. *)
Theorem run_scorer_spec (pstdev : list float -> option float) :
  (compute_run_metrics pstdev [] = Raise NoWorkerStats
   /\ kind_of NoWorkerStats = EmptyInputError)
  /\ (forall stats,
        statistics_raise pstdev stats ->
        compute_run_metrics pstdev stats = Raise StatisticsRaised
        /\ kind_of StatisticsRaised = LibraryError)
  /\ (forall stats,
        stats <> [] -> statistics_return pstdev stats ->
        (mean (map latency_avg_ms stats) =? 0) = true ->
        compute_run_metrics pstdev stats = Raise ZeroAverageLatency
        /\ kind_of ZeroAverageLatency = DivisionError)
  /\ (forall stats,
        stats <> [] -> statistics_return pstdev stats ->
        (mean (map latency_avg_ms stats) =? 0) = false ->
        exists m,
          compute_run_metrics pstdev stats = Ok m
          /\ workers m = Z.of_nat (List.length stats)
          /\ avg_latency_ms m = mean (map latency_avg_ms stats)
          /\ avg_req_per_sec m = mean (map req_per_sec_avg stats)
          /\ score m = mean (map req_per_sec_avg stats) / mean (map latency_avg_ms stats))
  /\ (forall w,
        (mean [latency_avg_ms w] =? 0) = true ->
        compute_run_metrics pstdev [w] = Raise ZeroAverageLatency)
  /\ (forall w,
        (mean [latency_avg_ms w] =? 0) = false ->
        exists m,
          compute_run_metrics pstdev [w] = Ok m
          /\ latency_stddev_ms m = 0 /\ req_per_sec_stddev m = 0
          /\ score m = mean [req_per_sec_avg w] / mean [latency_avg_ms w]).
Proof.
  split; [split; reflexivity|]. split; [|split; [|split; [|split]]].
  - intros stats Hraise. split; [|reflexivity].
    now apply compute_run_metrics_library.
  - intros stats Hne Hlib Hzero. split; [|reflexivity].
    now rewrite (compute_run_metrics_many pstdev stats Hne Hlib), Hzero.
  - intros stats Hne Hlib Hzero.
    rewrite (compute_run_metrics_many pstdev stats Hne Hlib), Hzero.
    eexists. split; [reflexivity|]. now repeat split.
  - intros w Hzero. unfold compute_run_metrics. simpl. now rewrite Hzero.
  - intros w Hzero. unfold compute_run_metrics. simpl. rewrite Hzero.
    eexists. split; [reflexivity|]. now repeat split.
Qed.

(** C6 at work with CPython 3.11's [pstdev]: the three workers of the
    specification's end-to-end example, a lone worker of latency 0, and two
    workers one of which has a throughput that is not finite. *)
Lemma run_scorer_spec_witness :
  (exists m,
      compute_run_metrics Py.pstdev [worker "1" 10 100; worker "2" 10 200; worker "3" 10 300]
      = Ok m
      /\ workers m = 3%Z /\ avg_latency_ms m = 10 /\ avg_req_per_sec m = 200
      /\ score m = 20 /\ latency_stddev_ms m = 0)
  /\ compute_run_metrics Py.pstdev [worker "1" 0 100] = Raise ZeroAverageLatency
  /\ (statistics_raise Py.pstdev [worker "1" 10 infinity; worker "2" 10 1]
      /\ compute_run_metrics Py.pstdev [worker "1" 10 infinity; worker "2" 10 1]
         = Raise StatisticsRaised).
Proof.
  split; [|split].
  - destruct (proj1 (proj2 (proj2 (proj2 (run_scorer_spec Py.pstdev))))
                    [worker "1" 10 100; worker "2" 10 200; worker "3" 10 300])
      as (m & Hm & Hw & Hl & Hr & Hs).
    + discriminate.
    + apply statistics_return_finite. reflexivity.
    + reflexivity.
    + exists m. rewrite Hw, Hl, Hr, Hs. split; [exact Hm|].
      repeat split; try reflexivity.
      vm_compute in Hm. now inversion Hm.
  - apply (proj1 (proj2 (proj2 (run_scorer_spec Py.pstdev))) [worker "1" 0 100]).
    + discriminate.
    + apply statistics_return_finite. reflexivity.
    + reflexivity.
  - assert (statistics_raise Py.pstdev [worker "1" 10 infinity; worker "2" 10 1]) as Hraise.
    { split; [simpl; lia|]. right. vm_compute. reflexivity. }
    split; [exact Hraise|].
    exact (proj1 (proj1 (proj2 (run_scorer_spec Py.pstdev)) _ Hraise)).
Defined.

(** C6 as stated fails: two workers of latency 0, one with a throughput that
    is not finite (a token of 322 digits is read as one).  The mean latency
    is exactly 0, yet the scorer does not fail with the DivisionError: the
    library is asked for the deviations first, and its exception leaves. *)
Lemma pstdev_raises_before_the_zero_guard :
  parse_throughput (String "1" (zeros 321)) = Ok infinity
  /\ (mean (map latency_avg_ms [worker "1" 0 infinity; worker "2" 0 1]) =? 0) = true
  /\ compute_run_metrics Py.pstdev [worker "1" 0 infinity; worker "2" 0 1]
     = Raise StatisticsRaised
  /\ kind_of StatisticsRaised = LibraryError
  /\ kind_of ZeroAverageLatency = DivisionError.
Proof. repeat split; vm_compute; reflexivity. Qed.

End RunScorerFacts.

(** ** The per-connection summarizer: [parse_summary_file] *)

Module PerConnFacts.
Import Py PyFacts PerConn Vocabulary.
Local Open Scope float_scope.

(** A float above zero is not zero. *)
Lemma positive_not_zero (d : float) : (0 <? d) = true -> (d =? 0) = false.
Proof.
  rewrite FloatAxioms.ltb_spec, FloatAxioms.eqb_spec.
  replace (Prim2SF 0) with (S754_zero false) by reflexivity.
  destruct (Prim2SF d) as [ [|] | [|] | | [|] m e]; cbn; congruence.
Qed.

Lemma truediv_float_nonzero (a b : float) :
  (b =? 0) = false -> truediv_float a b = inr (a / b).
Proof. unfold truediv_float. now intros ->. Qed.

Lemma truediv_int_float_safe (a : Z) (b : float) :
  (b =? 0) = false -> no_zero_division (arith (truediv_int_float a b)).
Proof.
  intros Hb. unfold truediv_int_float.
  destruct (float_of_int a); [rewrite (truediv_float_nonzero _ _ Hb)|]; discriminate.
Qed.

Lemma truediv_int_safe (a b : Z) :
  (0 <? b)%Z = true -> no_zero_division (arith (truediv_int a b)).
Proof.
  intros Hb. unfold truediv_int.
  replace (b =? 0)%Z with false by (symmetry; apply Z.eqb_neq; lia).
  destruct (is_infinity _); discriminate.
Qed.

Lemma bind_safe {A B} (r : result error A) (k : A -> result error B) :
  no_zero_division r -> (forall a, r = Ok a -> no_zero_division (k a)) ->
  no_zero_division (bind r k).
Proof.
  unfold no_zero_division. intros Hr Hk. destruct r as [a|e]; simpl.
  - now apply Hk.
  - intros H. apply Hr. inversion H; subst. reflexivity.
Qed.

Lemma ok_safe {A} (a : A) : no_zero_division (Ok a : result error A).
Proof. discriminate. Qed.

Lemma summarize_safe (path : string) (s f c sum mn mx d : Z) :
  no_zero_division (summarize path s f c sum mn mx d).
Proof.
  unfold summarize.
  apply bind_safe.
  { destruct (0 <? d)%Z; [now apply truediv_int_float_safe | apply ok_safe]. }
  intros duration_sec _. apply bind_safe.
  { destruct (0 <? duration_sec) eqn:Hd; [|apply ok_safe].
    apply truediv_int_float_safe. now apply positive_not_zero. }
  intros throughput _. apply bind_safe.
  { destruct (0 <? c)%Z eqn:Hc; [|apply ok_safe].
    apply bind_safe; [now apply truediv_int_safe|].
    intros q _. unfold truediv_float. simpl. discriminate. }
  intros avg _. apply bind_safe.
  { destruct (0 <? mn)%Z; [now apply truediv_int_float_safe | apply ok_safe]. }
  intros lmin _. apply bind_safe.
  { destruct (0 <? mx)%Z; [now apply truediv_int_float_safe | apply ok_safe]. }
  intros lmax _. apply ok_safe.
Qed.

Lemma int_field_safe (int : string -> option Z) (data : gmap string string) (key : string) :
  no_zero_division (int_field int data key).
Proof. unfold int_field. destruct (int _); discriminate. Qed.

Lemma parse_summary_file_safe (int : string -> option Z) (path : string)
    (lines : list string) :
  no_zero_division (parse_summary_file int path lines).
Proof.
  unfold parse_summary_file. destruct (missing (read_data lines)); [|discriminate].
  repeat (apply bind_safe; [apply int_field_safe | intros ? _]).
  apply summarize_safe.
Qed.

(** The guarded values of a summary that was returned. *)
Lemma summarize_guards (path : string) (s f c sum mn mx d : Z) (ws : WorkerSummary) :
  summarize path s f c sum mn mx d = Ok ws ->
  ((d <= 0)%Z -> duration_sec ws = 0 /\ throughput_req_per_sec ws = 0)
  /\ ((c <= 0)%Z -> latency_avg_ms ws = 0)
  /\ ((mn <= 0)%Z -> latency_min_ms ws = 0)
  /\ ((mx <= 0)%Z -> latency_max_ms ws = 0).
Proof.
  unfold summarize. intros H.
  apply bind_ok in H as (duration & Hd & H). apply bind_ok in H as (throughput & Ht & H).
  apply bind_ok in H as (avg & Ha & H). apply bind_ok in H as (lmin & Hmn & H).
  apply bind_ok in H as (lmax & Hmx & H). inversion H; subst; clear H. simpl.
  repeat split.
  - replace (0 <? d)%Z with false in Hd by (symmetry; apply Z.ltb_ge; lia).
    now inversion Hd.
  - replace (0 <? d)%Z with false in Hd by (symmetry; apply Z.ltb_ge; lia).
    inversion Hd; subst. change (0 <? 0) with false in Ht. now inversion Ht.
  - intros Hc. replace (0 <? c)%Z with false in Ha by (symmetry; apply Z.ltb_ge; lia).
    now inversion Ha.
  - intros Hc. replace (0 <? mn)%Z with false in Hmn by (symmetry; apply Z.ltb_ge; lia).
    now inversion Hmn.
  - intros Hc. replace (0 <? mx)%Z with false in Hmx by (symmetry; apply Z.ltb_ge; lia).
    now inversion Hmx.
Qed.

(** What [parse_summary_file] returns comes from [summarize] on the seven
    integers read. *)
Lemma parse_summary_file_ok (int : string -> option Z) (path : string)
    (lines : list string) (ws : WorkerSummary) :
  parse_summary_file int path lines = Ok ws ->
  exists s f c sum mn mx d,
    int_field int (read_data lines) "success" = Ok s
    /\ int_field int (read_data lines) "failure" = Ok f
    /\ int_field int (read_data lines) "latency_count" = Ok c
    /\ int_field int (read_data lines) "latency_sum_ns" = Ok sum
    /\ int_field int (read_data lines) "latency_min_ns" = Ok mn
    /\ int_field int (read_data lines) "latency_max_ns" = Ok mx
    /\ int_field int (read_data lines) "duration_ns" = Ok d
    /\ summarize path s f c sum mn mx d = Ok ws.
Proof.
  unfold parse_summary_file. destruct (missing (read_data lines)); [|discriminate].
  intros H.
  apply bind_ok in H as (s & Hs & H). apply bind_ok in H as (f & Hf & H).
  apply bind_ok in H as (c & Hc & H). apply bind_ok in H as (sum & Hsum & H).
  apply bind_ok in H as (mn & Hmn & H). apply bind_ok in H as (mx & Hmx & H).
  apply bind_ok in H as (d & Hd & H).
  exists s, f, c, sum, mn, mx, d. now repeat split.
Qed.

(** C9. [parse_summary_file] never divides by zero, whatever the file holds
    and whatever [int] reads; and in the summary it returns, the throughput
    (and the duration in seconds) is 0.0 when [duration_ns <= 0], the average
    latency is 0.0 when [latency_count <= 0], and the least and the greatest
    latency are 0.0 when their nanoseconds are not positive.  When all four
    are not positive the summary is returned, since no division is made. *)
Theorem summary_never_divides_by_zero (int : string -> option Z) :
  (forall path lines, no_zero_division (parse_summary_file int path lines))
  /\ (forall path lines ws,
        parse_summary_file int path lines = Ok ws ->
        (forall d, int_field int (read_data lines) "duration_ns" = Ok d -> (d <= 0)%Z ->
                   duration_sec ws = 0 /\ throughput_req_per_sec ws = 0)
        /\ (forall c, int_field int (read_data lines) "latency_count" = Ok c -> (c <= 0)%Z ->
                      latency_avg_ms ws = 0)
        /\ (forall mn, int_field int (read_data lines) "latency_min_ns" = Ok mn ->
                       (mn <= 0)%Z -> latency_min_ms ws = 0)
        /\ (forall mx, int_field int (read_data lines) "latency_max_ns" = Ok mx ->
                       (mx <= 0)%Z -> latency_max_ms ws = 0))
  /\ (forall path s f c sum mn mx d,
        (d <= 0)%Z -> (c <= 0)%Z -> (mn <= 0)%Z -> (mx <= 0)%Z ->
        exists ws, summarize path s f c sum mn mx d = Ok ws).
Proof.
  split; [exact (parse_summary_file_safe int)|]. split.
  - intros path lines ws H.
    apply parse_summary_file_ok in H as (s & f & c & sum & mn & mx & d & Hs & Hf & Hc
                                         & Hsum & Hmn & Hmx & Hd & H).
    apply summarize_guards in H as (Gd & Gc & Gmn & Gmx).
    split; [|split; [|split]]; intros x Hx Hle.
    + rewrite Hx in Hd. inversion Hd; subst. now apply Gd.
    + rewrite Hx in Hc. inversion Hc; subst. now apply Gc.
    + rewrite Hx in Hmn. inversion Hmn; subst. now apply Gmn.
    + rewrite Hx in Hmx. inversion Hmx; subst. now apply Gmx.
  - intros path s f c sum mn mx d Hd Hc Hmn Hmx. unfold summarize.
    replace (0 <? d)%Z with false by (symmetry; apply Z.ltb_ge; lia).
    replace (0 <? c)%Z with false by (symmetry; apply Z.ltb_ge; lia).
    replace (0 <? mn)%Z with false by (symmetry; apply Z.ltb_ge; lia).
    replace (0 <? mx)%Z with false by (symmetry; apply Z.ltb_ge; lia).
    simpl. eauto.
Qed.

(** C9 at work on a summary of an idle worker, read with the base-ten
    [int]: every guard is taken and every derived value is 0.0. *)
Lemma summary_never_divides_by_zero_witness :
  exists ws,
    parse_summary_file int_of_text "logs/worker_3.summary"
      [ "success=5"; "failure=0"; "latency_sum_ns=0"; "latency_count=0";
        "latency_min_ns=0"; "latency_max_ns=-1"; "duration_ns=0" ] = Ok ws
    /\ worker_id ws = "3" /\ total_requests ws = 5%Z
    /\ duration_sec ws = 0 /\ throughput_req_per_sec ws = 0 /\ latency_avg_ms ws = 0.
Proof.
  eexists. split; [reflexivity|]. split; [reflexivity|]. split; [reflexivity|].
  pose proof (proj1 (proj2 (summary_never_divides_by_zero int_of_text))
                    "logs/worker_3.summary"
                    [ "success=5"; "failure=0"; "latency_sum_ns=0"; "latency_count=0";
                      "latency_min_ns=0"; "latency_max_ns=-1"; "duration_ns=0" ]
                    _ eq_refl) as (Hd & Hc & _).
  destruct (Hd 0%Z eq_refl (Z.le_refl 0)) as [H1 H2].
  pose proof (Hc 0%Z eq_refl (Z.le_refl 0)) as H3.
  exact (conj H1 (conj H2 H3)).
Defined.

End PerConnFacts.

(** ** EvaluationPipeline: [evaluate] *)

Module PipelineFacts.
Import Py PyFacts Eval Vocabulary Auxiliary.
Local Open Scope float_scope.

(** When the teardown returns, the [finally] clause keeps a result a result,
    its metrics untouched and its artifacts in place, and lets an exception
    through; when the teardown raises, its exception is all that leaves. *)
Lemma finally_ok (proc : option process) (reader : bool) (buffer : list string)
    (res : EvaluationResult) :
  snd (_terminate_process proc reader) = None ->
  exists res',
    finally proc reader buffer (Ok res) = Ok res'
    /\ metrics res' = metrics res
    /\ forall key, is_Some (artifacts res !! key) -> is_Some (artifacts res' !! key).
Proof.
  unfold finally. intros ->. destruct buffer as [|line buffer].
  - exists res. auto.
  - destruct (artifacts res !! "launch_servers_output") eqn:Hout.
    + exists res. auto.
    + eexists. split; [reflexivity|]. split; [reflexivity|]. simpl.
      intros key [v Hv]. exists v. rewrite lookup_insert_ne; [exact Hv|].
      intros <-. congruence.
Qed.

Lemma finally_through (proc : option process) (reader : bool) (buffer : list string)
    (e : exn) :
  snd (_terminate_process proc reader) = None ->
  finally proc reader buffer (Raise e) = Raise e.
Proof. unfold finally. now intros ->. Qed.

Lemma finally_raises (proc : option process) (reader : bool) (buffer : list string)
    (r : result exn EvaluationResult) (exc : string) :
  snd (_terminate_process proc reader) = Some exc ->
  finally proc reader buffer r = Raise (OSError exc).
Proof. unfold finally. now intros ->. Qed.

Lemma after_finally (float_of_text : string -> option float) (w : world) (s : stop)
    (key : string) (proc : option process) (reader : bool) (buffer : list string)
    (ms : gmap string float) (arts : gmap string string) :
  explanation s = Some key -> s <> CompileFailed ->
  snd (_terminate_process proc reader) = teardown_at w s ->
  ms = compiled_metrics -> is_Some (arts !! key) ->
  outcome_at float_of_text w s
             (finally proc reader buffer (Ok {| metrics := ms; artifacts := arts |})).
Proof.
  intros Hkey Hs Hdown Hms Harts. destruct (teardown_at w s) as [exc|] eqn:E.
  - rewrite (finally_raises _ _ _ _ exc Hdown). now apply at_teardown.
  - destruct (finally_ok proc reader buffer {| metrics := ms; artifacts := arts |} Hdown)
      as (res & -> & Hm & Ha).
    apply (at_stage _ _ s key);
      [exact Hkey | exact Hs | exact E | now rewrite Hm | now apply Ha].
Qed.

Ltac stopped s key :=
  apply (after_finally _ _ s key);
  [ reflexivity | discriminate | reflexivity | reflexivity
  | try rewrite lookup_insert_eq; eauto ].

Lemma evaluate_outcome (float_of_text : string -> option float) (w : world) :
  outcome_at float_of_text w (stops_at float_of_text w) (evaluate float_of_text w).
Proof.
  unfold stops_at, evaluate.
  destruct (_run_go_generate (go_generate w)) as [compile_ok compile_output].
  cbn [fst]. destruct compile_ok; cbn [negb].
  2:{ apply at_compile; [reflexivity|]. simpl. rewrite lookup_insert_eq. eauto. }
  destruct (launcher_missing w) as [exc|]; cbn [_start_servers].
  { stopped LaunchFailed "launch_failure". }
  unfold supervised.
  destruct (_wait_for_server_logs (polls w)); cbn [negb].
  2:{ stopped NotReady "launch_failure". }
  destruct (poll_after_wait w) as [returncode|].
  { stopped ExitedEarly "launch_failure". }
  destruct (_scan_server_logs_for_errors (server_logs w)) as [|found error_logs].
  2:{ stopped ErrorsInLogs "launch_failure". }
  destruct (_run_workload (workload w)) as [workload_ok [[returncode stdout] stderr]].
  cbn [fst]. destruct workload_ok; cbn [negb].
  2:{ stopped WorkloadFailed "workload_failure". }
  destruct (negb (summary_exists w) || negb (metrics_exists w)).
  { stopped ArtifactsMissing "workload_failure". }
  destruct (teardown_raises w) as [exc|] eqn:Hdown.
  { rewrite (finally_raises _ _ _ _ exc Hdown).
    destruct (_parse_metrics_csv float_of_text (metrics_path w) (metrics_rows w));
      now apply at_teardown. }
  destruct (_parse_metrics_csv float_of_text (metrics_path w) (metrics_rows w))
    as [[[avg_tput avg_latency] total_score]|e] eqn:Hparse; cbn [bind].
  - match goal with
    | |- outcome_at _ _ _ (finally ?p ?rd ?b (Ok ?r)) =>
        destruct (finally_ok p rd b r Hdown) as (res & -> & Hm & _)
    end.
    apply (at_finish _ _ res avg_tput avg_latency total_score);
      [exact Hdown | exact Hparse|].
    now rewrite Hm.
  - rewrite (finally_through _ _ _ _ Hdown). now apply at_malformed.
Qed.

Lemma metric_keys_cases (key : string) :
  key ∈ metric_keys ->
  key = "average_tput" \/ key = "average_latency" \/ key = "total_score"
  \/ key = "run_successful" \/ key = "compile_successful".
Proof.
  unfold metric_keys. rewrite !elem_of_union, !elem_of_singleton. tauto.
Qed.

Lemma dom_defaults : dom METRICS_DEFAULTS = metric_keys.
Proof.
  unfold METRICS_DEFAULTS, metric_keys.
  rewrite !dom_insert_L, dom_singleton_L. set_solver.
Qed.

Lemma dom_compiled : dom compiled_metrics = metric_keys.
Proof.
  unfold compiled_metrics. rewrite dom_insert_L, dom_defaults.
  unfold metric_keys. set_solver.
Qed.

Lemma dom_finished (avg_tput avg_latency total_score : float) :
  dom (finished_metrics avg_tput avg_latency total_score) = metric_keys.
Proof.
  unfold finished_metrics. rewrite !dom_insert_L, dom_compiled.
  unfold metric_keys. set_solver.
Qed.

(** C3. Whatever [evaluate] returns, its metrics have exactly the five keys
    of the contract, and every key whose stage was not reached (the build did
    not succeed, for [compile_successful]; the metrics file was not parsed,
    for the four others) is at 0.0.  [evaluate] does return wherever the
    pipeline stops, whether at a compile failure, a launch failure, a
    readiness timeout, an error-scan hit, a workload failure, missing
    artifacts, or at its end, as long as the teardown of the launcher, where
    there is one, does not raise. *)
Theorem metrics_keys_are_fixed (float_of_text : string -> option float) (w : world) :
  (forall res,
      evaluate float_of_text w = Ok res ->
      dom (metrics res) = metric_keys
      /\ forall key,
          key ∈ metric_keys -> reached (stops_at float_of_text w) key = false ->
          metrics res !! key = Some 0)
  /\ (stops_at float_of_text w <> MetricsMalformed ->
      teardown_at w (stops_at float_of_text w) = None ->
      exists res, evaluate float_of_text w = Ok res).
Proof.
  pose proof (evaluate_outcome float_of_text w) as H. split.
  - intros res Hres. rewrite Hres in H.
    inversion H as [res' Hm _ Hs | s key res' Hkey Hs _ Hm _ Hstop
                    | | res' t l sc _ _ Hm Hs | ]; subst.
    + rewrite Hm. split; [exact dom_defaults|].
      intros key Hin _.
      destruct (metric_keys_cases key Hin) as [-> | [-> | [-> | [-> | ->]]]]; reflexivity.
    + rewrite Hm. split; [exact dom_compiled|].
      intros key' Hin Hreached.
      destruct (metric_keys_cases key' Hin) as [-> | [-> | [-> | [-> | ->]]]];
        try reflexivity.
      revert Hs Hreached.
      destruct (stops_at float_of_text w); intros Hs Hreached;
        first [ congruence | vm_compute in Hreached; discriminate Hreached ].
    + rewrite Hm. split; [apply dom_finished|].
      intros key Hin Hreached.
      destruct (metric_keys_cases key Hin) as [-> | [-> | [-> | [-> | ->]]]];
        discriminate Hreached.
  - intros Hstop Hdown. inversion H; subst; eauto; congruence.
Qed.

(** C3 at work: a build that fails, and a run that goes to its end. *)
Lemma metrics_keys_are_fixed_witness :
  (exists res,
      evaluate Py.float_of_text (sample_world (Completed 2 "" "undefined: foo") [sample_row])
      = Ok res
      /\ dom (metrics res) = metric_keys
      /\ metrics res !! "compile_successful" = Some 0
      /\ metrics res !! "total_score" = Some 0)
  /\ (exists res,
        evaluate Py.float_of_text (sample_world (Completed 0 "" "") [sample_row]) = Ok res
        /\ dom (metrics res) = metric_keys
        /\ metrics res !! "total_score" = Some 20).
Proof.
  split.
  - destruct (metrics_keys_are_fixed Py.float_of_text
                (sample_world (Completed 2 "" "undefined: foo") [sample_row])) as [Hk Hr].
    destruct Hr as [res Hres]; [vm_compute; discriminate | reflexivity |].
    destruct (Hk res Hres) as [Hdom Hzero].
    exists res. split; [exact Hres|]. split; [exact Hdom|]. split.
    + apply Hzero; [unfold metric_keys; set_solver | reflexivity].
    + apply Hzero; [unfold metric_keys; set_solver | reflexivity].
  - destruct (metrics_keys_are_fixed Py.float_of_text
                (sample_world (Completed 0 "" "") [sample_row])) as [Hk Hr].
    destruct Hr as [res Hres]; [vm_compute; discriminate | reflexivity |].
    destruct (Hk res Hres) as [Hdom _].
    exists res. split; [exact Hres|]. split; [exact Hdom|].
    vm_compute in Hres. inversion Hres. reflexivity.
Defined.




End PipelineFacts.

(** ** More on the reader of one worker's lines *)

Module ReaderFacts.
Import Py PyFacts Basic Vocabulary Auxiliary WorkerLogReaderFacts.

(** A line without a heading, or with fewer than three tokens, changes
    nothing. *)
Lemma scan_line_irrelevant (st : fields) (raw_line : string) :
  relevant raw_line = false -> scan_line st raw_line = Ok st.
Proof.
  unfold relevant, latency_line, req_line, scan_line, tokens.
  rewrite orb_false_iff. intros [Hl Hr].
  destruct (startswith "Latency" (strip raw_line)); simpl in Hl.
  - apply negb_false_iff in Hl. now rewrite Hl.
  - destruct (startswith "Req/Sec" (strip raw_line)); simpl in Hr; [|reflexivity].
    apply negb_false_iff in Hr. now rewrite Hr.
Qed.

Lemma for_each_relevant (lines : list string) (st : fields) :
  for_each scan_line st lines = for_each scan_line st (List.filter relevant lines).
Proof.
  revert st. induction lines as [|l lines IH]; intros st; [reflexivity|]. simpl.
  destruct (relevant l) eqn:E; simpl.
  - destruct (scan_line st l); simpl; [apply IH | reflexivity].
  - rewrite (scan_line_irrelevant _ _ E). simpl. apply IH.
Qed.

(** X1. The values read from a worker's lines depend only on the lines
    that begin with a heading and have at least three tokens: any other
    line can be left out, and so can all of them at once. *)
Theorem only_heading_lines_matter (lines : list string) :
  _extract_metrics_from_lines lines
  = _extract_metrics_from_lines (List.filter relevant lines).
Proof.
  unfold _extract_metrics_from_lines. now rewrite for_each_relevant.
Qed.

Lemma scan_line_fields (st st' : fields) (raw_line : string) :
  scan_line st raw_line = Ok st' -> paired st ->
  paired st'
  /\ has_latency st' = has_latency st || latency_line raw_line
  /\ has_req st' = has_req st || req_line raw_line.
Proof.
  intros H [Hl Hr].
  destruct (latency_line raw_line) eqn:El.
  - destruct (scan_line_latency _ _ _ El H) as (avg & stdev & _ & _ & ->).
    assert (req_line raw_line = false) as Er.
    { unfold latency_line, req_line in *. apply andb_true_iff in El as [El _].
      destruct (startswith "Req/Sec" (strip raw_line)) eqn:E; [|reflexivity].
      now rewrite (headings_disjoint _ E) in El. }
    rewrite Er. unfold paired, has_latency, has_req; simpl.
    rewrite !orb_true_r, orb_false_r. repeat split; try discriminate; tauto.
  - destruct (scan_line_keeps_latency _ _ _ El H) as [Ha Hs].
    destruct (req_line raw_line) eqn:Er.
    + destruct (scan_line_req _ _ _ Er H) as (avg & stdev & _ & _ & ->).
      unfold paired, has_latency, has_req; simpl.
      rewrite orb_true_r, orb_false_r. repeat split; try discriminate; tauto.
    + destruct (scan_line_keeps_req _ _ _ Er H) as [Hra Hrs].
      unfold paired, has_latency, has_req. rewrite Ha, Hs, Hra, Hrs, !orb_false_r.
      repeat split; tauto.
Qed.

Lemma for_each_fields (lines : list string) (st st' : fields) :
  for_each scan_line st lines = Ok st' -> paired st ->
  paired st'
  /\ has_latency st' = has_latency st || existsb latency_line lines
  /\ has_req st' = has_req st || existsb req_line lines.
Proof.
  revert st. induction lines as [|l lines IH]; intros st H Hp; simpl in H.
  - inversion H; subst. simpl. now rewrite !orb_false_r.
  - apply bind_ok in H as (st1 & H1 & H).
    destruct (scan_line_fields _ _ _ H1 Hp) as (Hp1 & Hl1 & Hr1).
    destruct (IH _ H Hp1) as (Hp' & Hl' & Hr'). simpl.
    rewrite Hl', Hr', Hl1, Hr1, !orb_assoc. auto.
Qed.

Lemma missing_paired (st : fields) :
  paired st ->
  missing st = ((if has_latency st then [] else latency_names)
                ++ (if has_req st then [] else req_names))%list.
Proof.
  unfold paired, missing, has_latency, has_req, latency_names, req_names.
  intros [Hl Hr].
  destruct (f_latency_avg_ms st), (f_latency_stdev_ms st),
           (f_req_avg st), (f_req_stdev st); simpl; try reflexivity;
    exfalso;
    first [ assert (Some f = None) as X by (apply Hl; reflexivity); discriminate X
          | assert (Some f = None) as X by (apply Hr; reflexivity); discriminate X
          | assert (Some f0 = None) as X by (apply Hr; reflexivity); discriminate X
          | assert (Some f1 = None) as X by (apply Hr; reflexivity); discriminate X
          | idtac ].
Qed.

(** The errors of the reader are of two kinds. *)
Lemma extract_raises (lines : list string) (e : error) :
  _extract_metrics_from_lines lines = Raise e ->
  (kind_of e = FormatError /\ for_each scan_line no_fields lines = Raise e)
  \/ (exists st, for_each scan_line no_fields lines = Ok st
                 /\ e = MissingFields (missing st)).
Proof.
  unfold _extract_metrics_from_lines.
  destruct (for_each scan_line no_fields lines) as [st|e1] eqn:E; simpl; intros H.
  - right. exists st. split; [reflexivity|]. now apply finish_raise in H.
  - left. inversion H; subst. split; [|reflexivity].
    now apply for_each_raises_format in E.
Qed.

(** X2. When the reader reports missing fields, the names it lists are
    those of the pairs that no line has set: both latency names when the
    lines hold no latency line, both throughput names when they hold no
    throughput line, in this order and nothing else. *)
Theorem missing_fields_name_the_absent_lines (lines : list string) (names : list string) :
  _extract_metrics_from_lines lines = Raise (MissingFields names) ->
  names = ((if existsb latency_line lines then [] else latency_names)
           ++ (if existsb req_line lines then [] else req_names))%list.
Proof.
  intros H. apply extract_raises in H as [[Hk _] | (st & Hst & He)].
  - discriminate Hk.
  - inversion He; subst.
    assert (paired no_fields) as Hp by (split; simpl; tauto).
    destruct (for_each_fields _ _ _ Hst Hp) as (Hp' & Hl & Hr).
    rewrite (missing_paired _ Hp'), Hl, Hr. reflexivity.
Qed.

Lemma missing_fields_name_the_absent_lines_witness :
  _extract_metrics_from_lines ["Running 10s test"; "    Latency   1.50ms  200us  3ms"]
  = Raise (MissingFields ["req_per_sec_avg"; "req_per_sec_stdev"])
  /\ ["req_per_sec_avg"; "req_per_sec_stdev"]
     = ((if existsb latency_line ["Running 10s test"; "    Latency   1.50ms  200us  3ms"]
         then [] else latency_names)
        ++ (if existsb req_line ["Running 10s test"; "    Latency   1.50ms  200us  3ms"]
            then [] else req_names))%list.
Proof.
  split; [vm_compute; reflexivity|].
  apply (missing_fields_name_the_absent_lines
           ["Running 10s test"; "    Latency   1.50ms  200us  3ms"]).
  vm_compute; reflexivity.
Defined.

(** X3. On a worker log whose lines decode, reading the log fails only
    with a format error or with missing fields, and the error is the
    reader's own, labelled with the path of the file.  (What the log's
    lines are is given: an undecodable file is outside this statement.) *)
Theorem worker_log_errors (path : string) (lines : list string) (e : error) :
  parse_wrk_log path lines = Raise e ->
  exists e',
    e = InFile path e'
    /\ _extract_metrics_from_lines lines = Raise e'
    /\ reader_kind (kind_of e).
Proof.
  unfold parse_wrk_log.
  destruct (_extract_metrics_from_lines lines) as [[[[la ls] ra] rs]|e'] eqn:E; simpl.
  - intros H; discriminate H.
  - intros H. inversion H; subst. exists e'. repeat split. simpl.
    apply extract_raises in E as [[Hk _] | (st & _ & ->)]; [now left | now right].
Qed.

Lemma worker_log_errors_witness :
  parse_wrk_log "wrk_log/wrk_client_3.log" ["Latency 1.5 2ms"; "Req/Sec 1 2"]
  = Raise (InFile "wrk_log/wrk_client_3.log" (UnrecognizedLatency "1.5"))
  /\ exists e',
      InFile "wrk_log/wrk_client_3.log" (UnrecognizedLatency "1.5")
      = InFile "wrk_log/wrk_client_3.log" e'
      /\ _extract_metrics_from_lines ["Latency 1.5 2ms"; "Req/Sec 1 2"] = Raise e'
      /\ reader_kind (kind_of (InFile "wrk_log/wrk_client_3.log" (UnrecognizedLatency "1.5"))).
Proof.
  split; [vm_compute; reflexivity|].
  apply (worker_log_errors "wrk_log/wrk_client_3.log" ["Latency 1.5 2ms"; "Req/Sec 1 2"]).
  vm_compute; reflexivity.
Defined.

End ReaderFacts.

(** ** More on the splitter of the aggregated log *)

Module AggregatedLogFacts.
Import Py PyFacts Basic Vocabulary Auxiliary SplitterFacts.

(** *** The records made so far are only added to *)

Lemma feed_prepend (path : string) (pre : list WorkerStats) (st : splitter)
    (raw_line : string) :
  feed path (prepend pre st) raw_line
  = match feed path st raw_line with
    | Ok st' => Ok (prepend pre st')
    | Raise e => Raise e
    end.
Proof.
  destruct st as [sts name buffer]. unfold feed, prepend; simpl.
  destruct (_SECTION_START_RE _); [destruct name; reflexivity|].
  destruct (_SECTION_END_RE _) as [found|], name as [open|]; try reflexivity.
  destruct (negb _); [reflexivity|].
  destruct (_extract_metrics_from_lines _) as [[[[la ls] ra] rs]|e]; simpl; [|reflexivity].
  now rewrite app_assoc.
Qed.

Lemma for_each_prepend (path : string) (pre : list WorkerStats) (lines : list string)
    (st : splitter) :
  for_each (feed path) (prepend pre st) lines
  = match for_each (feed path) st lines with
    | Ok st' => Ok (prepend pre st')
    | Raise e => Raise e
    end.
Proof.
  revert st. induction lines as [|l lines IH]; intros st; [reflexivity|]. simpl.
  rewrite feed_prepend. destruct (feed path st l) as [st1|e]; simpl; [apply IH | reflexivity].
Qed.

Lemma feed_tidy (path : string) (st st' : splitter) (raw_line : string) :
  feed path st raw_line = Ok st' -> tidy st -> tidy st'.
Proof.
  unfold feed, tidy. intros H Ht.
  destruct (_SECTION_START_RE _).
  { destruct (current_name st); inversion H; subst; simpl; intros X; discriminate X. }
  destruct (_SECTION_END_RE _) as [found|], (current_name st) as [open|] eqn:Ec.
  - destruct (negb _); [discriminate H|].
    apply bind_ok in H as ([[[la ls] ra] rs] & _ & H). now inversion H.
  - inversion H; subst. intros _. now apply Ht.
  - inversion H; subst; simpl. intros X; discriminate X.
  - inversion H; subst. intros _. now apply Ht.
Qed.

Lemma for_each_tidy (path : string) (lines : list string) (st st' : splitter) :
  for_each (feed path) st lines = Ok st' -> tidy st -> tidy st'.
Proof.
  revert st. induction lines as [|l lines IH]; intros st H Ht; simpl in H.
  - now inversion H; subst.
  - apply bind_ok in H as (st1 & H1 & H). eauto using feed_tidy.
Qed.

(** What a file that parses leaves the splitter in. *)
Lemma parse_aggregated_log_ok (path : string) (lines : list string)
    (records : list WorkerStats) :
  parse_aggregated_log path lines = Ok records <->
  records <> []
  /\ for_each (feed path) splitter_start lines
     = Ok {| stats := records; current_name := None; current_lines := [] |}.
Proof.
  unfold parse_aggregated_log. split.
  - destruct (for_each (feed path) splitter_start lines) as [st|e] eqn:E; simpl;
      [|intros H; discriminate H].
    assert (tidy st) as Ht by (apply (for_each_tidy _ _ _ _ E); intros _; reflexivity).
    destruct st as [sts [open|] buffer]; simpl; [intros H; discriminate H|].
    unfold tidy in Ht; simpl in Ht. rewrite Ht by reflexivity.
    destruct sts; intros H; inversion H; subst. now split.
  - intros [Hne ->]. simpl. now destruct records.
Qed.

(** X4. Aggregated logs compose: when two files parse, the file made of
    the lines of the first followed by the lines of the second parses to
    the records of the first followed by the records of the second. *)
Theorem aggregated_logs_compose (path : string) (lines1 lines2 : list string)
    (records1 records2 : list WorkerStats) :
  parse_aggregated_log path lines1 = Ok records1 ->
  parse_aggregated_log path lines2 = Ok records2 ->
  parse_aggregated_log path (lines1 ++ lines2) = Ok (records1 ++ records2)%list.
Proof.
  rewrite !parse_aggregated_log_ok. intros [Hne1 H1] [Hne2 H2]. split.
  - intros H. now apply app_eq_nil in H as [? _].
  - rewrite for_each_append, H1. simpl.
    replace {| stats := records1; current_name := None; current_lines := [] |}
      with (prepend records1 splitter_start)
      by (unfold prepend; simpl; now rewrite app_nil_r).
    rewrite for_each_prepend, H2. reflexivity.
Qed.

Lemma aggregated_logs_compose_witness :
  parse_aggregated_log "log"
    ["===== a START ====="; "Latency 1ms 2ms"; "Req/Sec 3 4"; "===== a END ====="]
  = Ok [ {| worker_id := "a"; latency_avg_ms := 1; latency_stdev_ms := 2;
            req_per_sec_avg := 3; req_per_sec_stdev := 4;
            log_path := Section_ "log" "a" |} ]
  /\ parse_aggregated_log "log"
       ["===== wrk_client_7.log START ====="; "Latency 5ms 6ms"; "Req/Sec 7 8k";
        "===== wrk_client_7.log END ====="]
     = Ok [ {| worker_id := "7"; latency_avg_ms := 5; latency_stdev_ms := 6;
               req_per_sec_avg := 7; req_per_sec_stdev := 8000;
               log_path := Section_ "log" "wrk_client_7.log" |} ]
  /\ parse_aggregated_log "log"
       (["===== a START ====="; "Latency 1ms 2ms"; "Req/Sec 3 4"; "===== a END ====="]
        ++ ["===== wrk_client_7.log START ====="; "Latency 5ms 6ms"; "Req/Sec 7 8k";
            "===== wrk_client_7.log END ====="])%list
     = Ok ([ {| worker_id := "a"; latency_avg_ms := 1; latency_stdev_ms := 2;
                req_per_sec_avg := 3; req_per_sec_stdev := 4;
                log_path := Section_ "log" "a" |} ]
           ++ [ {| worker_id := "7"; latency_avg_ms := 5; latency_stdev_ms := 6;
                   req_per_sec_avg := 7; req_per_sec_stdev := 8000;
                   log_path := Section_ "log" "wrk_client_7.log" |} ])%list.
Proof.
  split; [vm_compute; reflexivity|]. split; [vm_compute; reflexivity|].
  apply (aggregated_logs_compose "log"); vm_compute; reflexivity.
Defined.

(** X5. What stands outside the sections of an aggregated log is
    dropped: lines before the first section and after the last one that
    are no START marker (END markers among them) change nothing in what a
    file parses to. *)
Theorem text_outside_sections_is_dropped (path : string)
    (before lines after : list string) (records : list WorkerStats) :
  Forall (fun l => start_marker l = None) before ->
  Forall (fun l => start_marker l = None) after ->
  parse_aggregated_log path lines = Ok records ->
  parse_aggregated_log path (before ++ lines ++ after) = Ok records.
Proof.
  rewrite !parse_aggregated_log_ok. intros Hb Ha [Hne H]. split; [assumption|].
  rewrite for_each_append, (for_each_outside _ _ _ Hb) by reflexivity. simpl.
  rewrite for_each_append, H. simpl.
  now apply for_each_outside.
Qed.

Lemma text_outside_sections_is_dropped_witness :
  Forall (fun l => start_marker l = None) ["wrk output follows"; "===== b END ====="]
  /\ Forall (fun l => start_marker l = None) [""; "===== a END ====="]
  /\ parse_aggregated_log "log"
       ["===== a START ====="; "Latency 1ms 2ms"; "Req/Sec 3 4"; "===== a END ====="]
     = Ok [ {| worker_id := "a"; latency_avg_ms := 1; latency_stdev_ms := 2;
               req_per_sec_avg := 3; req_per_sec_stdev := 4;
               log_path := Section_ "log" "a" |} ]
  /\ parse_aggregated_log "log"
       (["wrk output follows"; "===== b END ====="]
        ++ ["===== a START ====="; "Latency 1ms 2ms"; "Req/Sec 3 4"; "===== a END ====="]
        ++ [""; "===== a END ====="])%list
     = Ok [ {| worker_id := "a"; latency_avg_ms := 1; latency_stdev_ms := 2;
               req_per_sec_avg := 3; req_per_sec_stdev := 4;
               log_path := Section_ "log" "a" |} ].
Proof.
  split; [repeat constructor|]. split; [repeat constructor|].
  split; [vm_compute; reflexivity|].
  apply (text_outside_sections_is_dropped "log");
    [repeat constructor | repeat constructor | vm_compute; reflexivity].
Defined.

(** *** One record for each START marker *)

Lemma feed_names (path : string) (st st' : splitter) (raw_line : string)
    (closed : list string) :
  feed path st raw_line = Ok st' ->
  Forall2 (from_section path) closed (stats st) ->
  exists closed',
    Forall2 (from_section path) closed' (stats st')
    /\ (closed' ++ opened st'
        = (closed ++ opened st) ++ section_names [raw_line])%list.
Proof.
  unfold feed, section_names, start_marker, opened. simpl. intros H Hc.
  destruct (_SECTION_START_RE _) as [name|]; simpl.
  { destruct (current_name st); inversion H; subst; simpl.
    exists closed. now rewrite !app_nil_r. }
  destruct (_SECTION_END_RE _) as [found|], (current_name st) as [open|] eqn:Ec.
  - destruct (negb _); [discriminate H|].
    apply bind_ok in H as ([[[la ls] ra] rs] & _ & H). inversion H; subst; simpl.
    exists (closed ++ [open])%list. split; [|now rewrite !app_nil_r].
    apply Forall2_app; [assumption|]. repeat constructor.
  - inversion H; subst. rewrite Ec. exists closed. now rewrite !app_nil_r.
  - inversion H; subst; simpl. exists closed. now rewrite !app_nil_r.
  - inversion H; subst. rewrite Ec. exists closed. now rewrite !app_nil_r.
Qed.

Lemma section_names_cons (l : string) (lines : list string) :
  section_names (l :: lines) = (section_names [l] ++ section_names lines)%list.
Proof. unfold section_names. simpl. now destruct (start_marker l). Qed.

Lemma for_each_names (path : string) (lines : list string) (st st' : splitter)
    (closed : list string) :
  for_each (feed path) st lines = Ok st' ->
  Forall2 (from_section path) closed (stats st) ->
  exists closed',
    Forall2 (from_section path) closed' (stats st')
    /\ (closed' ++ opened st' = (closed ++ opened st) ++ section_names lines)%list.
Proof.
  revert st closed. induction lines as [|l lines IH]; intros st closed H Hc; simpl in H.
  - inversion H; subst. exists closed. split; [assumption|].
    unfold section_names; simpl. now rewrite app_nil_r.
  - apply bind_ok in H as (st1 & H1 & H).
    destruct (feed_names _ _ _ _ _ H1 Hc) as (closed1 & Hc1 & E1).
    destruct (IH _ _ H Hc1) as (closed' & Hc' & E').
    exists closed'. split; [assumption|].
    now rewrite E', E1, (section_names_cons l lines), !app_assoc.
Qed.

(** X6. A file that parses gives one record for each START marker, in
    the order of the markers: the record carries the worker identifier
    read off the marker's name, and the name as the place it came from. *)
Theorem one_record_for_each_section (path : string) (lines : list string)
    (records : list WorkerStats) :
  parse_aggregated_log path lines = Ok records ->
  Forall2 (from_section path) (section_names lines) records.
Proof.
  rewrite parse_aggregated_log_ok. intros [_ H].
  destruct (for_each_names path lines _ _ [] H) as (closed & Hc & E); [constructor|].
  unfold opened in E; simpl in E. rewrite app_nil_r in E. now subst.
Qed.

Lemma one_record_for_each_section_witness :
  parse_aggregated_log "log"
    ["===== a START ====="; "Latency 1ms 2ms"; "Req/Sec 3 4"; "===== a END =====";
     "===== wrk_client_7.log START ====="; "Latency 5ms 6ms"; "Req/Sec 7 8k";
     "===== wrk_client_7.log END ====="]
  = Ok [ {| worker_id := "a"; latency_avg_ms := 1; latency_stdev_ms := 2;
            req_per_sec_avg := 3; req_per_sec_stdev := 4;
            log_path := Section_ "log" "a" |};
         {| worker_id := "7"; latency_avg_ms := 5; latency_stdev_ms := 6;
            req_per_sec_avg := 7; req_per_sec_stdev := 8000;
            log_path := Section_ "log" "wrk_client_7.log" |} ]
  /\ Forall2 (from_section "log")
       (section_names
          ["===== a START ====="; "Latency 1ms 2ms"; "Req/Sec 3 4"; "===== a END =====";
           "===== wrk_client_7.log START ====="; "Latency 5ms 6ms"; "Req/Sec 7 8k";
           "===== wrk_client_7.log END ====="])
       [ {| worker_id := "a"; latency_avg_ms := 1; latency_stdev_ms := 2;
            req_per_sec_avg := 3; req_per_sec_stdev := 4;
            log_path := Section_ "log" "a" |};
         {| worker_id := "7"; latency_avg_ms := 5; latency_stdev_ms := 6;
            req_per_sec_avg := 7; req_per_sec_stdev := 8000;
            log_path := Section_ "log" "wrk_client_7.log" |} ].
Proof.
  split; [vm_compute; reflexivity|].
  apply (one_record_for_each_section "log"). vm_compute; reflexivity.
Defined.

(** *** The kinds of error *)

Lemma feed_raises (path : string) (st : splitter) (raw_line : string) (e : error) :
  feed path st raw_line = Raise e -> splitter_kind (kind_of e).
Proof.
  unfold feed, splitter_kind, reader_kind.
  destruct (_SECTION_START_RE _).
  { destruct (current_name st); intros H; inversion H; subst. simpl. tauto. }
  destruct (_SECTION_END_RE _) as [found|], (current_name st) as [open|];
    try (intros H; discriminate H).
  destruct (negb _); [intros H; inversion H; subst; simpl; tauto|].
  destruct (_extract_metrics_from_lines _) as [[[[la ls] ra] rs]|e'] eqn:E; simpl;
    intros H; inversion H; subst. simpl.
  apply ReaderFacts.extract_raises in E as [[Hk _] | (st' & _ & ->)]; simpl; tauto.
Qed.

Lemma for_each_feed_raises (path : string) (lines : list string) (st : splitter)
    (e : error) :
  for_each (feed path) st lines = Raise e -> splitter_kind (kind_of e).
Proof.
  revert st. induction lines as [|l lines IH]; intros st H; simpl in H; [discriminate H|].
  destruct (feed path st l) as [st1|e1] eqn:E; simpl in H.
  - now apply IH with st1.
  - inversion H; subst. now apply feed_raises in E.
Qed.

(** X7. On an aggregated log whose lines decode, parsing the log fails
    only with a format error, with missing fields, with a structure error
    or with an empty result: never with an error of the scorer.  (What the
    log's lines are is given: an undecodable file is outside this
    statement.) *)
Theorem aggregated_log_errors (path : string) (lines : list string) (e : error) :
  parse_aggregated_log path lines = Raise e -> splitter_kind (kind_of e).
Proof.
  unfold parse_aggregated_log.
  destruct (for_each (feed path) splitter_start lines) as [st|e1] eqn:E; simpl.
  - destruct (current_name st); [intros H; inversion H; subst; right; now left|].
    destruct (stats st); intros H; inversion H; subst. right; now right.
  - intros H. inversion H; subst. now apply for_each_feed_raises in E.
Qed.

Lemma aggregated_log_errors_witness :
  parse_aggregated_log "log" ["===== a START ====="; "Latency 1ms 2ms"; "===== a END ====="]
  = Raise (InSection "log" "a" (MissingFields ["req_per_sec_avg"; "req_per_sec_stdev"]))
  /\ splitter_kind
       (kind_of (InSection "log" "a" (MissingFields ["req_per_sec_avg"; "req_per_sec_stdev"]))).
Proof.
  split; [vm_compute; reflexivity|].
  apply (aggregated_log_errors "log"
           ["===== a START ====="; "Latency 1ms 2ms"; "===== a END ====="]).
  vm_compute; reflexivity.
Defined.

End AggregatedLogFacts.

(** ** More on the scorers *)

Module ScorerFacts.
Import Py PyFacts Basic Vocabulary Auxiliary RunScorerFacts.

(** *** The order of the values *)

Lemma fold_left_permutation {A B} (f : A -> B -> A) (l l' : list B) :
  (forall acc x y, f (f acc x) y = f (f acc y) x) ->
  Permutation l l' -> forall acc, fold_left f l acc = fold_left f l' acc.
Proof.
  intros Hf Hp. induction Hp as [|x l l' _ IH|x y l|l l' l'' _ IH1 _ IH2]; intros acc; simpl.
  - reflexivity.
  - apply IH.
  - now rewrite Hf.
  - now rewrite IH1.
Qed.

Lemma forallb_permutation {A} (p : A -> bool) (l l' : list A) :
  Permutation l l' -> forallb p l = forallb p l'.
Proof.
  intros Hp. induction Hp as [|x l l' _ IH|x y l|l l' l'' _ IH1 _ IH2]; simpl.
  - reflexivity.
  - now rewrite IH.
  - now rewrite !andb_assoc, (andb_comm (p y)).
  - now rewrite IH1.
Qed.

Lemma add_ratio_comm (acc : Z * Z) (x y : float) :
  add_ratio (add_ratio acc x) y = add_ratio (add_ratio acc y) x.
Proof.
  unfold add_ratio. destruct acc as [a b], (exact_ratio x) as [c d], (exact_ratio y) as [e f].
  f_equal; ring.
Qed.

(** The mean and the deviation take the values in any order. *)
Lemma mean_permutation (l l' : list float) :
  Permutation l l' -> forallb is_finite l = true -> mean l = mean l'.
Proof.
  intros Hp Hf. unfold mean.
  rewrite <- (forallb_permutation _ _ _ Hp), Hf, <- (Permutation_length Hp).
  now rewrite (fold_left_permutation _ _ _ add_ratio_comm Hp).
Qed.

Lemma pstdev_permutation (l l' : list float) :
  Permutation l l' -> Py.pstdev l = Py.pstdev l'.
Proof.
  intros Hp. unfold Py.pstdev.
  rewrite <- (forallb_permutation _ _ _ Hp), <- (Permutation_length Hp).
  rewrite <- (fold_left_permutation _ _ _ add_ratio_comm Hp).
  destruct (negb _ || _); [reflexivity|].
  destruct (fold_left add_ratio l (0, 1)) as [sx dx].
  erewrite (fold_left_permutation _ l l'); [reflexivity| |exact Hp].
  intros [a b] x y. destruct (exact_ratio x) as [c d], (exact_ratio y) as [e f].
  f_equal; ring.
Qed.

(** X8. The run metrics do not depend on the order of the records: with
    finite values, any rearrangement of the workers gives the same
    metrics, the same score among them. *)
Theorem run_metrics_ignore_the_order (stats stats' : list WorkerStats) :
  Permutation stats stats' -> finite_stats stats = true ->
  compute_run_metrics Py.pstdev stats = compute_run_metrics Py.pstdev stats'.
Proof.
  intros Hp Hf. unfold finite_stats in Hf. apply andb_true_iff in Hf as [Hl Hr].
  assert (Hpl := Permutation_map latency_avg_ms Hp).
  assert (Hpr := Permutation_map req_per_sec_avg Hp).
  unfold compute_run_metrics, pstdev_or_raise.
  rewrite <- (Permutation_length Hp), <- (mean_permutation _ _ Hpl Hl),
    <- (mean_permutation _ _ Hpr Hr), <- (pstdev_permutation _ _ Hpl),
    <- (pstdev_permutation _ _ Hpr).
  destruct stats as [|s stats], stats' as [|s' stats']; try reflexivity.
  - now apply Permutation_nil in Hp.
  - symmetry in Hp. now apply Permutation_nil in Hp.
Qed.

Lemma run_metrics_ignore_the_order_witness :
  Permutation [worker "1" 10 100; worker "2" 20 200; worker "3" 40 300]
              [worker "3" 40 300; worker "1" 10 100; worker "2" 20 200]
  /\ finite_stats [worker "1" 10 100; worker "2" 20 200; worker "3" 40 300] = true
  /\ compute_run_metrics Py.pstdev [worker "1" 10 100; worker "2" 20 200; worker "3" 40 300]
     = compute_run_metrics Py.pstdev
         [worker "3" 40 300; worker "1" 10 100; worker "2" 20 200].
Proof.
  assert (Permutation [worker "1" 10 100; worker "2" 20 200; worker "3" 40 300]
                      [worker "3" 40 300; worker "1" 10 100; worker "2" 20 200]) as Hp.
  { apply Permutation_sym.
    apply (Permutation_cons_app [worker "1" 10 100; worker "2" 20 200] []).
    now rewrite app_nil_r. }
  split; [exact Hp|]. split; [vm_compute; reflexivity|].
  apply (run_metrics_ignore_the_order _ _ Hp). vm_compute; reflexivity.
Defined.

(** *** The two scorers *)

(** X9. The scorer of the per-connection summarizer is the scorer of
    the basic one, read on the average latency and the throughput of each
    summary: the two give the same metrics, and fail alike. *)
Theorem scorers_agree (pstdev : list float -> option float)
    (stats : list PerConn.WorkerSummary) :
  PerConn.compute_run_metrics pstdev stats
  = match compute_run_metrics pstdev (map as_worker stats) with
    | Ok m => Ok (as_metrics m)
    | Raise e => Raise (as_scoring_error e)
    end.
Proof.
  unfold PerConn.compute_run_metrics, compute_run_metrics,
    PerConn.pstdev_or_raise, pstdev_or_raise.
  rewrite !map_map, length_map.
  change (map (fun x => latency_avg_ms (as_worker x)) stats)
    with (map PerConn.latency_avg_ms stats).
  change (map (fun x => req_per_sec_avg (as_worker x)) stats)
    with (map PerConn.throughput_req_per_sec stats).
  generalize (map PerConn.latency_avg_ms stats) (map PerConn.throughput_req_per_sec stats)
             (List.length stats).
  intros lat thr n. destruct stats as [|ws stats]; [reflexivity|]. cbn [map].
  destruct (1 <? n)%nat;
    [ destruct (pstdev lat); [|reflexivity]; destruct (pstdev thr); [|reflexivity] | ];
    simpl; now destruct (_ =? 0)%float.
Qed.

(** *** Workers without a measured latency *)





End ScorerFacts.

(** ** The two command-line programs *)

Module MainFacts.
Import Py PyFacts Vocabulary Auxiliary.

(** *** List comprehensions *)

Lemma comprehension_length {E X A} (f : X -> result E A) (xs : list X) (ys : list A) :
  comprehension f xs = Ok ys -> List.length ys = List.length xs.
Proof.
  revert ys. induction xs as [|x xs IH]; intros ys H; simpl in H.
  - now inversion H.
  - apply bind_ok in H as (a & _ & H). apply bind_ok in H as (rest & Hr & H).
    inversion H; subst. simpl. now rewrite (IH rest).
Qed.

Lemma comprehension_raises {E X A} (f : X -> result E A) (before after : list X)
    (x : X) (e : E) :
  Forall (fun y => is_ok (f y) = true) before -> f x = Raise e ->
  comprehension f (before ++ x :: after) = Raise e.
Proof.
  intros Hb Hx. induction Hb as [|y before Hy _ IH]; simpl.
  - now rewrite Hx.
  - destruct (f y); [|discriminate Hy]. simpl. now rewrite IH.
Qed.

(** *** The summarizer of the basic workload *)



(** X12. The worker logs come first: as soon as the directory holds one
    worker log, the aggregated log is not read, and what it holds, or
    whether it is there, changes nothing. *)
Theorem worker_logs_come_first (pstdev : list float -> option float)
    (args : Basic.arguments) (log : string * list string)
    (logs : list (string * list string)) (aggregated aggregated' : option (list string)) :
  Basic.main pstdev args (Basic.Directory (log :: logs) aggregated)
  = Basic.main pstdev args (Basic.Directory (log :: logs) aggregated').
Proof.
  unfold Basic.main.
  destruct (comprehension _ (log :: logs)) as [[|s stats]|e] eqn:E; try reflexivity.
  apply comprehension_length in E. discriminate E.
Qed.

(** X13. A worker log that cannot be read for its values stops the run:
    the error of the first such log, in the order of the names, leaves
    [main], and nothing is written, whatever the other logs hold. *)
Theorem unreadable_worker_log_stops_the_run (pstdev : list float -> option float)
    (args : Basic.arguments) (before after : list (string * list string))
    (path : string) (lines : list string) (aggregated : option (list string))
    (e : Basic.error) :
  Forall (fun '(p, l) => is_ok (Basic.parse_wrk_log p l) = true) before ->
  Basic.parse_wrk_log path lines = Raise e ->
  Basic.main pstdev args (Basic.Directory (before ++ (path, lines) :: after) aggregated)
  = ([], Raise e).
Proof.
  intros Hb He. unfold Basic.main.
  rewrite (comprehension_raises _ before after (path, lines) e); [reflexivity| |exact He].
  eapply List.Forall_impl; [|exact Hb]. now intros [p l].
Qed.

Lemma unreadable_worker_log_stops_the_run_witness :
  Basic.main Py.pstdev sample_arguments
    (Basic.Directory
       ([ ("wrk_log/wrk_client_1.log", sample_log "1.50ms" "2.00k") ]
        ++ ("wrk_log/wrk_client_2.log", sample_log "1.50" "2.00k")
        :: [ ("wrk_log/wrk_client_3.log", sample_log "1.50ms" "2.00k") ])
       None)
  = ([], Raise (Basic.InFile "wrk_log/wrk_client_2.log" (Basic.UnrecognizedLatency "1.50"))).
Proof.
  apply (unreadable_worker_log_stops_the_run Py.pstdev sample_arguments
           [ ("wrk_log/wrk_client_1.log", sample_log "1.50ms" "2.00k") ]).
  - constructor; [vm_compute; reflexivity | constructor].
  - vm_compute; reflexivity.
Defined.

(** *** The summarizer of the per-connection workload *)

(** X14. How the summarizer of the per-connection workload ends.  It
    returns 0 only after writing both files, the second from the metrics
    of the summaries in the first; it returns 1 after one message on the
    standard error, which is what it does when there is no summary file;
    a summary file that cannot be parsed leaves nothing written; and when
    the scorer raises, the worker file alone has been written. *)
Theorem per_connection_main_outcomes (int : string -> option Z)
    (pstdev : list float -> option float) (args : PerConn.arguments)
    (found : PerConn.logs_dir_state) :
  summaries_outcome pstdev args (PerConn.main int pstdev args found)
  /\ PerConn.main int pstdev args (PerConn.Directory [])
     = ([ PerConn.PrintErr (PerConn.NoSummaryFiles (PerConn.logs_dir args)) ], Ok 1).
Proof.
  split; [|reflexivity].
  unfold summaries_outcome, PerConn.main.
  destruct found as [| |[|file files]].
  - right. split; [reflexivity|]. now eexists.
  - right. split; [reflexivity|]. now eexists.
  - right. split; [reflexivity|]. now eexists.
  - destruct (comprehension _ (file :: files)) as [stats|e]; [|reflexivity].
    destruct (PerConn.compute_run_metrics pstdev stats) as [metrics|e] eqn:E; simpl.
    + left. split; [reflexivity|]. now exists stats, metrics.
    + now exists stats.
Qed.

End MainFacts.

(** ** Numbers written to the files and read back *)

Module FormatFacts.
Import Py PyFacts Vocabulary Auxiliary.

(** *** Decimal digits *)

Lemma digits_val_append (a b : string) (acc : Z) :
  digits_val acc (a ++ b) = digits_val (digits_val acc a) b.
Proof. revert acc. induction a as [|c a IH]; intros acc; simpl; [reflexivity | apply IH]. Qed.

Lemma digit_char_spec (d : Z) :
  0 <= d <= 9 -> isdigit (digit_char d) = true /\ digit_val (digit_char d) = d.
Proof.
  intros H.
  assert (d = 0 \/ d = 1 \/ d = 2 \/ d = 3 \/ d = 4 \/ d = 5 \/ d = 6 \/ d = 7
          \/ d = 8 \/ d = 9) as Hd by lia.
  repeat (destruct Hd as [-> | Hd]; [now vm_compute|]). subst. now vm_compute.
Qed.

Lemma mod_10_bound (v : Z) : 0 <= v mod 10 <= 9.
Proof. assert (H := Z.mod_pos_bound v 10). lia. Qed.

Lemma fixed_digits_digits (n : nat) (v : Z) : all isdigit (fixed_digits n v) = true.
Proof.
  revert v. induction n as [|n IH]; intros v; simpl; [reflexivity|].
  rewrite all_append, IH. simpl. rewrite andb_true_r.
  apply digit_char_spec, mod_10_bound.
Qed.

Lemma fixed_digits_length (n : nat) (v : Z) : String.length (fixed_digits n v) = n.
Proof.
  revert v. induction n as [|n IH]; intros v; simpl; [reflexivity|].
  rewrite length_append, IH. simpl. lia.
Qed.

Lemma fixed_digits_val (n : nat) (v acc : Z) :
  digits_val acc (fixed_digits n v) = acc * 10 ^ Z.of_nat n + v mod 10 ^ Z.of_nat n.
Proof.
  revert v acc. induction n as [|n IH]; intros v acc.
  - simpl. rewrite Z.mod_1_r. lia.
  - cbn [fixed_digits]. rewrite digits_val_append, IH. simpl digits_val.
    destruct (digit_char_spec (v mod 10) (mod_10_bound v)) as [_ ->].
    rewrite Nat2Z.inj_succ, Z.pow_succ_r by lia.
    rewrite (Z.rem_mul_r v 10 (10 ^ Z.of_nat n)) by lia. lia.
Qed.

Lemma uint_digits (d : Decimal.uint) : all isdigit (NilEmpty.string_of_uint d) = true.
Proof. induction d; simpl; try assumption; reflexivity. Qed.

Lemma uint_val_acc (d : Decimal.uint) (acc : positive) :
  digits_val (Z.pos acc) (NilEmpty.string_of_uint d) = Z.pos (Pos.of_uint_acc d acc).
Proof.
  revert acc. induction d; intros acc; simpl; [reflexivity| ..];
    rewrite <- IHd; f_equal; unfold digit_val, code; simpl N_of_ascii; lia.
Qed.

Lemma uint_val (d : Decimal.uint) :
  digits_val 0 (NilEmpty.string_of_uint d) = Z.of_N (Pos.of_uint d).
Proof.
  induction d; simpl; [reflexivity | exact IHd | ..]; apply uint_val_acc.
Qed.

(** [str] of an integer that is not negative: its decimal digits. *)
Lemma str_int_spec (v : Z) :
  0 <= v ->
  all isdigit (str_int v) = true /\ str_int v <> "" /\ digits_val 0 (str_int v) = v.
Proof.
  intros Hv. destruct v as [|p|p]; [now vm_compute| |lia].
  unfold str_int. simpl Z.to_int. unfold NilZero.string_of_int, NilZero.string_of_uint.
  assert (Hp := DecimalZ.of_to (Z.pos p)). simpl in Hp. unfold Z.of_uint in Hp.
  destruct (Pos.to_uint p) eqn:E; try discriminate Hp; rewrite <- E in *;
    (split; [apply uint_digits|]);
    (split; [rewrite E; simpl; discriminate|]);
    now rewrite uint_val.
Qed.

(** *** [float] on a decimal text *)

Lemma digit_head (c : ascii) (s : string) :
  isdigit c = true ->
  split_sign (String c s) = (false, String c s)
  /\ String.eqb (String c s) "inf" = false
  /\ String.eqb (String c s) "infinity" = false
  /\ String.eqb (String c s) "nan" = false.
Proof.
  destruct c as [[] [] [] [] [] [] [] []]; intros H; try discriminate H;
    repeat split; reflexivity.
Qed.

Lemma digit_plain (c : ascii) :
  isdigit c = true -> nospace c = true /\ caseless c = true.
Proof.
  intros H. split.
  - apply UnitParserFacts.numchar_nospace, UnitParserFacts.digit_numchar, H.
  - apply UnitParserFacts.numchar_caseless, UnitParserFacts.digit_numchar, H.
Qed.

Lemma scan_digits_all (d rest : string) (after_digit : bool) :
  all isdigit d = true ->
  rest = "" \/ (exists r, rest = String "." r) ->
  scan_digits after_digit (d ++ rest) = (d, rest).
Proof.
  intros Hd Hr. revert after_digit. induction d as [|c d IH]; intros after_digit.
  - simpl. destruct Hr as [-> | [r ->]]; reflexivity.
  - simpl in Hd. apply andb_true_iff in Hd as [Hc Hd].
    cbn [String.append scan_digits]. rewrite Hc, (IH Hd). reflexivity.
Qed.

Lemma append_empty_r (s : string) : s ++ "" = s.
Proof. induction s as [|c s IH]; simpl; [reflexivity | now rewrite IH]. Qed.

(** [float] reads a sign, digits, a point and digits as the float nearest
    to the decimal value. *)
Lemma float_of_text_decimal (neg : bool) (ip fp : string) :
  digits ip -> ip <> "" -> digits fp -> fp <> "" ->
  float_of_text ((if neg then "-" else "") ++ ip ++ "." ++ fp)
  = Some (let r := round_ratio (digits_val (digits_val 0 ip) fp)
                               (10 ^ Z.of_nat (String.length fp)) in
          if neg then (- r)%float else r).
Proof.
  unfold digits. intros Hip Hne Hfp Hfne.
  assert (all nospace (ip ++ "." ++ fp) = true) as Hns.
  { rewrite all_append. apply andb_true_iff. split.
    - eapply all_impl; [|exact Hip]. intros c Hc. now apply digit_plain.
    - simpl. eapply all_impl; [|exact Hfp]. intros c Hc. now apply digit_plain. }
  assert (all caseless (ip ++ "." ++ fp) = true) as Hcl.
  { rewrite all_append. apply andb_true_iff. split.
    - eapply all_impl; [|exact Hip]. intros c Hc. now apply digit_plain.
    - simpl. eapply all_impl; [|exact Hfp]. intros c Hc. now apply digit_plain. }
  assert (scan_digits false (ip ++ "." ++ fp) = (ip, "." ++ fp)) as Hscan.
  { apply scan_digits_all; [exact Hip|]. right. now exists fp. }
  assert (scan_digits false fp = (fp, "")) as Hscan'.
  { rewrite <- (append_empty_r fp) at 1. apply scan_digits_all; [exact Hfp | now left]. }
  assert ((0 <=? 0 - Z.of_nat (String.length fp)) = false) as Hk.
  { destruct fp; [contradiction|]. simpl String.length. apply Z.leb_gt. lia. }
  destruct ip as [|c ip]; [contradiction|].
  assert (isdigit c = true) as Hc by (simpl in Hip; now apply andb_true_iff in Hip as [? _]).
  destruct (digit_head c (ip ++ "." ++ fp) Hc) as (Hsign & Hinf & Hinfinity & Hnan).
  unfold float_of_text.
  destruct neg.
  - change ("-" ++ String c ip ++ "." ++ fp) with (String "-" (String c (ip ++ "." ++ fp))).
    rewrite UnitParserFacts.strip_nospace by (simpl; exact Hns).
    rewrite lower_caseless by (simpl; exact Hcl).
    cbn [split_sign]. rewrite Hinf, Hinfinity, Hnan. cbn [orb].
    change (String c (ip ++ "." ++ fp)) with (String c ip ++ "." ++ fp).
    rewrite Hscan. simpl String.append. cbv beta iota. rewrite Hscan'. cbn [is_empty andb scan_exponent].
    rewrite Hk. f_equal. f_equal. f_equal. f_equal. lia.
  - change ("" ++ String c ip ++ "." ++ fp) with (String c (ip ++ "." ++ fp)).
    rewrite UnitParserFacts.strip_nospace by exact Hns.
    rewrite lower_caseless by exact Hcl.
    rewrite Hsign, Hinf, Hinfinity, Hnan. cbn [orb].
    change (String c (ip ++ "." ++ fp)) with (String c ip ++ "." ++ fp).
    rewrite Hscan. simpl String.append. cbv beta iota. rewrite Hscan'. cbn [is_empty andb scan_exponent].
    rewrite Hk. f_equal. f_equal. f_equal. lia.
Qed.

(** *** Six decimals *)

Lemma scaled_positive (m : positive) (e : Z) (a b : Z) :
  scaled (Z.pos m) 1 e = (a, b) -> 0 < a /\ 0 < b.
Proof.
  unfold scaled. destruct (0 <=? e) eqn:E; intros H; inversion H; subst.
  - apply Z.leb_le in E. assert (0 < 2 ^ e) by (apply Z.pow_pos_nonneg; lia). lia.
  - apply Z.leb_gt in E. assert (0 < 2 ^ (- e)) by (apply Z.pow_pos_nonneg; lia). lia.
Qed.

Lemma round_half_even_nonneg (a b : Z) : 0 <= a -> 0 < b -> 0 <= round_half_even a b.
Proof.
  intros Ha Hb. unfold round_half_even.
  assert (0 <= a / b) by (apply Z.div_pos; lia).
  destruct (2 * (a mod b) ?= b); [destruct (Z.even _)| |]; lia.
Qed.

(** The parts of the text written for a finite value that is not zero. *)
Lemma format_6f_finite (x : float) (s : bool) (m : positive) (e : Z) (a b : Z) :
  Prim2SF x = S754_finite s m e -> scaled (Z.pos m) 1 (- e) = (a, b) ->
  let q := round_half_even (a * 10 ^ 6) b in
  format_6f x
  = (if s then "-" else "") ++ str_int (q / 10 ^ 6) ++ "." ++ fixed_digits 6 (q mod 10 ^ 6)
  /\ 0 <= q /\ negative x = s /\ millionths x = q.
Proof.
  intros E Es q. destruct (scaled_positive _ _ _ _ Es) as [Ha Hb].
  assert (0 <= q) as Hq by (apply round_half_even_nonneg; lia).
  unfold format_6f, negative, millionths, exact_ratio. rewrite E, Es.
  repeat split; try assumption.
  unfold q. f_equal. destruct s; lia.
Qed.

(** X15. A number is written to the CSV files either as [nan], [inf] or
    [-inf], or as an optional minus sign, at least one digit, a point and
    exactly six digits. *)
Theorem written_numbers_have_six_decimals (x : float) :
  format_6f x = "nan" \/ format_6f x = "inf" \/ format_6f x = "-inf"
  \/ six_decimals (format_6f x).
Proof.
  destruct (Prim2SF x) as [s|s| |s m e] eqn:E.
  - right; right; right. exists s, "0", "000000".
    unfold format_6f. rewrite E. repeat split. discriminate.
  - unfold format_6f. rewrite E. destruct s; tauto.
  - unfold format_6f. rewrite E. tauto.
  - right; right; right.
    destruct (scaled (Z.pos m) 1 (- e)) as [a b] eqn:Es.
    destruct (format_6f_finite x s m e a b E Es) as (-> & Hq & _ & _).
    set (q := round_half_even (a * 10 ^ 6) b) in *.
    destruct (str_int_spec (q / 10 ^ 6)) as (Hd & Hne & _); [apply Z.div_pos; lia|].
    exists s, (str_int (q / 10 ^ 6)), (fixed_digits 6 (q mod 10 ^ 6)).
    repeat split; try assumption.
    apply fixed_digits_digits.
Qed.

Lemma written_numbers_read_back_all (x : float) :
  float_of_text (format_6f x) = Some (reread x).
Proof.
  destruct (Prim2SF x) as [s|s| |s m e] eqn:E.
  - unfold format_6f, reread, millionths, negative, exact_ratio. rewrite E.
    destruct s; vm_compute; reflexivity.
  - unfold format_6f, reread. rewrite E. destruct s; vm_compute; reflexivity.
  - unfold format_6f, reread. rewrite E. vm_compute; reflexivity.
  - destruct (scaled (Z.pos m) 1 (- e)) as [a b] eqn:Es.
    destruct (format_6f_finite x s m e a b E Es) as (-> & Hq & Hs & Hm).
    unfold reread. rewrite E, Hs, Hm.
    set (q := round_half_even (a * 10 ^ 6) b) in *.
    destruct (str_int_spec (q / 10 ^ 6)) as (Hd & Hne & Hv); [apply Z.div_pos; lia|].
    rewrite float_of_text_decimal;
      [ | exact Hd | exact Hne | apply fixed_digits_digits
        | intros H; apply (f_equal String.length) in H;
          rewrite fixed_digits_length in H; discriminate H ].
    rewrite fixed_digits_length, Hv, fixed_digits_val.
    change (Z.of_nat 6) with 6.
    rewrite Z.mod_mod by lia.
    replace (q / 10 ^ 6 * 10 ^ 6 + q mod 10 ^ 6) with q
      by (rewrite (Z.div_mod q (10 ^ 6)) at 1; lia).
    reflexivity.
Qed.

(** X16. A number written to a CSV file with six decimals and read back
    by [float] is the float nearest to the millionth nearest to it, with
    its sign; a value that is not finite is read back as it was.  So
    [float] never refuses what the summarizer has written. *)
Theorem written_numbers_read_back (x : float) :
  float_of_text (format_6f x) = Some (reread x)
  /\ reread 81.64965809277261 = 81.649658%float
  /\ reread (-0.0000004) = (-0)%float.
Proof.
  split; [apply written_numbers_read_back_all|]. split; vm_compute; reflexivity.
Qed.

(** *** From the summarizer to the evaluator *)

Lemma writerow_metrics (w l ls t ts s : string) :
  writerow [ "workers"; "avg_latency_ms"; "latency_stddev_ms";
             "avg_req_per_sec"; "req_per_sec_stddev"; "score" ]
           {[ "workers" := w; "avg_latency_ms" := l; "latency_stddev_ms" := ls;
              "avg_req_per_sec" := t; "req_per_sec_stddev" := ts; "score" := s ]}
  = Ok [w; l; ls; t; ts; s].
Proof.
  unfold writerow. rewrite decide_True.
  - reflexivity.
  - rewrite !dom_insert_L, dom_singleton_L. set_solver.
Qed.

Lemma read_metrics_row (w l ls t ts s : string) :
  let r := DictReader_row [ "workers"; "avg_latency_ms"; "latency_stddev_ms";
                            "avg_req_per_sec"; "req_per_sec_stddev"; "score" ]
                          [w; l; ls; t; ts; s] ∅ in
  r !! "avg_req_per_sec" = Some (Some t)
  /\ r !! "avg_latency_ms" = Some (Some l)
  /\ r !! "score" = Some (Some s).
Proof. cbn [DictReader_row]. repeat split; vm_compute; reflexivity. Qed.

Lemma write_metrics_csv_ok (m : Basic.RunMetrics) :
  Basic.write_metrics_csv m = Ok (metrics_records m).
Proof.
  unfold Basic.write_metrics_csv, Basic.RunMetrics_as_row.
  now rewrite writerow_metrics.
Qed.

Lemma parse_written_metrics (m : Basic.RunMetrics) (path : string) :
  Eval._parse_metrics_csv float_of_text path (DictReader (metrics_records m))
  = Ok (reread (Basic.avg_req_per_sec m), reread (Basic.avg_latency_ms m),
        reread (Basic.score m)).
Proof.
  unfold metrics_records. cbn [DictReader List.filter map].
  unfold Eval._parse_metrics_csv, Eval.cell.
  destruct (read_metrics_row (str_int (Basic.workers m))
              (format_6f (Basic.avg_latency_ms m)) (format_6f (Basic.latency_stddev_ms m))
              (format_6f (Basic.avg_req_per_sec m)) (format_6f (Basic.req_per_sec_stddev m))
              (format_6f (Basic.score m))) as (-> & -> & ->).
  rewrite !written_numbers_read_back_all. reflexivity.
Qed.

(** X17. The evaluator can always read the metrics file the summarizer
    writes: writing the metrics never fails, and the first row of the file,
    read as the evaluator reads it, gives the throughput, the latency and
    the score that were written, each to the nearest millionth. *)
Theorem evaluator_reads_the_metrics_file (m : Basic.RunMetrics) (path : string) :
  exists records,
    Basic.write_metrics_csv m = Ok records
    /\ Eval._parse_metrics_csv float_of_text path (DictReader records)
       = Ok (reread (Basic.avg_req_per_sec m), reread (Basic.avg_latency_ms m),
             reread (Basic.score m)).
Proof.
  exists (metrics_records m). split; [apply write_metrics_csv_ok | apply parse_written_metrics].
Qed.

End FormatFacts.

(** ** More on the summary files of the per-connection workload *)

Module SummaryFileFacts.
Import Py PyFacts PerConn Vocabulary Auxiliary.

(** *** The lines *)

Lemma read_line_assignment (data : gmap string string) (raw_line : string) :
  read_line data raw_line
  = match assignment raw_line with
    | Some (key, value) => <[key := value]> data
    | None => data
    end.
Proof.
  unfold read_line, assignment. destruct (is_empty _); [reflexivity|].
  now destruct (split_once _ _) as [[key value]|].
Qed.

Lemma read_line_other (data : gmap string string) (raw_line key : string) :
  assigns key raw_line = false -> read_line data raw_line !! key = data !! key.
Proof.
  unfold assigns. rewrite read_line_assignment.
  destruct (assignment raw_line) as [[k v]|]; [|reflexivity].
  intros H. apply String.eqb_neq in H. now rewrite lookup_insert_ne.
Qed.

Lemma fold_read_line_other (lines : list string) (data : gmap string string) (key : string) :
  Forall (fun l => assigns key l = false) lines ->
  fold_left read_line lines data !! key = data !! key.
Proof.
  intros H. revert data. induction H as [|l lines Hl _ IH]; intros data; simpl.
  - reflexivity.
  - now rewrite IH, read_line_other.
Qed.

(** X18. In a summary file the last assignment of a key wins, lines that
    are blank or hold no [=] count for nothing, and a key that no line
    assigns is absent. *)
Theorem last_assignment_wins (key : string) :
  (forall before raw_line after value,
      assignment raw_line = Some (key, value) ->
      Forall (fun l => assigns key l = false) after ->
      read_data (before ++ raw_line :: after) !! key = Some value)
  /\ (forall lines,
        Forall (fun l => assigns key l = false) lines -> read_data lines !! key = None)
  /\ (forall before raw_line after,
        assignment raw_line = None ->
        read_data (before ++ raw_line :: after) = read_data (before ++ after)).
Proof.
  unfold read_data. repeat split.
  - intros before raw_line after value Ha Hafter.
    rewrite fold_left_app. simpl. rewrite (fold_read_line_other _ _ _ Hafter).
    rewrite read_line_assignment, Ha. apply lookup_insert_eq.
  - intros lines H. now rewrite (fold_read_line_other _ _ _ H).
  - intros before raw_line after Ha.
    rewrite !fold_left_app. simpl. now rewrite read_line_assignment, Ha.
Qed.

Lemma last_assignment_wins_witness :
  assignment " duration_ns = 2000 " = Some ("duration_ns", "2000")
  /\ Forall (fun l => assigns "duration_ns" l = false) ["# end"; "success=4"]
  /\ read_data (["duration_ns=1000"; "note"] ++ " duration_ns = 2000 "
                :: ["# end"; "success=4"]) !! "duration_ns" = Some "2000".
Proof.
  assert (assignment " duration_ns = 2000 " = Some ("duration_ns", "2000")) as Ha
    by (vm_compute; reflexivity).
  assert (Forall (fun l => assigns "duration_ns" l = false) ["# end"; "success=4"]) as Hafter
    by (repeat constructor).
  split; [exact Ha|]. split; [exact Hafter|].
  exact (proj1 (last_assignment_wins "duration_ns") _ _ _ _ Ha Hafter).
Defined.

(** *** The missing fields *)

Lemma fold_read_line_none (lines : list string) (data : gmap string string) (key : string) :
  fold_left read_line lines data !! key = None
  <-> data !! key = None /\ existsb (assigns key) lines = false.
Proof.
  revert data. induction lines as [|l lines IH]; intros data; simpl.
  - tauto.
  - rewrite IH, orb_false_iff. destruct (assigns key l) eqn:E.
    + split; [|intros (_ & X & _); discriminate X].
      unfold assigns in E. rewrite read_line_assignment.
      destruct (assignment l) as [[k v]|]; [|discriminate E].
      apply String.eqb_eq in E as ->. rewrite lookup_insert_eq. intros [X _]. discriminate X.
    + rewrite (read_line_other _ _ _ E). tauto.
Qed.

Lemma missing_unassigned (lines : list string) : missing (read_data lines) = unassigned lines.
Proof.
  unfold missing, unassigned. apply List.filter_ext. intros key.
  destruct (read_data lines !! key) as [v|] eqn:E.
  - destruct (existsb (assigns key) lines) eqn:Ex; [reflexivity|].
    assert (read_data lines !! key = None) as X
      by (apply fold_read_line_none; split; [apply lookup_empty | exact Ex]).
    rewrite E in X. discriminate X.
  - apply fold_read_line_none in E as [_ ->]. reflexivity.
Qed.

Lemma bind_raise {E A B} (r : result E A) (k : A -> result E B) (e : E) :
  bind r k = Raise e -> r = Raise e \/ exists a, r = Ok a /\ k a = Raise e.
Proof.
  destruct r as [a|e']; simpl; intros H; [right; now exists a | left].
  now inversion H.
Qed.

Lemma arith_not_missing {A} (r : arith_error + A) (path : string) (names : list string) :
  arith r <> Raise (MissingFields path names).
Proof. now destruct r. Qed.

Lemma int_field_not_missing (int : string -> option Z) (data : gmap string string)
    (key path : string) (names : list string) :
  int_field int data key <> Raise (MissingFields path names).
Proof. unfold int_field. now destruct (int _). Qed.

Lemma summarize_not_missing (path : string) (s f c sum mn mx d : Z) (p : string)
    (names : list string) :
  summarize path s f c sum mn mx d <> Raise (MissingFields p names).
Proof.
  unfold summarize. intros H.
  repeat (apply bind_raise in H as [H | (? & _ & H)];
          [ repeat match type of H with
                   | (if ?b then _ else _) = _ => destruct b
                   | bind _ _ = _ => apply bind_raise in H as [H | (? & _ & H)]
                   end;
            first [ discriminate H | now apply arith_not_missing in H ] | ]).
  discriminate H.
Qed.

(** X19. A summary file that lacks a required key is refused before any
    of its values is read as a number: the error names the required keys
    that no line assigns, in the order of the list of required keys,
    whatever the other lines hold.  A file with no assignment at all is
    refused with all seven names. *)
Theorem missing_keys_are_reported_first (int : string -> option Z) (path : string)
    (lines : list string) :
  (unassigned lines <> [] ->
   parse_summary_file int path lines = Raise (MissingFields path (unassigned lines)))
  /\ (Forall (fun l => assignment l = None) lines ->
      parse_summary_file int path lines = Raise (MissingFields path required_keys))
  /\ (forall names,
        parse_summary_file int path lines = Raise (MissingFields path names) ->
        names = unassigned lines).
Proof.
  unfold parse_summary_file. rewrite missing_unassigned.
  assert (Forall (fun l => assignment l = None) lines -> unassigned lines = required_keys)
    as Hall.
  { intros H. unfold unassigned.
    replace (List.filter _ required_keys) with (List.filter (fun _ => true) required_keys).
    - reflexivity.
    - apply List.filter_ext. intros key. symmetry. apply negb_true_iff.
      clear -H. induction H as [|l lines Hl _ IH]; [reflexivity|]. simpl.
      unfold assigns at 1. now rewrite Hl. }
  repeat split.
  - intros Hne. now destruct (unassigned lines).
  - intros H. now rewrite (Hall H).
  - intros names. destruct (unassigned lines) as [|k ks].
    + intros H.
      repeat (apply bind_raise in H as [H | (? & _ & H)];
              [now apply int_field_not_missing in H|]).
      now apply summarize_not_missing in H.
    + intros H. now inversion H.
Qed.

(** *** The worker identifier *)

Lemma append_cons (a : string) (c : ascii) (b : string) :
  (a ++ String c "") ++ b = a ++ String c b.
Proof. now rewrite append_assoc. Qed.

(** A name without a slash is one component. *)
Lemma components_name (name cur : string) :
  all not_slash name = true ->
  components cur name
  = if String.eqb (cur ++ name) "" || String.eqb (cur ++ name) "." then []
    else [cur ++ name].
Proof.
  revert cur. induction name as [|c name IH]; intros cur H.
  - simpl. replace (cur ++ "") with cur; [reflexivity|].
    clear. induction cur as [|c cur IH]; simpl; [reflexivity | now rewrite <- IH].
  - simpl in H. apply andb_true_iff in H as [Hc H]. cbn [components].
    unfold not_slash in Hc. apply negb_true_iff in Hc. rewrite Hc.
    rewrite (IH _ H), append_cons. reflexivity.
Qed.

Lemma components_last (dir name cur : string) :
  exists before, components cur (dir ++ String "/" name)
                 = (before ++ components "" name)%list.
Proof.
  revert cur. induction dir as [|c dir IH]; intros cur.
  - cbn [String.append components]. change (Ascii.eqb "/" "/") with true. cbv beta iota.
    destruct (String.eqb cur "" || String.eqb cur ".").
    + now exists [].
    + now exists [cur].
  - cbn [String.append components]. destruct (Ascii.eqb c "/").
    + destruct (IH "") as [before ->].
      destruct (String.eqb cur "" || String.eqb cur ".").
      * now exists before.
      * now exists (cur :: before).
    + apply IH.
Qed.

Lemma path_name_of_file (dir name : string) (c : ascii) :
  all not_slash (String c name) = true -> Ascii.eqb c "." = false ->
  path_name (String c name) = String c name
  /\ path_name (dir ++ String "/" (String c name)) = String c name.
Proof.
  intros Hn Hc. unfold path_name.
  assert (components "" (String c name) = [String c name]) as E.
  { rewrite (components_name _ _ Hn). simpl. now rewrite Hc. }
  split; [now rewrite E|].
  destruct (components_last dir (String c name) "") as [before ->].
  rewrite E. apply last_last.
Qed.

Lemma rsplit_once_none (c : ascii) (s : string) :
  all (fun x => negb (Ascii.eqb x c)) s = true -> rsplit_once c s = None.
Proof.
  induction s as [|x s IH]; simpl; [reflexivity|].
  intros H. apply andb_true_iff in H as [Hx H]. rewrite (IH H).
  apply negb_true_iff in Hx. now rewrite Hx.
Qed.

Lemma rsplit_once_last (c : ascii) (a b : string) :
  all (fun x => negb (Ascii.eqb x c)) b = true ->
  rsplit_once c (a ++ String c b) = Some (a, b).
Proof.
  intros Hb. induction a as [|x a IH]; simpl.
  - now rewrite (rsplit_once_none _ _ Hb), Ascii.eqb_refl.
  - now rewrite IH.
Qed.

(** X20. The identifier of a worker is what stands between [worker_] and
    [.summary] in the name of its summary file, whatever directory the file
    is in, and also when that text holds underscores or points. *)
Theorem worker_id_of_a_summary_file (dir id : string) :
  no_slash id ->
  _extract_worker_id ("worker_" ++ id ++ ".summary") = id
  /\ _extract_worker_id (dir ++ "/worker_" ++ id ++ ".summary") = id.
Proof.
  unfold no_slash. intros Hid.
  assert (all not_slash ("worker_" ++ id ++ ".summary") = true) as Hn.
  { rewrite (all_append _ "worker_"), (all_append _ id). unfold not_slash.
    now rewrite Hid. }
  destruct (path_name_of_file dir ("orker_" ++ id ++ ".summary") "w" Hn eq_refl)
    as [E1 E2].
  assert (stem_of_name ("worker_" ++ id ++ ".summary") = "worker_" ++ id) as Es.
  { unfold stem_of_name.
    replace ("worker_" ++ id ++ ".summary") with (("worker_" ++ id) ++ String "." "summary")
      by now rewrite append_assoc.
    now rewrite rsplit_once_last. }
  unfold _extract_worker_id, path_stem.
  change (dir ++ "/worker_" ++ id ++ ".summary")
    with (dir ++ String "/" (String "w" ("orker_" ++ id ++ ".summary"))).
  change ("worker_" ++ id ++ ".summary") with (String "w" ("orker_" ++ id ++ ".summary")).
  rewrite E1, E2.
  change (String "w" ("orker_" ++ id ++ ".summary")) with ("worker_" ++ id ++ ".summary").
  rewrite Es. unfold startswith. rewrite strip_prefix_append. split; reflexivity.
Qed.

Lemma worker_id_of_a_summary_file_witness :
  no_slash "3_of.8"
  /\ _extract_worker_id ("worker_" ++ "3_of.8" ++ ".summary") = "3_of.8"
  /\ _extract_worker_id ("per_connection_wrk_log" ++ "/worker_" ++ "3_of.8" ++ ".summary")
     = "3_of.8".
Proof.
  split; [reflexivity|].
  apply (worker_id_of_a_summary_file "per_connection_wrk_log" "3_of.8"). reflexivity.
Defined.

End SummaryFileFacts.

(** ** More on the evaluator *)

Module EvaluatorFacts.
Import Py PyFacts Eval Vocabulary Auxiliary.
Local Open Scope float_scope.

(** *** Waiting for the servers *)

(** X21. The evaluator finds the servers ready exactly when some turn of
    its readiness loop sees a server log while the launcher is still
    running, every turn before it having seen the launcher running and no
    log: a launcher that exits first, or a deadline that passes first,
    gives "not ready". *)
Theorem servers_are_ready_spec (polls : list (option Z * bool)) :
  _wait_for_server_logs polls = true
  <-> exists before after,
        polls = (before ++ (None, true) :: after)%list /\ Forall quiet before.
Proof.
  unfold quiet. split.
  - induction polls as [|[[code|] [|]] polls IH]; simpl; intros H; try discriminate H.
    + exists [], polls. now split.
    + destruct (IH H) as (before & after & -> & Hq).
      exists ((None, false) :: before), after. split; [reflexivity|]. now constructor.
  - intros (before & after & -> & Hq). induction Hq as [|p before -> _ IH]; simpl; auto.
Qed.

(** *** The error words *)

Lemma error_word_here_spec (s : string) :
  error_word_here s = true
  <-> exists word after,
        In word error_words /\ s = word ++ after /\ boundary (head_char after) = true.
Proof.
  unfold error_word_here. rewrite existsb_exists. split.
  - intros (word & Hin & H). destruct (strip_prefix word s) as [after|] eqn:E; [|discriminate H].
    exists word, after. repeat split; [exact Hin | now apply strip_prefix_spec | exact H].
  - intros (word & after & Hin & -> & H). exists word. split; [exact Hin|].
    now rewrite strip_prefix_append.
Qed.

Lemma search_error_from_spec (s : string) (prev : option ascii) :
  search_error_from prev s = true
  <-> exists before word after,
        In word error_words /\ s = before ++ word ++ after
        /\ boundary (before_char prev before) = true
        /\ boundary (head_char after) = true.
Proof.
  revert prev. induction s as [|c s IH]; intros prev.
  - cbn [search_error_from]. rewrite orb_false_r, andb_true_iff, error_word_here_spec. split.
    + intros (Hp & word & after & Hin & E & Ha). now exists "", word, after.
    + intros (before & word & after & Hin & E & Hp & Ha).
      destruct before; [|discriminate E]. split; [exact Hp|]. now exists word, after.
  - cbn [search_error_from]. rewrite orb_true_iff, andb_true_iff, error_word_here_spec, IH.
    split.
    + intros [(Hp & word & after & Hin & E & Ha) | (before & word & after & Hin & E & Hp & Ha)].
      * now exists "", word, after.
      * exists (String c before), word, after. repeat split; try assumption.
        -- simpl. now rewrite E.
        -- unfold before_char in *. simpl. now destruct (last_char before).
    + intros (before & word & after & Hin & E & Hp & Ha). destruct before as [|c' before].
      * left. split; [exact Hp|]. now exists word, after.
      * right. simpl in E. inversion E; subst. exists before, word, after.
        repeat split; try assumption.
        unfold before_char in *. simpl in Hp. now destruct (last_char before).
Qed.

(** X22. A server log counts as faulty exactly when, letter case aside,
    it holds one of the words [error], [fail] and [exit status 1] as a
    whole word: a longer word that merely contains one of them does not
    count. *)
Theorem error_pattern_spec (content : string) :
  ERROR_PATTERN content = true
  <-> exists word, In word error_words /\ whole_word word (lower content).
Proof.
  unfold ERROR_PATTERN, whole_word. rewrite search_error_from_spec. split.
  - intros (before & word & after & Hin & E & Hp & Ha).
    exists word. split; [exact Hin|]. exists before, after. repeat split; try assumption.
    unfold before_char in Hp. now destruct (last_char before).
  - intros (word & Hin & before & after & E & Hp & Ha).
    exists before, word, after. repeat split; try assumption.
    unfold before_char. now destruct (last_char before).
Qed.

(** *** The latest log *)

Lemma fold_later_in (rest : list (float * file)) (c : float * file) :
  In (fold_left later rest c) (c :: rest).
Proof.
  revert c. induction rest as [|x rest IH]; intros c; simpl; [now left|].
  destruct (IH (later c x)) as [H | H]; [|now right; right].
  rewrite <- H. unfold later. destruct (_ <? _); [right; now left | now left].
Qed.

(** The order of the modification times: a time that is later than
    another is not earlier than anything the other is not earlier than. *)
Lemma SFltb_chain (a x q : spec_float) :
  SFltb a x = true -> SFltb a q = false -> SFltb x q = false.
Proof.
  unfold SFltb, SFcompare.
  destruct a as [sa|sa| |sa ma ea], x as [sx|sx| |sx mx ex], q as [sq|sq| |sq mq eq];
    try (intros H; discriminate H); try reflexivity;
    repeat match goal with s : bool |- _ => destruct s end;
    try (intros H; discriminate H); try reflexivity; try (intros _ H; discriminate H);
    change (PosDef.Pos.compare_cont Eq) with Pos.compare;
    repeat match goal with
           | |- context [(?a ?= ?b)%Z] => destruct (Z.compare_spec a b); subst
           | |- context [(?a ?= ?b)%positive] => destruct (Pos.compare_spec a b); subst
           end; simpl;
    try (intros H; discriminate H); try reflexivity; try (intros _ H; discriminate H);
    try lia.
Qed.

Lemma ltb_chain (a x q : float) :
  (a <? x) = true -> (a <? q) = false -> (x <? q) = false.
Proof. rewrite !FloatAxioms.ltb_spec. apply SFltb_chain. Qed.

Lemma ltb_irreflexive (a : float) : (a <? a) = false.
Proof.
  rewrite FloatAxioms.ltb_spec. unfold SFltb, SFcompare.
  destruct (Prim2SF a) as [s|s| |s m e]; try reflexivity; [now destruct s|].
  change (PosDef.Pos.compare_cont Eq) with Pos.compare.
  rewrite Z.compare_refl, Pos.compare_refl. now destruct s.
Qed.

Lemma fold_later_latest (rest seen : list (float * file)) (c : float * file) :
  Forall (fun q => (fst c <? fst q) = false) seen ->
  Forall (fun q => (fst (fold_left later rest c) <? fst q) = false) (seen ++ rest).
Proof.
  revert seen c. induction rest as [|x rest IH]; intros seen c Hseen; simpl.
  - now rewrite app_nil_r.
  - replace (seen ++ x :: rest)%list with ((seen ++ [x]) ++ rest)%list
      by now rewrite <- app_assoc.
    apply IH. unfold later. destruct (fst c <? fst x) eqn:E.
    + apply Forall_app. split.
      * eapply List.Forall_impl; [|exact Hseen]. intros q Hq. exact (ltb_chain _ _ _ E Hq).
      * constructor; [apply ltb_irreflexive | constructor].
    + apply Forall_app. split; [exact Hseen|]. constructor; [exact E | constructor].
Qed.

Lemma fold_later_max (rest : list (float * file)) (c q : float * file) :
  In q (c :: rest) -> (fst (fold_left later rest c) <? fst q) = false.
Proof.
  intros Hq.
  assert (Forall (fun q => (fst (fold_left later rest c) <? fst q) = false) ([c] ++ rest))
    as H by (apply fold_later_latest; constructor; [apply ltb_irreflexive | constructor]).
  rewrite List.Forall_forall in H. now apply H.
Qed.

(** X23. The latest log is one of the logs, and there is none only when
    there is no log at all; as soon as one log is not older than the
    launch, the log chosen is not older than the launch either; and no log
    is later than the one chosen, among those not older than the launch
    when there are some, among all of them otherwise. *)
Theorem latest_log_spec (logs : list (float * file)) (newer_than : float) :
  (_latest_log logs newer_than = None <-> logs = [])
  /\ (forall log,
        _latest_log logs newer_than = Some log ->
        In log logs
        /\ (existsb (fresh newer_than) logs = true -> fresh newer_than log = true)
        /\ (forall other,
              In other logs ->
              (existsb (fresh newer_than) logs = true -> fresh newer_than other = true) ->
              (fst log <? fst other) = false)).
Proof.
  unfold _latest_log, fresh. destruct logs as [|l logs]; [split; [tauto | discriminate]|].
  set (all_logs := l :: logs).
  destruct (List.filter _ all_logs) as [|r recent] eqn:E.
  - assert (existsb (fun log => newer_than <=? fst log) all_logs = false) as Hnone.
    { destruct (existsb _ all_logs) eqn:Hex; [|reflexivity].
      apply existsb_exists in Hex as (x & Hx & Hf).
      assert (In x (List.filter (fun p => newer_than <=? fst p) all_logs)) as X
        by (apply filter_In; now split).
      rewrite E in X. destruct X. }
    split; [split; discriminate|]. intros log H. inversion H; subst.
    split; [apply fold_later_in|]. rewrite Hnone. split; [discriminate|].
    intros other Hin _. now apply fold_later_max.
  - split; [split; discriminate|]. intros log H. inversion H; subst.
    assert (In (fold_left later recent r) (List.filter (fun p => newer_than <=? fst p) all_logs))
      as X by (rewrite E; apply fold_later_in).
    apply filter_In in X as [Hin Hf].
    assert (existsb (fun log => newer_than <=? fst log) all_logs = true) as Hsome.
    { apply existsb_exists. eexists. split; [exact Hin | exact Hf]. }
    split; [exact Hin|]. split; [now intros _|].
    intros other Hother Hfresh. apply fold_later_max. rewrite <- E.
    apply filter_In. split; [exact Hother | now apply Hfresh].
Qed.

(** *** The artifacts of a run *)

Lemma finally_lookup (proc : option process) (reader : bool) (buffer : list string)
    (r : result exn EvaluationResult) (res' : EvaluationResult) :
  finally proc reader buffer r = Ok res' ->
  exists res,
    r = Ok res
    /\ snd (_terminate_process proc reader) = None
    /\ metrics res' = metrics res
    /\ (forall key, key <> "launch_servers_output" ->
                    artifacts res' !! key = artifacts res !! key)
    /\ artifacts res' !! "launch_servers_output"
       = match artifacts res !! "launch_servers_output" with
         | Some v => Some v
         | None => match buffer with
                   | [] => None
                   | _ => Some (concat buffer)
                   end
         end.
Proof.
  unfold finally. destruct (snd (_terminate_process proc reader)); [intros H; discriminate H|].
  destruct r as [res|e]; [|intros H; discriminate H].
  destruct buffer as [|line buffer].
  - intros H. inversion H; subst. exists res'. repeat split.
    now destruct (artifacts res' !! "launch_servers_output").
  - destruct (artifacts res !! "launch_servers_output") eqn:E; intros H; inversion H; subst.
    + exists res'. repeat split. now rewrite E.
    + exists res. simpl. repeat split.
      * intros key Hk. now rewrite lookup_insert_ne.
      * now rewrite lookup_insert_eq, E.
Qed.

Lemma lookup_logs (error_logs : list (string * string)) (base : gmap string string)
    (key : string) :
  (forall name, "log_" ++ name <> key) ->
  fold_left (fun a '(name, content) => <["log_" ++ name := content]> a) error_logs base !! key
  = base !! key.
Proof.
  intros Hk. revert base. induction error_logs as [|[name content] l IH]; intros base; simpl.
  - reflexivity.
  - rewrite IH. apply lookup_insert_ne, Hk.
Qed.

Lemma lookup_set_optional_ne (k key : string) (v : option string) (a : gmap string string) :
  k <> key -> set_optional k v a !! key = a !! key.
Proof. intros Hk. unfold set_optional. destruct v; [now apply lookup_insert_ne | reflexivity]. Qed.

Lemma lookup_collect_latest_ne (k key : string) (logs : list (float * file)) (t : float)
    (a : gmap string string) :
  k <> key -> collect_latest k logs t a !! key = a !! key.
Proof.
  intros Hk. unfold collect_latest.
  destruct (_latest_log logs t) as [[mtime f]|]; [now apply lookup_set_optional_ne | reflexivity].
Qed.

(** The walk through [evaluate], stop by stop: the goal speaks of
    [stops_at] and of [evaluate] on the same world. *)
Ltac walk w :=
  unfold stops_at, evaluate, compile_output, workload_stdout, workload_stderr, launched;
  destruct (_run_go_generate (go_generate w)) as [compile_ok output];
  cbn [fst snd]; destruct compile_ok; cbn [negb];
  [ destruct (launcher_missing w) as [exc|]; cbn [_start_servers];
    [ | unfold supervised;
        destruct (_wait_for_server_logs (polls w)); cbn [negb];
        [ destruct (poll_after_wait w) as [returncode|];
          [ | destruct (_scan_server_logs_for_errors (server_logs w))
                as [|[found_name found_content] error_logs] eqn:Hscan;
              [ destruct (_run_workload (workload w))
                  as [workload_ok [[returncode stdout] stderr]];
                cbn [fst snd]; destruct workload_ok; cbn [negb];
                [ destruct (negb (summary_exists w) || negb (metrics_exists w));
                  [ | destruct (_parse_metrics_csv _ (metrics_path w) (metrics_rows w))
                        as [[[avg_tput avg_latency] total_score]|e] eqn:Hparse;
                      cbn [bind] ]
                | ]
              | ] ]
        | ] ]
  | ].

(** What is looked up after the [finally] clause, in terms of what the run
    had put in the artifacts. *)
Ltac after_finally H :=
  apply finally_lookup in H as (res0 & H & _ & _ & Hkeep & Hout);
  inversion H; subst; clear H; cbn [artifacts] in *.

Ltac lookups :=
  repeat first
    [ rewrite lookup_insert_eq
    | rewrite lookup_insert_ne by discriminate
    | rewrite lookup_set_optional_ne by discriminate
    | rewrite lookup_collect_latest_ne by discriminate
    | rewrite lookup_logs by (intros ? X; discriminate X)
    | rewrite lookup_empty ].

(** X24. The two failure artifacts are never spurious: a result carries
    [launch_failure] only when the run stopped at a launch stage, and
    [workload_failure] only when it stopped at a workload stage; a finished
    run carries neither. *)
Theorem failure_keys_tell_the_stage (float_of_text : string -> option float) (w : world)
    (res : EvaluationResult) (key : string) :
  evaluate float_of_text w = Ok res ->
  failure_key key -> is_Some (artifacts res !! key) ->
  explanation (stops_at float_of_text w) = Some key.
Proof.
  intros H Hkey. revert H. unfold failure_key in Hkey.
  walk w; intros H.
  all: try discriminate H.
  all: try (inversion H; subst; clear H; cbn [artifacts];
            destruct Hkey as [-> | ->]; lookups; intros [v Hv]; discriminate Hv).
  all: after_finally H;
    destruct Hkey as [-> | ->]; rewrite Hkeep by discriminate; lookups;
    intros [v Hv]; first [discriminate Hv | reflexivity].
Qed.

Lemma failure_keys_tell_the_stage_witness :
  exists res,
    evaluate Py.float_of_text
      (staged_world [("server_1.log", Some "listening")] (Completed 3 "" "wrk: not found") [])
    = Ok res
    /\ is_Some (artifacts res !! "workload_failure")
    /\ explanation
         (stops_at Py.float_of_text
            (staged_world [("server_1.log", Some "listening")]
                          (Completed 3 "" "wrk: not found") []))
       = Some "workload_failure".
Proof.
  destruct (evaluate Py.float_of_text
              (staged_world [("server_1.log", Some "listening")]
                            (Completed 3 "" "wrk: not found") []))
    as [res|e] eqn:E; [|vm_compute in E; discriminate E].
  assert (is_Some (artifacts res !! "workload_failure")) as Hs.
  { vm_compute in E. inversion E; subst. vm_compute. eauto. }
  exists res. split; [reflexivity|]. split; [exact Hs|].
  apply (failure_keys_tell_the_stage _ _ res "workload_failure" E); [now right | exact Hs].
Defined.

(** X25. What the evaluator captures is kept in every result it returns:
    the output of the build under [compile_output]; the output of the
    launcher, as soon as the launcher was started and wrote something,
    under [launch_servers_output]; and the two outputs of the workload,
    as soon as the workload was run, under [workload_stdout] and
    [workload_stderr]. *)
Theorem captured_output_is_kept (float_of_text : string -> option float) (w : world)
    (res : EvaluationResult) :
  evaluate float_of_text w = Ok res ->
  artifacts res !! "compile_output" = Some (compile_output w)
  /\ (launched w -> server_output w <> [] ->
      artifacts res !! "launch_servers_output" = Some (concat (server_output w)))
  /\ (workload_ran (stops_at float_of_text w) = true ->
      artifacts res !! "workload_stdout" = Some (workload_stdout w)
      /\ artifacts res !! "workload_stderr" = Some (workload_stderr w)).
Proof.
  walk w; intros H.
  all: try discriminate H.
  all: try (inversion H; subst; clear H; cbn [artifacts]; lookups;
            split; [reflexivity|]; split; [now intros [X _] | intros X; discriminate X]).
  all: after_finally H.
  all: split; [rewrite Hkeep by discriminate; lookups; reflexivity|].
  all: split;
    [ intros [_ Hl] Hne;
      first [ discriminate Hl
            | rewrite Hout; lookups;
              destruct (server_output w); [contradiction | reflexivity] ]
    | intros Hran;
      first [ discriminate Hran
            | rewrite !Hkeep by discriminate; lookups; now split ] ].
Qed.

Lemma captured_output_is_kept_witness :
  exists res,
    evaluate Py.float_of_text
      (staged_world [("server_1.log", Some "listening")] (Completed 3 "" "wrk: not found") [])
    = Ok res
    /\ artifacts res !! "compile_output" = Some "generated"
    /\ artifacts res !! "launch_servers_output" = Some "servers started on 4 cores"
    /\ artifacts res !! "workload_stderr" = Some "wrk: not found".
Proof.
  destruct (evaluate Py.float_of_text
              (staged_world [("server_1.log", Some "listening")]
                            (Completed 3 "" "wrk: not found") []))
    as [res|e] eqn:E; [|vm_compute in E; discriminate E].
  destruct (captured_output_is_kept _ _ res E) as (Hc & Hl & Hw).
  exists res. split; [reflexivity|]. split; [exact Hc|]. split.
  - apply Hl; [now split | discriminate].
  - now apply Hw.
Defined.

(** *** The faulty logs *)

Lemma lookup_logs_but (error_logs : list (string * string)) (base : gmap string string)
    (name : string) :
  ~ In name (map fst error_logs) ->
  fold_left (fun a '(name, content) => <["log_" ++ name := content]> a) error_logs base
  !! ("log_" ++ name)
  = base !! ("log_" ++ name).
Proof.
  revert base. induction error_logs as [|[n c] l IH]; intros base Hn; cbn [fold_left].
  - reflexivity.
  - simpl in Hn. rewrite IH by tauto. apply lookup_insert_ne.
    intros X. inversion X. tauto.
Qed.

Lemma lookup_logs_in (error_logs : list (string * string)) (base : gmap string string)
    (name content : string) :
  List.NoDup (map fst error_logs) -> In (name, content) error_logs ->
  fold_left (fun a '(name, content) => <["log_" ++ name := content]> a) error_logs base
  !! ("log_" ++ name)
  = Some content.
Proof.
  revert base. induction error_logs as [|[n c] l IH]; intros base Hd Hin; cbn [fold_left].
  - destruct Hin.
  - simpl in Hd. apply List.NoDup_cons_iff in Hd as [Hn Hd]. destruct Hin as [Hin | Hin].
    + inversion Hin; subst. rewrite lookup_logs_but by exact Hn. apply lookup_insert_eq.
    + now apply IH.
Qed.

Lemma scan_in (logs : list (string * option string)) (name content : string) :
  In (name, content) (_scan_server_logs_for_errors logs)
  <-> In (name, Some content) logs /\ ERROR_PATTERN content = true.
Proof.
  unfold _scan_server_logs_for_errors. rewrite in_flat_map. split.
  - intros ([n [c|]] & Hin & H); [|destruct H].
    destruct (ERROR_PATTERN c) eqn:E; [|destruct H].
    destruct H as [H | []]. inversion H; subst. now split.
  - intros [Hin E]. exists (name, Some content). split; [exact Hin|]. rewrite E. now left.
Qed.

Lemma scan_names (logs : list (string * option string)) (name : string) :
  In name (map fst (_scan_server_logs_for_errors logs)) -> In name (map fst logs).
Proof.
  rewrite !in_map_iff. intros ([n c] & <- & Hin). apply scan_in in Hin as [Hin _].
  now exists (n, Some c).
Qed.

Lemma scan_nodup (logs : list (string * option string)) :
  List.NoDup (map fst logs) -> List.NoDup (map fst (_scan_server_logs_for_errors logs)).
Proof.
  induction logs as [|[n [c|]] logs IH]; simpl; intros Hd.
  - constructor.
  - apply List.NoDup_cons_iff in Hd as [Hn Hd]. destruct (ERROR_PATTERN c); simpl.
    + apply List.NoDup_cons_iff. split; [|now apply IH].
      intros X. apply Hn. now apply scan_names.
    + now apply IH.
  - apply List.NoDup_cons_iff in Hd as [Hn Hd]. now apply IH.
Qed.

(** X26. When the run stops because of the server logs, every faulty log
    that could be read is attached to the result in full, under [log_]
    followed by its name (the names of the logs of one directory being
    distinct). *)
Theorem faulty_logs_are_attached (float_of_text : string -> option float) (w : world)
    (res : EvaluationResult) (name content : string) :
  evaluate float_of_text w = Ok res ->
  stops_at float_of_text w = ErrorsInLogs ->
  List.NoDup (map fst (server_logs w)) ->
  In (name, Some content) (server_logs w) -> ERROR_PATTERN content = true ->
  artifacts res !! ("log_" ++ name) = Some content.
Proof.
  intros H Hstop Hd Hin Herr. revert H Hstop.
  assert (In (name, content) (_scan_server_logs_for_errors (server_logs w))) as Hfound
    by now apply scan_in.
  assert (Hd' := scan_nodup _ Hd). revert Hfound Hd'.
  walk w; intros Hfound Hd' H Hstop; try discriminate Hstop.
  after_finally H. rewrite Hkeep by discriminate. lookups.
  exact (lookup_logs_in ((found_name, found_content) :: error_logs) _ name content
                        Hd' Hfound).
Qed.

Lemma faulty_logs_are_attached_witness :
  exists res,
    evaluate Py.float_of_text
      (staged_world [ ("server_1.log", Some "listening on :8080");
                      ("server_2.log", Some "bind: Error 98");
                      ("server_3.log", None) ]
                    (Completed 0 "" "") [])
    = Ok res
    /\ ERROR_PATTERN "bind: Error 98" = true
    /\ artifacts res !! ("log_" ++ "server_2.log") = Some "bind: Error 98".
Proof.
  destruct (evaluate Py.float_of_text
              (staged_world [ ("server_1.log", Some "listening on :8080");
                              ("server_2.log", Some "bind: Error 98");
                              ("server_3.log", None) ]
                            (Completed 0 "" "") []))
    as [res|e] eqn:E; [|vm_compute in E; discriminate E].
  exists res. split; [reflexivity|]. split; [reflexivity|].
  apply (faulty_logs_are_attached _ _ res "server_2.log" "bind: Error 98" E).
  - reflexivity.
  - repeat (constructor; [simpl; intuition discriminate|]). constructor.
  - simpl. tauto.
  - reflexivity.
Defined.

(** *** From the summarizer to the result *)

(** X27. The metrics of the summarizer reach the result of the
    evaluator: when the metrics file holds what the summarizer wrote for
    its metrics, a run that gets past the checks on the stages, and whose
    teardown does not raise, returns a result, successful, whose
    throughput, latency and score are those metrics, each to the nearest
    millionth. *)
Theorem summarizer_metrics_reach_the_result (w : world) (m : Basic.RunMetrics)
    (records : list (list string)) :
  Basic.write_metrics_csv m = Ok records ->
  metrics_rows w = DictReader records ->
  explanation (stops_at Py.float_of_text w) = None ->
  teardown_raises w = None ->
  exists res,
    evaluate Py.float_of_text w = Ok res
    /\ metrics res !! "average_tput" = Some (reread (Basic.avg_req_per_sec m))
    /\ metrics res !! "average_latency" = Some (reread (Basic.avg_latency_ms m))
    /\ metrics res !! "total_score" = Some (reread (Basic.score m))
    /\ metrics res !! "run_successful" = Some 1
    /\ metrics res !! "compile_successful" = Some 1.
Proof.
  intros Hw Hrows Hstop Hdown.
  rewrite FormatFacts.write_metrics_csv_ok in Hw. inversion Hw; subst records; clear Hw.
  assert (Hparse := FormatFacts.parse_written_metrics m (metrics_path w)).
  rewrite <- Hrows in Hparse.
  assert (Hout := PipelineFacts.evaluate_outcome Py.float_of_text w).
  destruct (stops_at Py.float_of_text w); try discriminate Hstop.
  - inversion Hout; subst;
      try match goal with X : explanation _ = Some _ |- _ => discriminate X end;
      try match goal with
          | X : teardown_at _ _ = Some _ |- _ =>
              unfold teardown_at in X; simpl in X; rewrite Hdown in X; discriminate X
          end.
    match goal with
    | He : _parse_metrics_csv _ _ _ = Raise _ |- _ => rewrite Hparse in He; discriminate He
    end.
  - inversion Hout; subst;
      try match goal with X : explanation _ = Some _ |- _ => discriminate X end;
      try match goal with
          | X : teardown_at _ _ = Some _ |- _ =>
              unfold teardown_at in X; simpl in X; rewrite Hdown in X; discriminate X
          end.
    match goal with
    | Hp : _parse_metrics_csv _ _ _ = Ok _, Hm : metrics ?r = finished_metrics _ _ _ |- _ =>
        rewrite Hparse in Hp; inversion Hp; subst; clear Hp;
        exists r; split; [reflexivity|]; rewrite Hm
    end.
    unfold finished_metrics, compiled_metrics. repeat split; lookups; reflexivity.
Qed.

Lemma summarizer_metrics_reach_the_result_witness :
  exists res,
    evaluate Py.float_of_text
      (staged_world [("server_1.log", Some "listening")] (Completed 0 "" "")
                    (DictReader (metrics_records sample_metrics)))
    = Ok res
    /\ metrics res !! "average_tput" = Some 200
    /\ metrics res !! "average_latency" = Some 10
    /\ metrics res !! "total_score" = Some 20.
Proof.
  destruct (summarizer_metrics_reach_the_result
              (staged_world [("server_1.log", Some "listening")] (Completed 0 "" "")
                            (DictReader (metrics_records sample_metrics)))
              sample_metrics (metrics_records sample_metrics))
    as (res & E & Ht & Hl & Hs & _).
  - vm_compute; reflexivity.
  - reflexivity.
  - vm_compute; reflexivity.
  - reflexivity.
  - exists res. split; [exact E|].
    split; [rewrite Ht; vm_compute; reflexivity|].
    split; [rewrite Hl; vm_compute; reflexivity|].
    rewrite Hs; vm_compute; reflexivity.
Defined.

(** *** Shutting the launcher down *)

(** X28. The shutdown of the launcher escalates in order and always
    cleans up.  The calls made are a beginning of: interrupt, wait 15 s,
    terminate, wait 5 s, kill; followed in every case, also when a signal
    cannot be sent, by the join of the collector and the closing of the
    pipe.  A launcher that has already exited is sent nothing; one that
    exits within 15 s of the interrupt is sent nothing more; the kill comes
    only after both waits have run out. *)
Theorem shutdown_escalates_in_order (proc : process) (reader : bool) :
  (exists attempts,
      fst (_terminate_process (Some proc) reader) = (attempts ++ cleanup proc reader)%list
      /\ attempts `prefix_of` escalation
      /\ (poll proc <> None -> attempts = [])
      /\ (poll proc = None -> on_sigint proc = Delivered -> wait_15 proc = true ->
          attempts = [Killpg SIGINT; Wait 15])
      /\ (In Kill attempts -> wait_15 proc = false /\ wait_5 proc = false))
  /\ _terminate_process None reader = ([], None)
  /\ fst (_terminate_process (Some stubborn_process) true)
     = (escalation ++ [Join 2; CloseStdout])%list.
Proof.
  split; [|split; reflexivity].
  exists (fst (escalate proc)). split.
  { unfold _terminate_process, cleanup. now destruct (escalate proc). }
  unfold escalate, escalation.
  destruct (poll proc) as [code|]; cbn [fst].
  { split; [now exists escalation|]. split; [reflexivity|]. split; [discriminate|]. intros []. }
  split.
  { destruct (raised (on_sigint proc)); [eexists; reflexivity|].
    destruct (wait_15 proc); [eexists; reflexivity|].
    destruct (raised (on_sigterm proc)); [eexists; reflexivity|].
    destruct (wait_5 proc); eexists; cbn [fst]; [reflexivity | symmetry; apply app_nil_r]. }
  split; [intros X; now contradiction X|].
  split.
  { intros _ -> ->. reflexivity. }
  destruct (raised (on_sigint proc)); [simpl; intuition congruence|].
  destruct (wait_15 proc); [simpl; intuition congruence|].
  destruct (raised (on_sigterm proc)); [simpl; intuition congruence|].
  destruct (wait_5 proc); [simpl; intuition congruence|]. now split.
Qed.

End EvaluatorFacts.
